(** * MCV-club backend: a shallow embedding of [backend/server.js]

    The server is an Express application with four routes ([POST /register],
    [POST /login], [GET /profile], [PUT /profile]), two middlewares
    ([checkDatabaseConnection], [verifyToken]) and a reconnect loop
    ([connectWithRetry]) around a mongoose connection.

    The handlers are embedded as computations in a small state-and-exception
    monad over a [World]: the process variable [isConnected], the mongoose
    connection state, the [users] collection, the clock, and a journal of the
    calls made to the collaborators (mongoose, bcryptjs, jsonwebtoken).
    JavaScript exceptions are the [Throw] result; [try]/[catch] is
    [try_catch].  The reconnect loop is a step function over the events the
    runtime can deliver. *)

From Stdlib Require Import String Ascii List Bool NArith Arith Lia.
Import ListNotations.

Local Open Scope string_scope.
Local Open Scope N_scope.
Local Open Scope list_scope.

(* ------------------------------------------------------------------------- *)
(** ** JavaScript values used by the server *)

(** A thrown [Error]: the handlers read [err.name] and [err.message]. *)
Record Err := mkErr { err_name : string; err_message : string }.

(** A request-body field or a document path: [undefined] or a string. *)
Definition jsstring := option string.

(** JavaScript truthiness of such a value: [undefined] and the empty string
    are falsy. *)
Definition truthy (v : jsstring) : bool :=
  match v with
  | Some s => negb (s =? "")%string
  | None => false
  end.

Definition jsstring_eqb (a b : jsstring) : bool :=
  match a, b with
  | Some x, Some y => (x =? y)%string
  | None, None => true
  | _, _ => false
  end.

(** [s.split(sep)] for a one-character separator: the pieces between the
    occurrences of [sep]; never the empty array. *)
Fixpoint split (sep : ascii) (s : string) : list string :=
  match s with
  | EmptyString => [EmptyString]
  | String c rest =>
      if Ascii.eqb c sep then EmptyString :: split sep rest
      else match split sep rest with
           | [] => [String c EmptyString]
           | piece :: pieces => String c piece :: pieces
           end
  end.

(** A string without a space: one word of a header. *)
Fixpoint spaceless (s : string) : bool :=
  match s with
  | EmptyString => true
  | String c rest => negb (Ascii.eqb c " ") && spaceless rest
  end.

(** JSON bodies.  [JOid] is an ObjectId, [JDate] a [Date] (milliseconds). *)
#[warnings="-register-all"]
Inductive Json :=
| JNull
| JNum (n : N)
| JStr (s : string)
| JOid (id : N)
| JDate (ms : N)
| JObj (fields : list (string * Json)).

(** An object literal: a property whose value is [undefined] is dropped when
    the body is serialised. *)
Fixpoint object (props : list (string * option Json)) : list (string * Json) :=
  match props with
  | [] => []
  | (k, Some v) :: rest => (k, v) :: object rest
  | (_, None) :: rest => object rest
  end.

Definition jstr (v : jsstring) : option Json := option_map JStr v.

Fixpoint assoc (k : string) (fields : list (string * Json)) : option Json :=
  match fields with
  | [] => None
  | (k', v) :: rest => if (k =? k')%string then Some v else assoc k rest
  end.

(** [j.k] on a parsed body. *)
Definition field (k : string) (j : Json) : option Json :=
  match j with
  | JObj fields => assoc k fields
  | _ => None
  end.

(** Does the key occur anywhere in the body, at any depth? *)
Fixpoint mentions (k : string) (j : Json) : bool :=
  match j with
  | JObj fields =>
      (fix go (l : list (string * Json)) : bool :=
         match l with
         | [] => false
         | (k', v) :: rest => (k =? k')%string || mentions k v || go rest
         end) fields
  | _ => false
  end.

Record Response := mkResponse { status : N; body : Json }.

(** [req.headers.authorization], [req.body.{name,email,password}] and the
    [req.userId] that [verifyToken] attaches. *)
Record Request := mkRequest {
  authorization : jsstring;
  body_name : jsstring;
  body_email : jsstring;
  body_password : jsstring;
  userId : option N
}.

(* ------------------------------------------------------------------------- *)
(** ** The user schema (lines 122-129) *)

Record User := mkUser {
  _id : N;
  name : jsstring;          (* { type: String, required: true } *)
  email : jsstring;         (* { type: String, required: true, unique: true } *)
  password : jsstring;      (* { type: String, required: true } *)
  role : string;            (* { type: String, default: "member" } *)
  createdAt : N;            (* { type: Date, default: Date.now } *)
  lastLogin : option N      (* { type: Date } *)
}.

Definition option_N_eqb (a b : option N) : bool :=
  match a, b with
  | Some x, Some y => x =? y
  | None, None => true
  | _, _ => false
  end.

Definition User_eqb (a b : User) : bool :=
  (_id a =? _id b) && jsstring_eqb (name a) (name b)
  && jsstring_eqb (email a) (email b) && jsstring_eqb (password a) (password b)
  && (role a =? role b)%string && (createdAt a =? createdAt b)
  && option_N_eqb (lastLogin a) (lastLogin b).

(** A mongoose document held by a handler: the current values of its paths
    and, for a document that was fetched, the values it was fetched with
    ([None] for [new User(...)]).  A path is modified when its current value
    differs from the fetched one. *)
Record Document := mkDocument { doc : User; fetched : option User }.

(* ------------------------------------------------------------------------- *)
(** ** Process and environment state *)

(** The connection logic of lines 29-101: the flag [isConnected], the
    [mongoose.connect] promises not yet settled, the delays of the pending
    [setTimeout(connectWithRetry, delay)] callbacks, and the number of times
    [connectWithRetry] has been entered. *)
Record Gateway := mkGateway {
  isConnected : bool;
  connecting : nat;
  timeouts : list N;
  attempts : nat
}.

(** Calls to the collaborators, in the order they are made. *)
Inductive Call :=
| CallFindOne (e : jsstring)
| CallFindById (id : option N)
| CallSave (id : N)
| CallHash
| CallCompare
| CallSign (id : N)
| CallVerify (token : string).

Definition is_save (c : Call) : bool :=
  match c with CallSave _ => true | _ => false end.

Record World := mkWorld {
  gateway : Gateway;
  readyState : N;                 (* mongoose.connection.readyState *)
  users : list User;              (* the users collection, in natural order *)
  clock : N;                      (* Date.now(), milliseconds *)
  objectIds : N;                  (* the next ObjectId *)
  entropy : N;                    (* the next draw of the random source *)
  outage : nat -> option Err;     (* which store round trips fail, and how *)
  roundTrips : nat;               (* store round trips made so far *)
  journal : list Call
}.

Definition with_users (us : list User) (w : World) : World :=
  mkWorld (gateway w) (readyState w) us (clock w) (objectIds w) (entropy w)
          (outage w) (roundTrips w) (journal w).

Definition with_objectIds (n : N) (w : World) : World :=
  mkWorld (gateway w) (readyState w) (users w) (clock w) n (entropy w)
          (outage w) (roundTrips w) (journal w).

Definition with_entropy (n : N) (w : World) : World :=
  mkWorld (gateway w) (readyState w) (users w) (clock w) (objectIds w) n
          (outage w) (roundTrips w) (journal w).

Definition with_roundTrips (n : nat) (w : World) : World :=
  mkWorld (gateway w) (readyState w) (users w) (clock w) (objectIds w)
          (entropy w) (outage w) n (journal w).

Definition with_journal (j : list Call) (w : World) : World :=
  mkWorld (gateway w) (readyState w) (users w) (clock w) (objectIds w)
          (entropy w) (outage w) (roundTrips w) j.

(** The store is usable: the flag is set and mongoose reports "connected". *)
Definition up (w : World) : Prop :=
  isConnected (gateway w) = true /\ readyState w = 1.

(** No round trip to the store fails. *)
Definition healthy (w : World) : Prop := forall k, outage w k = None.

(* ------------------------------------------------------------------------- *)
(** ** The handler monad: state and exceptions *)

Inductive Result (A : Type) :=
| Ok (a : A)
| Throw (e : Err).
Arguments Ok {A} a.
Arguments Throw {A} e.

Definition M (A : Type) : Type := World -> Result A * World.

Definition ret {A} (a : A) : M A := fun w => (Ok a, w).

Definition throw {A} (e : Err) : M A := fun w => (Throw e, w).

Definition bind {A B} (c : M A) (k : A -> M B) : M B :=
  fun w =>
    match c w with
    | (Ok a, w') => k a w'
    | (Throw e, w') => (Throw e, w')
    end.

(** [try { c } catch (err) { h err }]: effects made before the throw stay. *)
Definition try_catch {A} (c : M A) (h : Err -> M A) : M A :=
  fun w =>
    match c w with
    | (Ok a, w') => (Ok a, w')
    | (Throw e, w') => h e w'
    end.

Notation "x <- c ;; k" := (bind c (fun x => k))
  (at level 61, c at next level, right associativity).

Definition record_call (c : Call) : M unit :=
  fun w => (Ok tt, with_journal (journal w ++ [c]) w).

(** One round trip to the store: it fails when the environment says so. *)
Definition round_trip : M unit :=
  fun w =>
    let w' := with_roundTrips (S (roundTrips w)) w in
    match outage w (roundTrips w) with
    | Some e => (Throw e, w')
    | None => (Ok tt, w')
    end.

Definition Date_now : M N := fun w => (Ok (clock w), w).

(** The body of an answer has a [message]. *)
Definition has_message (res : Response) : Prop :=
  exists m, field "message" (body res) = Some (JStr m).

(** A run of a route ends in an answer with a [message], never in an
    exception. *)
Definition answers (c : M Response) : Prop :=
  forall w, exists res w', c w = (Ok res, w') /\ has_message res.

(** Whenever the computation returns an answer, it has a [message]. *)
Definition answers_well (c : M Response) : Prop :=
  forall w res w', c w = (Ok res, w') -> has_message res.

(** A middleware run ends in an answer with a [message] or in [next()]. *)
Definition answers_or_passes (c : M (Response + Request)) : Prop :=
  forall w, exists r w',
    c w = (Ok r, w')
    /\ match r with inl res => has_message res | inr _ => True end.

(** A computation leaves an observation of the world as it was. *)
Definition preserves {A X} (obs : World -> X) (c : M A) : Prop :=
  forall w, obs (snd (c w)) = obs w.

(** The [save] calls made so far. *)
Definition saves (w : World) : list Call := filter is_save (journal w).

(* ------------------------------------------------------------------------- *)
(** ** The collaborators: jsonwebtoken, bcryptjs, mongoose *)

(** The payload of a token: [{ id, iat, exp }], times in seconds. *)
Record Claims := mkClaims { claim_id : N; iat : N; exp : N }.

(** What the deployment and the libraries provide.  The primitives that the
    server never looks into are left abstract: the bcrypt key derivation and
    its check, the HMAC of a token, the compact serialisation of a token, the
    document a query with an [undefined] filter value selects, and the value
    of [process.env.JWT_SECRET]. *)
Record Platform := mkPlatform {
  JWT_SECRET : option string;
  bcrypt_kdf : string -> N -> N -> string;
  bcrypt_check : string -> string -> bool;
  hs256 : string -> Claims -> string;
  jwt_encode : Claims -> string -> string;
  jwt_decode : string -> option (Claims * string);
  match_undefined : list User -> option User
}.

(** The contracts of the abstract primitives that some results rely on. *)
Definition bcrypt_sound (P : Platform) : Prop :=
  forall pw rounds salt,
    bcrypt_kdf P pw rounds salt <> ""
    /\ bcrypt_check P pw (bcrypt_kdf P pw rounds salt) = true.

Definition jwt_codec_sound (P : Platform) : Prop :=
  forall c sig, jwt_decode P (jwt_encode P c sig) = Some (c, sig).

Definition with_name (v : jsstring) (u : User) : User :=
  mkUser (_id u) v (email u) (password u) (role u) (createdAt u) (lastLogin u).

Definition with_email (v : jsstring) (u : User) : User :=
  mkUser (_id u) (name u) v (password u) (role u) (createdAt u) (lastLogin u).

Definition with_password (v : jsstring) (u : User) : User :=
  mkUser (_id u) (name u) (email u) v (role u) (createdAt u) (lastLogin u).

(** The paths that no route assigns. *)
Definition frozen (u : User) : N * jsstring * string * N * option N :=
  (_id u, password u, role u, createdAt u, lastLogin u).

(** [.select("-password")] *)
Definition minus_password (u : User) : User := with_password None u.

(** [$set] of the modified paths of a fetched document ([was] as fetched,
    [now] as held) on the stored document [u]. *)
Definition set_modified (was now u : User) : User :=
  mkUser (_id u)
    (if jsstring_eqb (name was) (name now) then name u else name now)
    (if jsstring_eqb (email was) (email now) then email u else email now)
    (if jsstring_eqb (password was) (password now) then password u
     else password now)
    (if (role was =? role now)%string then role u else role now)
    (if createdAt was =? createdAt now then createdAt u else createdAt now)
    (if option_N_eqb (lastLogin was) (lastLogin now) then lastLogin u
     else lastLogin now).

Fixpoint update_one (id : N) (f : User -> User) (us : list User) : list User :=
  match us with
  | [] => []
  | u :: rest => if _id u =? id then f u :: rest else u :: update_one id f rest
  end.

Definition by_id (id : N) (u : User) : bool := _id u =? id.
Definition by_email (e : string) (u : User) : bool :=
  jsstring_eqb (email u) (Some e).

Definition one_day : N := 86400.   (* expiresIn: "1d", in seconds *)

Section Server.

Variable P : Platform.

(** *** jsonwebtoken *)

(** Modelled from the spec: [jwt.sign] of the jsonwebtoken package, which is
    not part of the sources.  The token is a signed assertion of
    [{userId, issuedAt, expiry}] under the process-wide secret, the expiry
    being [expiresIn] seconds after issuance; signing fails when the secret is
    absent. *)
Definition jwt_sign (id : N) (expiresIn : N) : M string :=
  _ <- record_call (CallSign id) ;;
  match JWT_SECRET P with
  | None => throw (mkErr "Error" "secretOrPrivateKey must have a value")
  | Some key =>
      now <- Date_now ;;
      let c := mkClaims id (now / 1000) (now / 1000 + expiresIn) in
      ret (jwt_encode P c (hs256 P key c))
  end.

(** Modelled from the spec: [jwt.verify] of the jsonwebtoken package, which
    is not part of the sources.  It checks the structure of the token, then
    its signature under the secret, then its expiry, and returns the payload
    only if all are valid; each failure is an exception of its own kind. *)
Definition jwt_verify (token : string) : M Claims :=
  _ <- record_call (CallVerify token) ;;
  match jwt_decode P token with
  | None => throw (mkErr "JsonWebTokenError" "jwt malformed")
  | Some (c, sig) =>
      match JWT_SECRET P with
      | None =>
          throw (mkErr "JsonWebTokenError"
                       "secret or public key must be provided")
      | Some key =>
          if (sig =? hs256 P key c)%string then
            now <- Date_now ;;
            if exp c <=? now / 1000
            then throw (mkErr "TokenExpiredError" "jwt expired")
            else ret c
          else throw (mkErr "JsonWebTokenError" "invalid signature")
      end
  end.

(** *** bcryptjs *)

(** Modelled from the spec: [bcrypt.hash] of the bcryptjs package, which is
    not part of the sources.  A salted one-way hash, salted per call from the
    random source; a password that is not a string is an exception. *)
Definition bcrypt_hash (pw : jsstring) (rounds : N) : M string :=
  _ <- record_call CallHash ;;
  match pw with
  | None => throw (mkErr "Error" "Illegal arguments: undefined, number")
  | Some s =>
      fun w => (Ok (bcrypt_kdf P s rounds (entropy w)),
                with_entropy (entropy w + 1) w)
  end.

(** Modelled from the spec: [bcrypt.compare] of the bcryptjs package, which
    is not part of the sources.  True iff the plaintext hashes to the stored
    value under the stored salt and parameters; arguments that are not
    strings are an exception. *)
Definition bcrypt_compare (pw hashed : jsstring) : M bool :=
  _ <- record_call CallCompare ;;
  match pw, hashed with
  | Some s, Some h => ret (bcrypt_check P s h)
  | _, _ => throw (mkErr "Error" "Illegal arguments")
  end.

(** *** mongoose: the [User] model *)

(** Modelled from the spec: [User.findOne({ email })] of mongoose, which is
    not part of the sources.  A pass-through lookup by email: the first
    stored document with that email, or none. *)
Definition User_findOne (e : jsstring) : M (option Document) :=
  _ <- record_call (CallFindOne e) ;;
  _ <- round_trip ;;
  fun w =>
    let hit := match e with
               | Some s => find (by_email s) (users w)
               | None => match_undefined P (users w)
               end in
    (Ok (option_map (fun u => mkDocument u (Some u)) hit), w).

(** Modelled from the spec: [User.findById(id)] of mongoose, which is not
    part of the sources, followed by an optional [.select(...)].  A
    pass-through lookup by id; an [undefined] id finds nothing. *)
Definition User_findById (id : option N) (select : User -> User)
  : M (option Document) :=
  _ <- record_call (CallFindById id) ;;
  _ <- round_trip ;;
  fun w =>
    let hit := match id with
               | Some i => find (by_id i) (users w)
               | None => None
               end in
    (Ok (option_map (fun u => mkDocument (select u) (Some (select u))) hit), w).

(** [new User({ name, email, password })]: a fresh [_id], the schema defaults
    for [role] and [createdAt], no [lastLogin]. *)
Definition new_User (n e p : jsstring) : M Document :=
  fun w =>
    (Ok (mkDocument (mkUser (objectIds w) n e p "member" (clock w) None) None),
     with_objectIds (objectIds w + 1) w).

(** The document that a successful registration of [{n, e, p}] stores. *)
Definition registered (w : World) (n e p : string) : User :=
  mkUser (objectIds w) (Some n) (Some e)
         (Some (bcrypt_kdf P p 10 (entropy w))) "member" (clock w) None.

(** The [required: true] validators of the schema. *)
Definition required_ok (u : User) : bool :=
  truthy (name u) && truthy (email u) && truthy (password u).

Definition modified_required_ok (was now : User) : bool :=
  (jsstring_eqb (name was) (name now) || truthy (name now))
  && (jsstring_eqb (email was) (email now) || truthy (email now))
  && (jsstring_eqb (password was) (password now) || truthy (password now)).

Definition duplicate_key : Err :=
  mkErr "MongoServerError" "E11000 duplicate key error".

(** Modelled from the spec: [document.save()] of mongoose, which is not part
    of the sources.  A new document is validated and inserted; a fetched one
    has its modified paths validated and written, and nothing is sent when no
    path is modified.  The store enforces the uniqueness of [email]. *)
Definition save (d : Document) : M unit :=
  _ <- record_call (CallSave (_id (doc d))) ;;
  match fetched d with
  | None =>
      if required_ok (doc d) then
        _ <- round_trip ;;
        fun w =>
          if existsb (fun u => jsstring_eqb (email u) (email (doc d))) (users w)
          then (Throw duplicate_key, w)
          else (Ok tt, with_users (users w ++ [doc d]) w)
      else throw (mkErr "ValidationError" "User validation failed")
  | Some was =>
      if User_eqb was (doc d) then ret tt
      else if modified_required_ok was (doc d) then
        _ <- round_trip ;;
        fun w =>
          if negb (existsb (by_id (_id (doc d))) (users w))
          then (Throw (mkErr "DocumentNotFoundError"
                             "No document found for query"), w)
          else if negb (jsstring_eqb (email was) (email (doc d)))
                  && existsb (fun u => negb (by_id (_id (doc d)) u)
                                       && jsstring_eqb (email u) (email (doc d)))
                             (users w)
          then (Throw duplicate_key, w)
          else (Ok tt,
                with_users (update_one (_id (doc d))
                                       (set_modified was (doc d)) (users w)) w)
      else throw (mkErr "ValidationError" "User validation failed")
  end.

(* ------------------------------------------------------------------------- *)
(** ** Middlewares *)

Definition message (m : string) : Json := JObj [("message", JStr m)].

(** A middleware answers, or calls [next()] with the request. *)
Definition Middleware := Request -> M (Response + Request).

(** [app.METHOD(path, middleware, handler)]. *)
Definition route (mw : Middleware) (handler : Request -> M Response)
  : Request -> M Response :=
  fun req =>
    r <- mw req ;;
    match r with
    | inl res => ret res
    | inr req' => handler req'
    end.

(** Lines 104-113. *)
Definition checkDatabaseConnection : Middleware :=
  fun req w =>
    if negb (isConnected (gateway w)) || negb (readyState w =? 1) then
      (Ok (inl (mkResponse 503
         (JObj [("message",
                 JStr "Database connection not ready. Please try again in a few seconds.");
                ("error", JStr "Database connection not established");
                ("state", JNum (readyState w))]))), w)
    else (Ok (inr req), w).

(** [req.headers.authorization?.split(" ")[1]] *)
Definition bearer (req : Request) : jsstring :=
  match authorization req with
  | None => None
  | Some h => nth_error (split " "%char h) 1%nat
  end.

Definition with_userId (id : N) (req : Request) : Request :=
  mkRequest (authorization req) (body_name req) (body_email req)
            (body_password req) (Some id).

(** Lines 247-258. *)
Definition verifyToken : Middleware :=
  fun req =>
    match bearer req with
    | Some token =>
        if truthy (Some token) then
          try_catch
            (decoded <- jwt_verify token ;;
             ret (inr (with_userId (claim_id decoded) req)))
            (fun _ => ret (inl (mkResponse 400 (message "Invalid Token"))))
        else ret (inl (mkResponse 401 (message "Access Denied")))
    | None => ret (inl (mkResponse 401 (message "Access Denied")))
    end.

(* ------------------------------------------------------------------------- *)
(** ** Route handlers *)

Definition user_summary (u : User) : Json :=
  JObj (object [("id", Some (JOid (_id u)));
                ("name", jstr (name u));
                ("email", jstr (email u))]).

(** Lines 136-152, the [try] block of [POST /register]. *)
Definition register_try (req : Request) : M Response :=
  existingUser <- User_findOne (body_email req) ;;
  match existingUser with
  | Some _ => ret (mkResponse 400 (message "User already exists"))
  | None =>
      hashedPassword <- bcrypt_hash (body_password req) 10 ;;
      newUser <- new_User (body_name req) (body_email req)
                          (Some hashedPassword) ;;
      _ <- save newUser ;;
      token <- jwt_sign (_id (doc newUser)) one_day ;;
      ret (mkResponse 201
             (JObj [("message", JStr "User registered successfully");
                    ("token", JStr token);
                    ("user", user_summary (doc newUser))]))
  end.

(** Lines 153-156, its [catch] block. *)
Definition register_catch (err : Err) : M Response :=
  ret (mkResponse 500
         (JObj [("message", JStr "Error registering user");
                ("error", JStr (err_message err))])).

(** Lines 133-157, the handler of [POST /register]. *)
Definition register_handler (req : Request) : M Response :=
  try_catch (register_try req) register_catch.

(** Lines 160-183, the handler of [POST /login]. *)
Definition login_handler (req : Request) : M Response :=
  try_catch
    (user <- User_findOne (body_email req) ;;
     match user with
     | None => ret (mkResponse 404 (message "User not found"))
     | Some u =>
         isMatch <- bcrypt_compare (body_password req) (password (doc u)) ;;
         if isMatch then
           token <- jwt_sign (_id (doc u)) one_day ;;
           ret (mkResponse 200
                  (JObj [("message", JStr "Login successful");
                         ("token", JStr token);
                         ("user", user_summary (doc u))]))
         else ret (mkResponse 401 (message "Invalid credentials"))
     end)
    (fun err =>
       ret (mkResponse 500
              (JObj [("message", JStr "Login failed");
                     ("error", JStr (err_message err))]))).

(** [user.role || "member"] *)
Definition role_or_member (u : User) : string :=
  if (role u =? "")%string then "member" else role u.

(** Lines 194-202, the object [userProfile]. *)
Definition userProfile (user : User) (now : N) : Json :=
  JObj (object
          [("id", Some (JOid (_id user)));
           ("name", jstr (name user));
           ("email", jstr (email user));
           ("role", Some (JStr (role_or_member user)));
           ("createdAt", Some (JDate (createdAt user)));
           ("lastLogin",
            Some (JDate (match lastLogin user with
                         | Some t => t
                         | None => now
                         end)))]).

(** Lines 186-212, the handler of [GET /profile]. *)
Definition get_profile_handler (req : Request) : M Response :=
  try_catch
    (user <- User_findById (userId req) minus_password ;;
     match user with
     | None => ret (mkResponse 404 (message "User not found"))
     | Some u =>
         now <- Date_now ;;
         ret (mkResponse 200
                (JObj [("message", JStr "Profile retrieved successfully");
                       ("profile", userProfile (doc u) now)]))
     end)
    (fun _ => ret (mkResponse 500 (message "Error retrieving profile"))).

(** Lines 232-238, the [profile] object of the answer. *)
Definition updatedProfile (user : User) (now : N) : Json :=
  JObj (object [("id", Some (JOid (_id user)));
                ("name", jstr (name user));
                ("email", jstr (email user));
                ("role", Some (JStr (role_or_member user)));
                ("updatedAt", Some (JDate now))]).

(** Lines 225-226: [if (name) user.name = name; if (email) user.email = email]. *)
Definition assign_profile (req : Request) (user : User) : User :=
  let user1 := if truthy (body_name req)
               then with_name (body_name req) user else user in
  if truthy (body_email req) then with_email (body_email req) user1 else user1.

(** Lines 215-244, the handler of [PUT /profile]. *)
Definition put_profile_handler (req : Request) : M Response :=
  try_catch
    (user <- User_findById (userId req) (fun u => u) ;;
     match user with
     | None => ret (mkResponse 404 (message "User not found"))
     | Some u =>
         let user' := mkDocument (assign_profile req (doc u)) (fetched u) in
         _ <- save user' ;;
         now <- Date_now ;;
         ret (mkResponse 200
                (JObj [("message", JStr "Profile updated successfully");
                       ("profile", updatedProfile (doc user') now)]))
     end)
    (fun _ => ret (mkResponse 500 (message "Error updating profile"))).

(** The routes of the first file. *)
Definition post_register := route checkDatabaseConnection register_handler.
Definition post_login := route checkDatabaseConnection login_handler.
Definition get_profile := route verifyToken get_profile_handler.
Definition put_profile := route verifyToken put_profile_handler.

(** The routes of the second file (lines 342-396): no readiness gate in
    front of the same [register] and [login] handlers, and a [GET /profile]
    without [try]/[catch] that answers with the document itself. *)
Definition post_register_ungated := register_handler.
Definition post_login_ungated := login_handler.

(** [res.json(user)]: the paths of the second file's schema; the version key
    that mongoose adds to a document is left out. *)
Definition document_json (u : User) : Json :=
  JObj (object [("_id", Some (JOid (_id u)));
                ("name", jstr (name u));
                ("email", jstr (email u));
                ("password", jstr (password u))]).

Definition get_profile_uncaught : Request -> M Response :=
  route verifyToken
    (fun req =>
       user <- User_findById (userId req) minus_password ;;
       ret (mkResponse 200 (match user with
                            | Some u => document_json (doc u)
                            | None => JNull
                            end))).

(** The token service of the spec, as the server uses jsonwebtoken:
    [issue] is the [jwt.sign] call of lines 146 and 172, [verify] is the
    [try]/[catch] around [jwt.verify] of lines 251-257. *)
Inductive Verdict := Valid (id : N) | Invalid.

Definition issue (id : N) : M string := jwt_sign id one_day.

Definition verify (token : string) : M Verdict :=
  try_catch (decoded <- jwt_verify token ;; ret (Valid (claim_id decoded)))
            (fun _ => ret Invalid).

End Server.

(* ------------------------------------------------------------------------- *)
(** ** The reconnect loop (lines 29-101) *)

(** What the runtime can deliver to the connection logic: the outcome of a
    pending [mongoose.connect], the three connection events that have a
    listener, and the firing of a pending timeout. *)
Inductive Event :=
| ConnectResolved
| ConnectRejected (err : Err)
| OnConnected
| OnError (err : Err)
| OnDisconnected
| TimeoutFired.

Definition set_isConnected (b : bool) (g : Gateway) : Gateway :=
  mkGateway b (connecting g) (timeouts g) (attempts g).

(** [setTimeout(connectWithRetry, delay)] *)
Definition setTimeout (delay : N) (g : Gateway) : Gateway :=
  mkGateway (isConnected g) (connecting g) (timeouts g ++ [delay]) (attempts g).

(** Entering [connectWithRetry]: it runs up to [await mongoose.connect]. *)
Definition connectWithRetry (g : Gateway) : Gateway :=
  mkGateway (isConnected g) (S (connecting g)) (timeouts g) (S (attempts g)).

Definition settle (g : Gateway) : Gateway :=
  mkGateway (isConnected g) (pred (connecting g)) (timeouts g) (attempts g).

Definition step (ev : Event) (g : Gateway) : option Gateway :=
  match ev with
  | ConnectResolved =>                       (* lines 49-57 *)
      match connecting g with
      | O => None
      | S _ => Some (set_isConnected true (settle g))
      end
  | ConnectRejected _ =>                     (* lines 59-76 *)
      match connecting g with
      | O => None
      | S _ => Some (setTimeout 5000 (set_isConnected false (settle g)))
      end
  | OnConnected => Some (set_isConnected true g)            (* lines 83-87 *)
  | OnError _ => Some (set_isConnected false g)             (* lines 89-93 *)
  | OnDisconnected =>                                       (* lines 95-101 *)
      Some (connectWithRetry (set_isConnected false g))
  | TimeoutFired =>
      match timeouts g with
      | [] => None
      | _ :: rest =>
          Some (connectWithRetry
                  (mkGateway (isConnected g) (connecting g) rest (attempts g)))
      end
  end.

Fixpoint run (evs : list Event) (g : Gateway) : option Gateway :=
  match evs with
  | [] => Some g
  | ev :: rest =>
      match step ev g with
      | Some g' => run rest g'
      | None => None
      end
  end.

(** Line 29 and the call of line 80. *)
Definition startup : Gateway := connectWithRetry (mkGateway false 0 [] 0).

(** A reconnect is under way: an attempt is pending or a retry is scheduled. *)
Definition reconnecting (g : Gateway) : bool :=
  negb (Nat.eqb (connecting g) 0) || negb (Nat.eqb (length (timeouts g)) 0).

(** The gateway is connected or on its way to be. *)
Definition alive (g : Gateway) : Prop :=
  isConnected g = true \/ reconnecting g = true.

Definition is_on_error (ev : Event) : bool :=
  match ev with OnError _ => true | _ => false end.

(** [n] failed attempts in a row, each retried when its timeout fires. *)
Fixpoint failures (err : Err) (n : nat) : list Event :=
  match n with
  | O => []
  | S m => ConnectRejected err :: TimeoutFired :: failures err m
  end.

(* ------------------------------------------------------------------------- *)
(** ** A reference platform

    A small instance of [Platform] on which the handlers can be run: the
    secret is set, the key derivation keeps the plaintext behind a marker,
    a token is its three claims in binary followed by the signature, and the
    signature is the key followed by the claims. *)
Module Reference.

Fixpoint bits (p : positive) : string :=
  match p with
  | xI q => String "1" (bits q)
  | xO q => String "0" (bits q)
  | xH => EmptyString
  end.

Definition digits (n : N) : string :=
  match n with
  | N0 => String "z" EmptyString
  | Npos p => String "p" (bits p ++ ",")
  end.

Fixpoint read_bits (s : string) : option (positive * string) :=
  match s with
  | String "1" rest =>
      match read_bits rest with
      | Some (q, tail) => Some (xI q, tail)
      | None => None
      end
  | String "0" rest =>
      match read_bits rest with
      | Some (q, tail) => Some (xO q, tail)
      | None => None
      end
  | String "," rest => Some (xH, rest)
  | _ => None
  end.

Definition read_digits (s : string) : option (N * string) :=
  match s with
  | String "z" rest => Some (N0, rest)
  | String "p" rest =>
      match read_bits rest with
      | Some (q, tail) => Some (Npos q, tail)
      | None => None
      end
  | _ => None
  end.

Definition encode (c : Claims) (sig : string) : string :=
  digits (claim_id c) ++ digits (iat c) ++ digits (exp c) ++ sig.

Definition decode (s : string) : option (Claims * string) :=
  match read_digits s with
  | Some (i, s1) =>
      match read_digits s1 with
      | Some (t, s2) =>
          match read_digits s2 with
          | Some (x, sig) => Some (mkClaims i t x, sig)
          | None => None
          end
      | None => None
      end
  | None => None
  end.

Definition platform : Platform :=
  mkPlatform (Some "secret")
             (fun pw _ _ => String "$" pw)
             (fun pw hashed => (hashed =? String "$" pw)%string)
             (fun key c => key ++ String "/" (encode c EmptyString))%string
             encode decode
             (fun _ => None).

Definition gateway_up : Gateway := mkGateway true 0 [] 1.

Definition world (us : list User) (t : N) : World :=
  mkWorld gateway_up 1 us t 100 7 (fun _ => None) 0 [].

(** The same world with the readiness flag cleared. *)
Definition offline (us : list User) (t : N) : World :=
  mkWorld (mkGateway false 1 [] 1) 0 us t 100 7 (fun _ => None) 0 [].

(** The same world with a store that times out on every round trip. *)
Definition unreachable (us : list User) (t : N) : World :=
  mkWorld gateway_up 1 us t 100 7
          (fun _ => Some (mkErr "MongoNetworkError" "connection timed out"))
          0 [].

Definition alice : User :=
  mkUser 1 (Some "Alice") (Some "alice@mcv.club") (Some "$wonderland")
         "member" 1000 None.

Definition request (auth n e p : jsstring) : Request :=
  mkRequest auth n e p None.

(** The token that [issue] gives Alice at time 5000. *)
Definition alice_token : string :=
  "p,p10,p1010000110001010,secret/p,p10,p1010000110001010,".

Definition alice_claims : Claims := mkClaims 1 5 86405.

Definition bob : User :=
  mkUser 2 (Some "Bob") (Some "bob@mcv.club") (Some "$hunter2")
         "member" 2000 None.

(** The same platform in a deployment that sets no [JWT_SECRET]. *)
Definition platform_without_secret : Platform :=
  mkPlatform None
             (fun pw _ _ => String "$" pw)
             (fun pw hashed => (hashed =? String "$" pw)%string)
             (fun key c => key ++ String "/" (encode c EmptyString))%string
             encode decode
             (fun _ => None).

End Reference.

(* ------------------------------------------------------------------------- *)
(** ** The process as a whole, and the second file's reconnect loop *)

Definition with_gateway (g : Gateway) (w : World) : World :=
  mkWorld g (readyState w) (users w) (clock w) (objectIds w) (entropy w)
          (outage w) (roundTrips w) (journal w).

(** The runtime delivers an event: the connection logic reacts, and the
    handlers that run afterwards read the flag it left. *)
Definition deliver (ev : Event) (w : World) : option World :=
  match step ev (gateway w) with
  | Some g => Some (with_gateway g w)
  | None => None
  end.

(** The events whose listener or branch clears the flag (lines 64, 92, 98). *)
Definition clears_flag (ev : Event) : bool :=
  match ev with
  | ConnectRejected _ | OnError _ | OnDisconnected => true
  | _ => false
  end.

(** The events whose listener or branch sets the flag (lines 50, 86). *)
Definition sets_flag (ev : Event) : bool :=
  match ev with
  | ConnectResolved | OnConnected => true
  | _ => false
  end.

Definition is_resolved (ev : Event) : bool :=
  match ev with ConnectResolved => true | _ => false end.

Definition is_rejected (ev : Event) : bool :=
  match ev with ConnectRejected _ => true | _ => false end.

Definition is_disconnected (ev : Event) : bool :=
  match ev with OnDisconnected => true | _ => false end.

Definition is_timeout (ev : Event) : bool :=
  match ev with TimeoutFired => true | _ => false end.

Definition count (p : Event -> bool) (evs : list Event) : nat :=
  length (filter p evs).

(** The reconnect loop of the second file (lines 291-325): the same
    [connectWithRetry] without the flag, which that file does not have; its
    [connected] and [error] listeners only log.  The field [isConnected] of
    the state is never written. *)
Definition step_plain (ev : Event) (g : Gateway) : option Gateway :=
  match ev with
  | ConnectResolved =>                       (* lines 293-301 *)
      match connecting g with
      | O => None
      | S _ => Some (settle g)
      end
  | ConnectRejected _ =>                     (* lines 302-306 *)
      match connecting g with
      | O => None
      | S _ => Some (setTimeout 5000 (settle g))
      end
  | OnConnected => Some g                    (* lines 313-315 *)
  | OnError _ => Some g                      (* lines 317-319 *)
  | OnDisconnected => Some (connectWithRetry g)            (* lines 321-325 *)
  | TimeoutFired =>
      match timeouts g with
      | [] => None
      | _ :: rest =>
          Some (connectWithRetry
                  (mkGateway (isConnected g) (connecting g) rest (attempts g)))
      end
  end.

Fixpoint run_plain (evs : list Event) (g : Gateway) : option Gateway :=
  match evs with
  | [] => Some g
  | ev :: rest =>
      match step_plain ev g with
      | Some g' => run_plain rest g'
      | None => None
      end
  end.

(** What the two loops have in common: attempts pending, retries scheduled,
    attempts made. *)
Definition schedule (g : Gateway) : nat * list N * nat :=
  (connecting g, timeouts g, attempts g).

(* ------------------------------------------------------------------------- *)
(** ** Observations and invariants of the store *)

(** What no route writes: the connection logic's state, the connection
    state of mongoose, the clock and the environment's failures. *)
Definition surroundings (w : World)
  : Gateway * N * N * (nat -> option Err) :=
  (gateway w, readyState w, clock w, outage w).

(** What only an insert changes: the documents' ids and the id supply. *)
Definition allocation (w : World) : list N * N :=
  (map _id (users w), objectIds w).

(** The collection as the store keeps it: ids are unique and older than the
    next ObjectId, and emails are unique (the [unique: true] index). *)
Definition well_formed (w : World) : Prop :=
  NoDup (map _id (users w))
  /\ Forall (fun u => _id u < objectIds w) (users w)
  /\ NoDup (map email (users w)).

(** Every answer the computation returns satisfies [Q]. *)
Definition returns_only (Q : Response -> Prop) (c : M Response) : Prop :=
  forall w res w', c w = (Ok res, w') -> Q res.

(** Every answer the middleware gives itself satisfies [Q]. *)
Definition answers_only (Q : Response -> Prop) (c : M (Response + Request))
  : Prop :=
  forall w res w', c w = (Ok (inl res), w') -> Q res.

(** No [password] key occurs in the body, at any depth. *)
Definition password_free (res : Response) : Prop :=
  mentions "password" (body res) = false.

(** The records of the users other than [id]. *)
Definition others (id : N) (us : list User) : list User :=
  filter (fun u => negb (by_id id u)) us.

(* ========================================================================= *)
(** * Properties *)

(** ** Equality tests *)

Lemma jsstring_eqb_refl (a : jsstring) : jsstring_eqb a a = true.
Proof. destruct a; simpl; [apply String.eqb_refl | reflexivity]. Qed.

Lemma jsstring_eqb_eq (a b : jsstring) : jsstring_eqb a b = true <-> a = b.
Proof.
  destruct a, b; simpl; split; intro H; try discriminate; try reflexivity.
  - apply String.eqb_eq in H. now subst.
  - injection H as ->. apply String.eqb_refl.
Qed.

Lemma User_eqb_refl (u : User) : User_eqb u u = true.
Proof.
  unfold User_eqb.
  rewrite !N.eqb_refl, !jsstring_eqb_refl, String.eqb_refl.
  destruct (lastLogin u); simpl; [apply N.eqb_refl | reflexivity].
Qed.

Lemma option_N_eqb_eq (a b : option N) : option_N_eqb a b = true -> a = b.
Proof.
  destruct a, b; simpl; intro H; try discriminate; try reflexivity.
  apply N.eqb_eq in H. now subst.
Qed.

Lemma User_eqb_eq (a b : User) : User_eqb a b = true -> a = b.
Proof.
  destruct a as [i1 n1 e1 p1 r1 c1 l1], b as [i2 n2 e2 p2 r2 c2 l2].
  unfold User_eqb; simpl. rewrite !andb_true_iff.
  intros [[[[[[Hi Hn] He] Hp] Hr] Hc] Hl].
  apply N.eqb_eq in Hi, Hc. apply jsstring_eqb_eq in Hn, He, Hp.
  apply String.eqb_eq in Hr. apply option_N_eqb_eq in Hl.
  now subst.
Qed.

(** ** Lists of users *)

Lemma find_by_email_none (e : string) (us : list User) :
  (forall u, In u us -> email u <> Some e) -> find (by_email e) us = None.
Proof.
  intro H. induction us as [|u rest IH]; simpl; [reflexivity|].
  destruct (by_email e u) eqn:E.
  - exfalso. apply (H u); [now left|].
    unfold by_email in E. now apply jsstring_eqb_eq in E.
  - apply IH. intros v Hv. apply H. now right.
Qed.

Lemma find_by_email_some (e : string) (us : list User) (u : User) :
  In u us -> email u = Some e -> exists v, find (by_email e) us = Some v.
Proof.
  intros Hin He. induction us as [|x rest IH]; simpl; [contradiction|].
  destruct (by_email e x) eqn:E; [now exists x|].
  destruct Hin as [->|Hin]; [|now apply IH].
  unfold by_email in E. rewrite He, jsstring_eqb_refl in E. discriminate.
Qed.

Lemma find_app_fresh (f : User -> bool) (us : list User) (u : User) :
  find f us = None -> f u = true -> find f (us ++ [u]) = Some u.
Proof.
  intros Hn Hu. induction us as [|x rest IH]; simpl in *.
  - now rewrite Hu.
  - destruct (f x); [discriminate | now apply IH].
Qed.

Lemma existsb_email_fresh (e : string) (us : list User) :
  (forall u, In u us -> email u <> Some e) ->
  existsb (fun u => jsstring_eqb (email u) (Some e)) us = false.
Proof.
  intro H. induction us as [|u rest IH]; simpl; [reflexivity|].
  rewrite IH by (intros v Hv; apply H; now right).
  destruct (jsstring_eqb (email u) (Some e)) eqn:E; [|reflexivity].
  apply jsstring_eqb_eq in E. exfalso. apply (H u); [now left | exact E].
Qed.

Lemma existsb_by_id_found (i : N) (us : list User) (u : User) :
  find (by_id i) us = Some u -> existsb (by_id i) us = true.
Proof.
  induction us as [|x rest IH]; simpl; [discriminate|].
  destruct (by_id i x); [reflexivity | exact IH].
Qed.

Lemma update_one_ext (i : N) (f g : User -> User) (us : list User) (u : User) :
  find (by_id i) us = Some u -> f u = g u ->
  update_one i f us = update_one i g us.
Proof.
  induction us as [|x rest IH]; simpl; [discriminate|].
  unfold by_id at 1. destruct (_id x =? i).
  - intros [= ->] ->. reflexivity.
  - intros Hf Hfg. now rewrite IH.
Qed.

Lemma update_one_fixed (i : N) (f : User -> User) (us : list User) (u : User) :
  find (by_id i) us = Some u -> f u = u -> update_one i f us = us.
Proof.
  induction us as [|x rest IH]; simpl; [discriminate|].
  unfold by_id at 1. destruct (_id x =? i).
  - intros [= ->] ->. reflexivity.
  - intros Hf Hfg. now rewrite IH.
Qed.

Lemma find_update_one (i : N) (f : User -> User) (us : list User) (u : User) :
  find (by_id i) us = Some u -> _id (f u) = _id u ->
  find (by_id i) (update_one i f us) = Some (f u).
Proof.
  induction us as [|x rest IH]; simpl; [discriminate|].
  unfold by_id at 1. destruct (_id x =? i) eqn:E.
  - intros [= ->] Hid. simpl. unfold by_id. now rewrite Hid, E.
  - intros Hf Hid. simpl. unfold by_id at 1. rewrite E. now apply IH.
Qed.

Lemma find_by_id_id (i : N) (us : list User) (u : User) :
  find (by_id i) us = Some u -> _id u = i.
Proof.
  intro H. apply find_some in H. destruct H as [_ H].
  unfold by_id in H. now apply N.eqb_eq in H.
Qed.

Lemma split_spaceless (s : string) :
  spaceless s = true -> split " " s = [s].
Proof.
  induction s as [|c rest IH]; simpl; [reflexivity|].
  destruct (Ascii.eqb c " "); simpl; [discriminate|].
  intro H. now rewrite (IH H).
Qed.

Lemma split_first_word (s rest : string) :
  spaceless s = true ->
  split " " (s ++ String " " rest)%string = s :: split " " rest.
Proof.
  induction s as [|c tail IH]; simpl; [reflexivity|].
  destruct (Ascii.eqb c " "); simpl; [discriminate|].
  intro H. now rewrite (IH H).
Qed.

Lemma map_update_one {X} (g : User -> X) (i : N) (f : User -> User)
      (us : list User) :
  (forall x, g (f x) = g x) -> map g (update_one i f us) = map g us.
Proof.
  intro H. induction us as [|u rest IH]; simpl; [reflexivity|].
  destruct (_id u =? i); simpl; [now rewrite H | now rewrite IH].
Qed.

Lemma option_N_eqb_refl (a : option N) : option_N_eqb a a = true.
Proof. destruct a; simpl; [apply N.eqb_refl | reflexivity]. Qed.

Lemma others_update_one (i : N) (f : User -> User) (us : list User) :
  (forall x, _id (f x) = _id x) ->
  others i (update_one i f us) = others i us.
Proof.
  intro Hf. unfold others, by_id.
  induction us as [|u rest IH]; simpl; [reflexivity|].
  destruct (_id u =? i) eqn:E; simpl.
  - now rewrite Hf, E.
  - rewrite E. simpl. now rewrite IH.
Qed.

Section Properties.

Variable P : Platform.

(** ** The readiness gate *)

Lemma gate_open (req : Request) (w : World) :
  up w -> checkDatabaseConnection req w = (Ok (inr req), w).
Proof.
  intros [Hc Hr]. unfold checkDatabaseConnection.
  now rewrite Hc, Hr.
Qed.

Lemma gate_closed (req : Request) (w : World) :
  isConnected (gateway w) = false ->
  exists res, checkDatabaseConnection req w = (Ok (inl res), w)
              /\ status res = 503
              /\ field "state" (body res) = Some (JNum (readyState w))
              /\ exists m, field "message" (body res) = Some (JStr m).
Proof.
  intro Hc. unfold checkDatabaseConnection. rewrite Hc. simpl.
  eexists. split; [reflexivity|]. simpl. repeat split. eexists. reflexivity.
Qed.

(** C4.  When the readiness flag [isConnected] is false, [POST /register] and
    [POST /login] answer 503 with the current connection state in the body,
    and the world is left as it was: in particular nothing is added to the
    journal, so no store operation (find, insert, save) was invoked. *)
Theorem unready_store_is_not_touched (req : Request) (w : World) :
  isConnected (gateway w) = false ->
  (exists res, post_register P req w = (Ok res, w)
               /\ status res = 503
               /\ field "state" (body res) = Some (JNum (readyState w)))
  /\ (exists res, post_login P req w = (Ok res, w)
                  /\ status res = 503
                  /\ field "state" (body res) = Some (JNum (readyState w)))
  /\ journal (snd (post_register P req w)) = journal w
  /\ journal (snd (post_login P req w)) = journal w.
Proof.
  intro Hc.
  destruct (gate_closed req w Hc) as (res & Hg & Hs & Hf & _).
  assert (Hr : post_register P req w = (Ok res, w)).
  { unfold post_register, route, bind. now rewrite Hg. }
  assert (Hl : post_login P req w = (Ok res, w)).
  { unfold post_login, route, bind. now rewrite Hg. }
  rewrite Hr, Hl. simpl. repeat split; exists res; auto.
Qed.

(** ** Registration *)

Lemma register_gate_open (req : Request) (w : World) :
  up w -> post_register P req w = register_handler P req w.
Proof.
  intro H. unfold post_register, route, bind. now rewrite gate_open.
Qed.

Lemma login_gate_open (req : Request) (w : World) :
  up w -> post_login P req w = login_handler P req w.
Proof.
  intro H. unfold post_login, route, bind. now rewrite gate_open.
Qed.

(** Whatever happens, [register] only ever appends to the collection. *)
Lemma register_try_users (req : Request) (w : World) :
  users (snd (register_try P req w)) = users w
  \/ exists u, users (snd (register_try P req w)) = users w ++ [u]
               /\ email u = body_email req
               /\ existsb (fun v => jsstring_eqb (email v) (body_email req))
                          (users w) = false.
Proof.
  unfold register_try, User_findOne, bind, record_call, round_trip. simpl.
  destruct (outage w (roundTrips w)); simpl; [now left|].
  match goal with
  | |- context [option_map _ ?h] => destruct h; simpl; [now left|]
  end.
  unfold bcrypt_hash, bind, record_call. simpl.
  destruct (body_password req); simpl; [|now left].
  unfold save, bind, record_call, round_trip. simpl.
  destruct (required_ok _); simpl; [|now left].
  destruct (outage w (S (roundTrips w))); simpl; [now left|].
  destruct (existsb _ (users w)) eqn:E; simpl; [now left|].
  right. eexists. split; [|split; [|reflexivity]].
  - unfold jwt_sign, bind, record_call. simpl.
    destruct (JWT_SECRET P); simpl; reflexivity.
  - reflexivity.
Qed.

(** C3.  When a user with email [e] is already stored, a registration with
    email [e] performs no insert and leaves the collection as it was, whatever
    the state; and when the request passes the readiness gate and the lookup
    is answered, the response is 400 "User already exists", the lookup being
    the only call made. *)
Theorem register_twice_conflicts
        (req : Request) (w : World) (e : string) (u : User) :
  body_email req = Some e -> In u (users w) -> email u = Some e ->
  users (snd (post_register P req w)) = users w
  /\ filter is_save (journal (snd (post_register P req w)))
     = filter is_save (journal w)
  /\ (up w -> outage w (roundTrips w) = None ->
      fst (post_register P req w)
      = Ok (mkResponse 400 (message "User already exists"))
      /\ journal (snd (post_register P req w))
         = journal w ++ [CallFindOne (Some e)]).
Proof.
  intros He Hin Hu.
  destruct (find_by_email_some e (users w) u Hin Hu) as [v Hv].
  unfold post_register, route, bind, checkDatabaseConnection.
  destruct (negb (isConnected (gateway w)) || negb (readyState w =? 1)) eqn:G.
  - simpl. split; [reflexivity|]. split; [reflexivity|].
    intros [Hc Hr]. rewrite Hc, Hr in G. discriminate.
  - unfold register_handler, try_catch, register_try, User_findOne, bind,
      record_call, round_trip. rewrite He. simpl.
    destruct (outage w (roundTrips w)) eqn:O; simpl.
    + rewrite filter_app. simpl. rewrite app_nil_r.
      split; [reflexivity|]. split; [reflexivity|]. intros _ [=].
    + rewrite Hv. simpl. rewrite filter_app. simpl. rewrite app_nil_r.
      split; [reflexivity|]. split; [reflexivity|]. intros _ _.
      split; reflexivity.
Qed.

(** ** The token service *)

Lemma issue_signed (id : N) (w : World) (key : string) :
  JWT_SECRET P = Some key ->
  issue P id w
  = (Ok (let c := mkClaims id (clock w / 1000) (clock w / 1000 + one_day) in
         jwt_encode P c (hs256 P key c)),
     with_journal (journal w ++ [CallSign id]) w).
Proof.
  intro Hk. unfold issue, jwt_sign, bind, record_call, Date_now, ret.
  rewrite Hk. reflexivity.
Qed.

Lemma verify_signed (key : string) (c : Claims) (w : World) :
  JWT_SECRET P = Some key -> jwt_codec_sound P ->
  fst (verify P (jwt_encode P c (hs256 P key c)) w)
  = Ok (if exp c <=? clock w / 1000 then Invalid else Valid (claim_id c)).
Proof.
  intros Hk Hc.
  unfold verify, try_catch, jwt_verify, bind, record_call, Date_now, ret, throw.
  rewrite Hc, Hk, String.eqb_refl. simpl.
  destruct (exp c <=? clock w / 1000); reflexivity.
Qed.

(** The token gate and the token service agree: the gate answers 400 exactly
    when the service says [Invalid], and otherwise passes the id on. *)
Lemma verifyToken_verify (req : Request) (token : string) (w : World) :
  bearer req = Some token -> token <> "" ->
  verifyToken P req w
  = (match fst (verify P token w) with
     | Ok (Valid id) => Ok (inr (with_userId id req))
     | _ => Ok (inl (mkResponse 400 (message "Invalid Token")))
     end,
     with_journal (journal w ++ [CallVerify token]) w).
Proof.
  intros Hb Ht. unfold verifyToken. rewrite Hb.
  assert (Htr : truthy (Some token) = true).
  { simpl. destruct (String.eqb_spec token ""); [contradiction | reflexivity]. }
  rewrite Htr.
  unfold verify, try_catch, jwt_verify, bind, record_call, Date_now, ret, throw.
  destruct (jwt_decode P token) as [[c sig]|]; simpl; [|reflexivity].
  destruct (JWT_SECRET P) as [key|]; simpl; [|reflexivity].
  destruct (sig =? hs256 P key c)%string; simpl; [|reflexivity].
  destruct (exp c <=? clock w / 1000); reflexivity.
Qed.

(** C2.  A token produced by [issue id] at time [t] verifies to [id] at every
    time before [t + 24h] and to [Invalid] from then on.  Whatever the token,
    it is [Invalid] when it does not parse (structural corruption), when its
    signature is not the one of its claims under the secret (signature
    mismatch), and when its expiry is not in the future; a token is [Valid]
    only if it parses, is signed under the secret and has not expired, and
    then for the id in its claims.  Whenever [jwt.verify] fails on the token
    of a request, for whatever reason, the token gate gives the same answer,
    400 "Invalid Token", and the service the same verdict, [Invalid]. *)
Theorem issued_token_verifies_until_expiry
        (id : N) (w w1 : World) (token : string) :
  jwt_codec_sound P ->
  issue P id w = (Ok token, w1) ->
  (forall w', clock w' / 1000 < clock w / 1000 + 86400 ->
              fst (verify P token w') = Ok (Valid id))
  /\ (forall w', clock w / 1000 + 86400 <= clock w' / 1000 ->
                 fst (verify P token w') = Ok Invalid)
  /\ (forall t w' err, fst (jwt_verify P t w') = Throw err ->
        fst (verify P t w') = Ok Invalid
        /\ forall req, bearer req = Some t -> t <> "" ->
             fst (verifyToken P req w')
             = Ok (inl (mkResponse 400 (message "Invalid Token"))))
  /\ (forall t w', jwt_decode P t = None ->
                   fst (verify P t w') = Ok Invalid)
  /\ (forall t w' c sig key,
        jwt_decode P t = Some (c, sig) -> JWT_SECRET P = Some key ->
        sig <> hs256 P key c ->
        fst (verify P t w') = Ok Invalid)
  /\ (forall t w' c sig,
        jwt_decode P t = Some (c, sig) -> exp c <= clock w' / 1000 ->
        fst (verify P t w') = Ok Invalid)
  /\ (forall t w' i,
        fst (verify P t w') = Ok (Valid i) ->
        exists c key,
          jwt_decode P t = Some (c, hs256 P key c)
          /\ JWT_SECRET P = Some key
          /\ claim_id c = i
          /\ clock w' / 1000 < exp c)
  /\ (forall t w' req,
        bearer req = Some t -> t <> "" ->
        fst (verify P t w') = Ok Invalid ->
        fst (verifyToken P req w')
        = Ok (inl (mkResponse 400 (message "Invalid Token")))).
Proof.
  intros Hc Hi.
  assert (Hgood_late :
    (forall w', clock w' / 1000 < clock w / 1000 + 86400 ->
                fst (verify P token w') = Ok (Valid id))
    /\ (forall w', clock w / 1000 + 86400 <= clock w' / 1000 ->
                   fst (verify P token w') = Ok Invalid)).
  { destruct (JWT_SECRET P) as [key|] eqn:Hk.
    - rewrite (issue_signed id w key Hk) in Hi. injection Hi as <- _.
      split.
      + intros w' Hlt. rewrite (verify_signed key _ w' Hk Hc). simpl.
        unfold one_day.
        destruct (N.leb_spec (clock w / 1000 + 86400) (clock w' / 1000));
          [lia | reflexivity].
      + intros w' Hle. rewrite (verify_signed key _ w' Hk Hc). simpl.
        unfold one_day.
        destruct (N.leb_spec (clock w / 1000 + 86400) (clock w' / 1000));
          [reflexivity | lia].
    - unfold issue, jwt_sign, bind, record_call, throw in Hi. rewrite Hk in Hi.
      discriminate. }
  destruct Hgood_late as [Hgood Hlate].
  split; [exact Hgood|]. split; [exact Hlate|].
  split; [|split; [|split; [|split; [|split]]]].
  - intros t w' err Hv.
    assert (Hinv : fst (verify P t w') = Ok Invalid).
    { unfold verify, try_catch, bind.
      destruct (jwt_verify P t w') as [[c|e] w'']; simpl in *;
        [discriminate | reflexivity]. }
    split; [exact Hinv|].
    intros req Hb Ht. rewrite (verifyToken_verify req t w' Hb Ht).
    rewrite Hinv. reflexivity.
  - intros t w' Hd.
    unfold verify, try_catch, jwt_verify, bind, record_call, throw. simpl.
    rewrite Hd. reflexivity.
  - intros t w' c sig key Hd Hk Hne.
    unfold verify, try_catch, jwt_verify, bind, record_call, throw. simpl.
    rewrite Hd, Hk.
    destruct (String.eqb_spec sig (hs256 P key c)); [contradiction|].
    reflexivity.
  - intros t w' c sig Hd Hle.
    unfold verify, try_catch, jwt_verify, bind, record_call, Date_now, ret,
      throw. simpl. rewrite Hd.
    destruct (JWT_SECRET P) as [key|]; [|reflexivity].
    destruct (sig =? hs256 P key c)%string; [|reflexivity]. simpl.
    destruct (N.leb_spec (exp c) (clock w' / 1000)); [reflexivity | lia].
  - intros t w' i.
    unfold verify, try_catch, jwt_verify, bind, record_call, Date_now, ret,
      throw. simpl.
    destruct (jwt_decode P t) as [[c sig]|] eqn:Hd; [|discriminate].
    destruct (JWT_SECRET P) as [key|] eqn:Hk; [|discriminate].
    destruct (String.eqb_spec sig (hs256 P key c)) as [->|]; [|discriminate].
    simpl.
    destruct (N.leb_spec (exp c) (clock w' / 1000)); simpl; [discriminate|].
    intros [= <-]. exists c, key. repeat split; assumption.
  - intros t w' req Hb Ht Hinv.
    rewrite (verifyToken_verify req t w' Hb Ht). now rewrite Hinv.
Qed.

(** ** Register, then log in *)

Lemma truthy_nonempty (s : string) :
  s <> "" -> negb (s =? "")%string = true.
Proof.
  intro H. destruct (String.eqb_spec s ""); [contradiction | reflexivity].
Qed.

Lemma register_fresh (req : Request) (w : World) (key n e p : string) :
  up w -> healthy w -> JWT_SECRET P = Some key -> bcrypt_sound P ->
  body_name req = Some n -> n <> "" ->
  body_email req = Some e -> e <> "" ->
  body_password req = Some p ->
  (forall u, In u (users w) -> email u <> Some e) ->
  exists w1,
    post_register P req w
    = (Ok (mkResponse 201
             (JObj [("message", JStr "User registered successfully");
                    ("token",
                     JStr (let c := mkClaims (objectIds w) (clock w / 1000)
                                             (clock w / 1000 + one_day) in
                           jwt_encode P c (hs256 P key c)));
                    ("user", user_summary (registered P w n e p))])), w1)
    /\ users w1 = users w ++ [registered P w n e p]
    /\ journal w1 = journal w ++ [CallFindOne (Some e); CallHash;
                                  CallSave (objectIds w); CallSign (objectIds w)].
Proof.
  intros Hup Hh Hk Hb Hn Hn0 He He0 Hp Hfresh.
  rewrite (register_gate_open req w Hup).
  unfold register_handler, try_catch, register_try, User_findOne, bind,
    record_call, round_trip.
  rewrite He, Hn, Hp. simpl. rewrite (Hh (roundTrips w)). simpl.
  rewrite (find_by_email_none e (users w) Hfresh). simpl.
  unfold save, bind, record_call, round_trip, required_ok. simpl.
  rewrite (truthy_nonempty n Hn0), (truthy_nonempty e He0).
  rewrite (truthy_nonempty _ (proj1 (Hb p 10 (entropy w)))). simpl.
  rewrite (Hh (S (roundTrips w))). simpl.
  rewrite (existsb_email_fresh e (users w) Hfresh). simpl.
  unfold jwt_sign, bind, record_call, Date_now, ret. rewrite Hk. simpl.
  eexists. split; [reflexivity|]. simpl. split; [reflexivity|].
  rewrite <- !app_assoc. reflexivity.
Qed.

Lemma login_stored (req : Request) (w : World) (key e p : string) (u : User) :
  up w -> healthy w -> JWT_SECRET P = Some key ->
  body_email req = Some e -> body_password req = Some p ->
  find (by_email e) (users w) = Some u ->
  (exists h, password u = Some h /\ bcrypt_check P p h = true) ->
  exists w2,
    post_login P req w
    = (Ok (mkResponse 200
             (JObj [("message", JStr "Login successful");
                    ("token",
                     JStr (let c := mkClaims (_id u) (clock w / 1000)
                                             (clock w / 1000 + one_day) in
                           jwt_encode P c (hs256 P key c)));
                    ("user", user_summary u)])), w2)
    /\ users w2 = users w.
Proof.
  intros Hup Hh Hk He Hp Hf (h & Hpw & Hchk).
  rewrite (login_gate_open req w Hup).
  unfold login_handler, try_catch, User_findOne, bind, record_call, round_trip.
  rewrite He, Hp. simpl. rewrite (Hh (roundTrips w)). simpl.
  rewrite Hf. simpl.
  unfold bcrypt_compare, bind, record_call, ret. simpl. rewrite Hpw. simpl.
  rewrite Hchk.
  unfold jwt_sign, bind, record_call, Date_now, ret. rewrite Hk. simpl.
  eexists. split; reflexivity.
Qed.

(** C1.  In a state where the store is usable and holds no user with email
    [e], registering [{name, email: e, password: p}] (name and email not
    empty) answers 201 with a token and stores a new user; a login with
    [{email: e, password: p}] in any later state with the same collection
    answers 200 with a token; and each of the two tokens verifies, until it
    expires, to the id of the newly created user. *)
Theorem register_then_login_same_id
        (req login : Request) (w : World) (key n e p : string) :
  up w -> healthy w ->
  JWT_SECRET P = Some key -> bcrypt_sound P -> jwt_codec_sound P ->
  body_name req = Some n -> n <> "" ->
  body_email req = Some e -> e <> "" ->
  body_password req = Some p ->
  body_email login = Some e -> body_password login = Some p ->
  (forall u, In u (users w) -> email u <> Some e) ->
  exists res1 token1 w1 newUser,
    post_register P req w = (Ok res1, w1)
    /\ status res1 = 201
    /\ field "token" (body res1) = Some (JStr token1)
    /\ users w1 = users w ++ [newUser]
    /\ email newUser = Some e
    /\ (forall w', clock w' / 1000 < clock w / 1000 + 86400 ->
                   fst (verify P token1 w') = Ok (Valid (_id newUser)))
    /\ forall v, users v = users w1 -> up v -> healthy v ->
         exists res2 token2 w2,
           post_login P login v = (Ok res2, w2)
           /\ status res2 = 200
           /\ field "token" (body res2) = Some (JStr token2)
           /\ (forall w', clock w' / 1000 < clock v / 1000 + 86400 ->
                          fst (verify P token2 w') = Ok (Valid (_id newUser))).
Proof.
  intros Hup Hh Hk Hb Hc Hn Hn0 He He0 Hp Hle Hlp Hfresh.
  destruct (register_fresh req w key n e p Hup Hh Hk Hb Hn Hn0 He He0 Hp Hfresh)
    as (w1 & Hreg & Hus & _).
  eexists _, _, w1, (registered P w n e p).
  split; [exact Hreg|]. split; [reflexivity|]. split; [reflexivity|].
  split; [exact Hus|]. split; [reflexivity|]. split.
  - intros w' Hlt. rewrite (verify_signed key _ w' Hk Hc). simpl.
    unfold one_day.
    destruct (N.leb_spec (clock w / 1000 + 86400) (clock w' / 1000));
      [lia | reflexivity].
  - intros v Hv Hvup Hvh.
    assert (Hf : find (by_email e) (users v) = Some (registered P w n e p)).
    { rewrite Hv, Hus. apply find_app_fresh.
      - now apply find_by_email_none.
      - unfold by_email. simpl. apply String.eqb_refl. }
    destruct (login_stored login v key e p _ Hvup Hvh Hk Hle Hlp Hf)
      as (w2 & Hlog & _).
    { eexists. split; [reflexivity | apply Hb]. }
    eexists _, _, w2. split; [exact Hlog|].
    split; [reflexivity|]. split; [reflexivity|].
    intros w' Hlt. rewrite (verify_signed key _ w' Hk Hc). simpl.
    unfold one_day.
    destruct (N.leb_spec (clock v / 1000 + 86400) (clock w' / 1000));
      [lia | reflexivity].
Qed.

(** ** Frame rules: what a computation leaves untouched *)

Lemma preserves_ret {A X} (obs : World -> X) (a : A) : preserves obs (ret a).
Proof. intro w. reflexivity. Qed.

Lemma preserves_throw {A X} (obs : World -> X) (e : Err) :
  preserves obs (@throw A e).
Proof. intro w. reflexivity. Qed.

Lemma preserves_bind {A B X} (obs : World -> X) (c : M A) (k : A -> M B) :
  preserves obs c -> (forall a, preserves obs (k a)) -> preserves obs (bind c k).
Proof.
  intros Hc Hk w. unfold bind. specialize (Hc w).
  destruct (c w) as [[a|e] w']; simpl in *.
  - now rewrite Hk.
  - exact Hc.
Qed.

Lemma preserves_try_catch {A X} (obs : World -> X) (c : M A) (h : Err -> M A) :
  preserves obs c -> (forall e, preserves obs (h e)) ->
  preserves obs (try_catch c h).
Proof.
  intros Hc Hh w. unfold try_catch. specialize (Hc w).
  destruct (c w) as [[a|e] w']; simpl in *.
  - exact Hc.
  - now rewrite Hh.
Qed.

Lemma preserves_route {X} (obs : World -> X) (mw : Middleware)
      (handler : Request -> M Response) (req : Request) :
  preserves obs (mw req) -> (forall r, preserves obs (handler r)) ->
  preserves obs (route mw handler req).
Proof.
  intros Hm Hh. unfold route. apply preserves_bind; [exact Hm|].
  intros [res|req']; [apply preserves_ret | apply Hh].
Qed.

Lemma preserves_Date_now {X} (obs : World -> X) : preserves obs Date_now.
Proof. intro w. reflexivity. Qed.

Lemma users_record_call (c : Call) : preserves users (record_call c).
Proof. intro w. reflexivity. Qed.

Lemma users_round_trip : preserves users round_trip.
Proof. intro w. unfold round_trip. destruct (outage w _); reflexivity. Qed.

Lemma saves_record_call (c : Call) :
  is_save c = false -> preserves saves (record_call c).
Proof.
  intros Hc w. unfold saves, record_call. simpl.
  rewrite filter_app. simpl. rewrite Hc. apply app_nil_r.
Qed.

Lemma saves_round_trip : preserves saves round_trip.
Proof. intro w. unfold round_trip. destruct (outage w _); reflexivity. Qed.

Lemma saves_pure_step {A} (f : World -> Result A) :
  preserves saves (fun w => (f w, w)).
Proof. intro w. reflexivity. Qed.

Lemma users_pure_step {A} (f : World -> Result A) :
  preserves users (fun w => (f w, w)).
Proof. intro w. reflexivity. Qed.

Create HintDb frame.

#[local] Hint Resolve preserves_ret preserves_throw preserves_Date_now
  users_record_call users_round_trip saves_round_trip
  saves_pure_step users_pure_step : frame.

(** Walk through a handler: sequencing, [try]/[catch], branches, and the
    elementary steps. *)
Ltac frame :=
  repeat first
    [ apply preserves_bind; [|intro]
    | apply preserves_try_catch; [|intro]
    | apply saves_record_call; reflexivity
    | solve [auto with frame]
    | match goal with
      | |- preserves _ (match ?x with _ => _ end) => destruct x
      | |- preserves _ (if ?x then _ else _) => destruct x
      end ].

Lemma users_jwt_sign (id expiresIn : N) :
  preserves users (jwt_sign P id expiresIn).
Proof. unfold jwt_sign. frame. Qed.

Lemma saves_jwt_sign (id expiresIn : N) :
  preserves saves (jwt_sign P id expiresIn).
Proof. unfold jwt_sign. frame. Qed.

Lemma users_jwt_verify (token : string) : preserves users (jwt_verify P token).
Proof. unfold jwt_verify. frame. Qed.

Lemma saves_jwt_verify (token : string) : preserves saves (jwt_verify P token).
Proof. unfold jwt_verify. frame. Qed.

Lemma users_bcrypt_compare (pw hashed : jsstring) :
  preserves users (bcrypt_compare P pw hashed).
Proof. unfold bcrypt_compare. frame. Qed.

Lemma saves_bcrypt_compare (pw hashed : jsstring) :
  preserves saves (bcrypt_compare P pw hashed).
Proof. unfold bcrypt_compare. frame. Qed.

Lemma users_findOne (e : jsstring) : preserves users (User_findOne P e).
Proof. unfold User_findOne. frame. Qed.

Lemma saves_findOne (e : jsstring) : preserves saves (User_findOne P e).
Proof. unfold User_findOne. frame. Qed.

Lemma users_findById (id : option N) (select : User -> User) :
  preserves users (User_findById id select).
Proof. unfold User_findById. frame. Qed.

Lemma saves_findById (id : option N) (select : User -> User) :
  preserves saves (User_findById id select).
Proof. unfold User_findById. frame. Qed.

Lemma users_checkDatabaseConnection (req : Request) :
  preserves users (checkDatabaseConnection req).
Proof.
  intro w. unfold checkDatabaseConnection.
  destruct (negb _ || negb _); reflexivity.
Qed.

Lemma saves_checkDatabaseConnection (req : Request) :
  preserves saves (checkDatabaseConnection req).
Proof.
  intro w. unfold checkDatabaseConnection.
  destruct (negb _ || negb _); reflexivity.
Qed.

#[local] Hint Resolve users_jwt_sign saves_jwt_sign users_jwt_verify
  saves_jwt_verify users_bcrypt_compare saves_bcrypt_compare
  users_findOne saves_findOne users_findById saves_findById
  users_checkDatabaseConnection saves_checkDatabaseConnection : frame.

Lemma users_verifyToken (req : Request) : preserves users (verifyToken P req).
Proof. unfold verifyToken. frame. Qed.

Lemma saves_verifyToken (req : Request) : preserves saves (verifyToken P req).
Proof. unfold verifyToken. frame. Qed.

#[local] Hint Resolve users_verifyToken saves_verifyToken : frame.

Lemma users_login (req : Request) : preserves users (post_login P req).
Proof.
  unfold post_login. apply preserves_route; [auto with frame|].
  intro r. unfold login_handler. frame.
Qed.

Lemma saves_login (req : Request) : preserves saves (post_login P req).
Proof.
  unfold post_login. apply preserves_route; [auto with frame|].
  intro r. unfold login_handler. frame.
Qed.

Lemma users_get_profile (req : Request) : preserves users (get_profile P req).
Proof.
  unfold get_profile. apply preserves_route; [auto with frame|].
  intro r. unfold get_profile_handler. frame.
Qed.

Lemma saves_get_profile (req : Request) : preserves saves (get_profile P req).
Proof.
  unfold get_profile. apply preserves_route; [auto with frame|].
  intro r. unfold get_profile_handler. frame.
Qed.

(** ** The token gate in front of the profile routes *)

Lemma verify_accepts (token : string) (c : Claims) (w : World) :
  fst (jwt_verify P token w) = Ok c ->
  fst (verify P token w) = Ok (Valid (claim_id c)).
Proof.
  intro H. unfold verify, try_catch, bind.
  destruct (jwt_verify P token w) as [[c'|e] w']; simpl in *;
    [now injection H as -> | discriminate].
Qed.

Lemma verify_rejects (token : string) (err : Err) (w : World) :
  fst (jwt_verify P token w) = Throw err ->
  fst (verify P token w) = Ok Invalid.
Proof.
  intro H. unfold verify, try_catch, bind.
  destruct (jwt_verify P token w) as [[c'|e] w']; simpl in *;
    [discriminate | reflexivity].
Qed.

Lemma verifyToken_absent (req : Request) (w : World) :
  truthy (bearer req) = false ->
  verifyToken P req w
  = (Ok (inl (mkResponse 401 (message "Access Denied"))), w).
Proof.
  intro H. unfold verifyToken. destruct (bearer req); [|reflexivity].
  now rewrite H.
Qed.

Lemma verifyToken_rejects (req : Request) (token : string) (err : Err)
      (w : World) :
  bearer req = Some token -> token <> "" ->
  fst (jwt_verify P token w) = Throw err ->
  fst (verifyToken P req w)
  = Ok (inl (mkResponse 400 (message "Invalid Token"))).
Proof.
  intros Hb Ht Hv. rewrite (verifyToken_verify req token w Hb Ht).
  now rewrite (verify_rejects token err w Hv).
Qed.

Lemma verifyToken_accepts (req : Request) (token : string) (c : Claims)
      (w : World) :
  bearer req = Some token -> token <> "" ->
  fst (jwt_verify P token w) = Ok c ->
  verifyToken P req w
  = (Ok (inr (with_userId (claim_id c) req)),
     with_journal (journal w ++ [CallVerify token]) w).
Proof.
  intros Hb Ht Hv. rewrite (verifyToken_verify req token w Hb Ht).
  now rewrite (verify_accepts token c w Hv).
Qed.

Lemma get_profile_own_record (req : Request) (token : string) (c : Claims)
      (u : User) (w : World) :
  bearer req = Some token -> token <> "" ->
  fst (jwt_verify P token w) = Ok c ->
  outage w (roundTrips w) = None ->
  find (by_id (claim_id c)) (users w) = Some u ->
  fst (get_profile P req w)
  = Ok (mkResponse 200
          (JObj [("message", JStr "Profile retrieved successfully");
                 ("profile", userProfile (minus_password u) (clock w))])).
Proof.
  intros Hb Ht Hv Ho Hf.
  unfold get_profile, route, bind.
  rewrite (verifyToken_accepts req token c w Hb Ht Hv).
  unfold get_profile_handler, try_catch, User_findById, bind, record_call,
    round_trip. simpl. rewrite Ho. simpl. rewrite Hf. reflexivity.
Qed.

Lemma userProfile_has_no_password (u : User) (now : N) :
  mentions "password" (userProfile u now) = false
  /\ field "password" (userProfile u now) = None.
Proof.
  unfold userProfile. destruct (name u), (email u); split; reflexivity.
Qed.

(** C5, as the code has it.  The token of a request is the second piece of
    the [Authorization] header split at spaces, whatever the first piece
    (the scheme) is: for a header [scheme token] it is [token].  With no header, or no second piece, or an empty one,
    [GET /profile] and [PUT /profile] answer 401 and touch nothing; with a
    token that [jwt.verify] rejects they answer 400; with a token that
    verifies to the id of a stored user, and the store answering,
    [GET /profile] answers 200 with that user's own record, in which no
    [password] occurs. *)
Theorem profile_gate_by_second_header_piece (req : Request) (w : World) :
  (authorization req = None -> truthy (bearer req) = false)
  /\ (truthy (bearer req) = false ->
      get_profile P req w
      = (Ok (mkResponse 401 (message "Access Denied")), w)
      /\ put_profile P req w
         = (Ok (mkResponse 401 (message "Access Denied")), w))
  /\ (forall scheme token,
        spaceless scheme = true -> spaceless token = true ->
        authorization req = Some (scheme ++ String " " token)%string ->
        bearer req = Some token)
  /\ (forall token err,
        bearer req = Some token -> token <> "" ->
        fst (jwt_verify P token w) = Throw err ->
        fst (get_profile P req w)
        = Ok (mkResponse 400 (message "Invalid Token"))
        /\ fst (put_profile P req w)
           = Ok (mkResponse 400 (message "Invalid Token")))
  /\ (forall token c u,
        bearer req = Some token -> token <> "" ->
        fst (jwt_verify P token w) = Ok c ->
        outage w (roundTrips w) = None ->
        find (by_id (claim_id c)) (users w) = Some u ->
        exists profile,
          fst (get_profile P req w)
          = Ok (mkResponse 200
                  (JObj [("message", JStr "Profile retrieved successfully");
                         ("profile", profile)]))
          /\ field "id" profile = Some (JOid (claim_id c))
          /\ field "name" profile = jstr (name u)
          /\ field "email" profile = jstr (email u)
          /\ field "password" profile = None
          /\ mentions "password" (JObj [("message",
                                        JStr "Profile retrieved successfully");
                                       ("profile", profile)]) = false).
Proof.
  split; [|split; [|split; [|split]]].
  - intro H. unfold bearer. now rewrite H.
  - intro H. unfold get_profile, put_profile, route, bind.
    rewrite (verifyToken_absent req w H). split; reflexivity.
  - intros scheme token Hs Ht Ha. unfold bearer. rewrite Ha.
    rewrite (split_first_word scheme token Hs), (split_spaceless token Ht).
    reflexivity.
  - intros token err Hb Ht Hv.
    unfold get_profile, put_profile, route, bind.
    pose proof (verifyToken_rejects req token err w Hb Ht Hv) as Hr.
    destruct (verifyToken P req w) as [[[res|req']|e] w']; simpl in Hr;
      try discriminate.
    injection Hr as ->. split; reflexivity.
  - intros token c u Hb Ht Hv Ho Hf.
    exists (userProfile (minus_password u) (clock w)).
    split; [now apply (get_profile_own_record req token c u w)|].
    pose proof (find_by_id_id _ _ _ Hf) as Hid.
    unfold userProfile, minus_password, with_password. simpl.
    rewrite Hid. destruct (name u), (email u); repeat split; reflexivity.
Qed.

(** ** Login writes nothing *)

(** C10.  A login, successful or not, leaves the collection as it was and
    makes no [save] call: every stored record, its [lastLogin] included, is
    the same before and after.  [GET /profile] leaves the collection as it
    was too, and when the stored [lastLogin] is absent it shows the current
    time in its place. *)
Theorem login_persists_nothing (req : Request) (w : World) :
  users (snd (post_login P req w)) = users w
  /\ saves (snd (post_login P req w)) = saves w
  /\ users (snd (get_profile P req w)) = users w
  /\ saves (snd (get_profile P req w)) = saves w
  /\ (forall token c u,
        bearer req = Some token -> token <> "" ->
        fst (jwt_verify P token w) = Ok c ->
        outage w (roundTrips w) = None ->
        find (by_id (claim_id c)) (users w) = Some u ->
        lastLogin u = None ->
        exists profile,
          fst (get_profile P req w)
          = Ok (mkResponse 200
                  (JObj [("message", JStr "Profile retrieved successfully");
                         ("profile", profile)]))
          /\ field "lastLogin" profile = Some (JDate (clock w))
          /\ find (by_id (claim_id c)) (users (snd (get_profile P req w)))
             = Some u).
Proof.
  split; [apply users_login|]. split; [apply saves_login|].
  split; [apply users_get_profile|]. split; [apply saves_get_profile|].
  intros token c u Hb Ht Hv Ho Hf Hl.
  exists (userProfile (minus_password u) (clock w)).
  split; [now apply (get_profile_own_record req token c u w)|].
  split.
  - unfold userProfile, minus_password, with_password. simpl. rewrite Hl.
    destruct (name u), (email u); reflexivity.
  - rewrite users_get_profile. exact Hf.
Qed.

(** ** Updating the profile *)

Lemma assign_profile_frozen (req : Request) (u : User) :
  frozen (assign_profile req u) = frozen u.
Proof.
  unfold assign_profile.
  destruct (truthy (body_name req)), (truthy (body_email req)); reflexivity.
Qed.

Lemma assign_profile_name (req : Request) (u : User) :
  truthy (body_name req) = false -> name (assign_profile req u) = name u.
Proof.
  intro H. unfold assign_profile. rewrite H.
  destruct (truthy (body_email req)); reflexivity.
Qed.

Lemma assign_profile_email (req : Request) (u : User) :
  truthy (body_email req) = false -> email (assign_profile req u) = email u.
Proof.
  intro H. unfold assign_profile. rewrite H.
  destruct (truthy (body_name req)); reflexivity.
Qed.

Lemma set_modified_frozen (req : Request) (u x : User) :
  frozen (set_modified u (assign_profile req u) x) = frozen x.
Proof.
  pose proof (assign_profile_frozen req u) as H.
  unfold frozen in *. injection H as _ Hp Hr Hc Hl.
  unfold set_modified. simpl. rewrite Hp, Hr, Hc, Hl.
  now rewrite jsstring_eqb_refl, String.eqb_refl, N.eqb_refl,
    option_N_eqb_refl.
Qed.

(** The collection after [PUT /profile]: as before, or with the modified
    paths of the caller's document written. *)
Lemma put_profile_handler_users (r : Request) (w : World) :
  users (snd (put_profile_handler r w)) = users w
  \/ exists i u,
       users (snd (put_profile_handler r w))
       = update_one i (set_modified u (assign_profile r u)) (users w).
Proof.
  unfold put_profile_handler, try_catch, User_findById, bind, record_call,
    round_trip. simpl.
  destruct (outage w (roundTrips w)); simpl; [now left|].
  destruct (userId r) as [i|]; simpl; [|now left].
  destruct (find (by_id i) (users w)) as [u|] eqn:Hf; simpl; [|now left].
  unfold save, bind, record_call, round_trip. simpl.
  destruct (User_eqb u (assign_profile r u)); simpl; [now left|].
  destruct (modified_required_ok u (assign_profile r u)); simpl; [|now left].
  destruct (outage w (S (roundTrips w))); simpl; [now left|].
  destruct (negb (existsb _ (users w))); simpl; [now left|].
  destruct (negb _ && existsb _ (users w)); simpl; [now left|].
  right. exists (_id (assign_profile r u)), u. reflexivity.
Qed.

Lemma put_profile_users (req : Request) (w : World) :
  users (snd (put_profile P req w)) = users w
  \/ exists i u,
       users (snd (put_profile P req w))
       = update_one i (set_modified u (assign_profile req u)) (users w).
Proof.
  unfold put_profile, route, bind.
  pose proof (users_verifyToken req w) as Hu.
  unfold verifyToken in *.
  destruct (bearer req) as [token|]; [|now left].
  destruct (truthy (Some token)); [|now left].
  unfold try_catch, bind in *.
  destruct (jwt_verify P token w) as [[c|e] w1]; simpl in *; [|now left].
  destruct (put_profile_handler_users (with_userId (claim_id c) req) w1)
    as [H|(i & u & H)].
  - left. now rewrite H.
  - right. exists i, u. rewrite H, Hu. reflexivity.
Qed.

(** C8.  [PUT /profile] mutates only the fields given in the body: the
    paths [_id], [password], [role], [createdAt] and [lastLogin] of every
    stored record stay as they were, and so do the names when the body has no
    name and the emails when it has no email.  With a valid token of a
    stored user, the store answering, and a body holding only
    [{name: x}], the answer is 200 with the updated record, and the
    collection differs only in that this user's name is now [x]: the stored
    record has the name [x] and every other path as before, the records of
    the other users are as they were, and the answer's profile carries the
    id, the name [x], the unchanged email, the role and the time of the
    update. *)
Theorem put_profile_changes_only_given_fields (req : Request) (w : World) :
  map frozen (users (snd (put_profile P req w))) = map frozen (users w)
  /\ (truthy (body_name req) = false ->
      map name (users (snd (put_profile P req w))) = map name (users w))
  /\ (truthy (body_email req) = false ->
      map email (users (snd (put_profile P req w))) = map email (users w))
  /\ (forall token c u x,
        bearer req = Some token -> token <> "" ->
        fst (jwt_verify P token w) = Ok c ->
        healthy w ->
        find (by_id (claim_id c)) (users w) = Some u ->
        body_name req = Some x -> x <> "" -> body_email req = None ->
        fst (put_profile P req w)
        = Ok (mkResponse 200
                (JObj [("message", JStr "Profile updated successfully");
                       ("profile",
                        updatedProfile (with_name (Some x) u) (clock w))]))
        /\ users (snd (put_profile P req w))
           = update_one (claim_id c) (with_name (Some x)) (users w)
        /\ find (by_id (claim_id c)) (users (snd (put_profile P req w)))
           = Some (with_name (Some x) u)
        /\ email (with_name (Some x) u) = email u
        /\ find (by_id (claim_id c)) (users (snd (put_profile P req w)))
           = Some (mkUser (_id u) (Some x) (email u) (password u) (role u)
                          (createdAt u) (lastLogin u))
        /\ others (claim_id c) (users (snd (put_profile P req w)))
           = others (claim_id c) (users w)
        /\ exists profile,
             fst (put_profile P req w)
             = Ok (mkResponse 200
                     (JObj [("message", JStr "Profile updated successfully");
                            ("profile", JObj profile)]))
             /\ assoc "id" profile = Some (JOid (claim_id c))
             /\ assoc "name" profile = Some (JStr x)
             /\ assoc "email" profile = option_map JStr (email u)
             /\ assoc "role" profile
                = Some (JStr (if (role u =? "")%string then "member"
                              else role u))
             /\ assoc "updatedAt" profile = Some (JDate (clock w))).
Proof.
  split; [|split; [|split]].
  - destruct (put_profile_users req w) as [H|(i & u & H)]; rewrite H;
      [reflexivity|].
    apply map_update_one. intro x. apply set_modified_frozen.
  - intro Hn.
    destruct (put_profile_users req w) as [H|(i & u & H)]; rewrite H;
      [reflexivity|].
    apply map_update_one. intro x. unfold set_modified. simpl.
    now rewrite (assign_profile_name req u Hn), jsstring_eqb_refl.
  - intro He.
    destruct (put_profile_users req w) as [H|(i & u & H)]; rewrite H;
      [reflexivity|].
    apply map_update_one. intro x. unfold set_modified. simpl.
    now rewrite (assign_profile_email req u He), jsstring_eqb_refl.
  - intros token c u x Hb Ht Hv Hh Hf Hn Hx He.
    pose proof (find_by_id_id _ _ _ Hf) as Hid.
    assert (Hrun :
      fst (put_profile P req w)
      = Ok (mkResponse 200
              (JObj [("message", JStr "Profile updated successfully");
                     ("profile",
                      updatedProfile (with_name (Some x) u) (clock w))]))
      /\ users (snd (put_profile P req w))
         = update_one (claim_id c) (with_name (Some x)) (users w)
      /\ find (by_id (claim_id c)) (users (snd (put_profile P req w)))
         = Some (with_name (Some x) u)).
    { assert (Ha : assign_profile (with_userId (claim_id c) req) u
                   = with_name (Some x) u).
      { unfold assign_profile. simpl. rewrite Hn, He. simpl.
        now rewrite (truthy_nonempty x Hx). }
      unfold put_profile, route, bind.
      rewrite (verifyToken_accepts req token c w Hb Ht Hv).
      unfold put_profile_handler, try_catch, User_findById, bind, record_call,
        round_trip. simpl. rewrite (Hh (roundTrips w)). simpl.
      rewrite Hf. simpl. rewrite Ha.
      unfold save, bind, record_call, round_trip. simpl.
      destruct (User_eqb u (with_name (Some x) u)) eqn:Heq; simpl.
      + apply User_eqb_eq in Heq.
        split; [reflexivity|]. split.
        * symmetry. apply (update_one_fixed _ _ _ u Hf). now symmetry.
        * now rewrite <- Heq.
      + unfold modified_required_ok. simpl.
        rewrite !jsstring_eqb_refl, (truthy_nonempty x Hx), orb_true_r. simpl.
        rewrite (Hh (S (roundTrips w))). simpl.
        rewrite Hid, (existsb_by_id_found _ _ _ Hf). simpl.
        assert (Hs : set_modified u (with_name (Some x) u) u
                     = with_name (Some x) u).
        { unfold set_modified, with_name. simpl.
          rewrite !jsstring_eqb_refl, String.eqb_refl, N.eqb_refl,
            option_N_eqb_refl.
          destruct (jsstring_eqb (name u) (Some x)) eqn:E; [|reflexivity].
          apply jsstring_eqb_eq in E. now rewrite E. }
        split; [reflexivity|]. split.
        * apply (update_one_ext _ _ _ _ u Hf Hs).
        * rewrite (update_one_ext _ _ _ _ u Hf Hs).
          now apply find_update_one. }
    destruct Hrun as (Hres & Hus & Hfind).
    split; [exact Hres|]. split; [exact Hus|]. split; [exact Hfind|].
    split; [reflexivity|]. split; [exact Hfind|]. split.
    + rewrite Hus. now apply others_update_one.
    + rewrite Hres. unfold updatedProfile. eexists.
      split; [reflexivity|]. simpl. rewrite Hid.
      destruct (email u); repeat split; reflexivity.
Qed.

(** ** Every run ends in an answer *)

Lemma answers_well_ret (res : Response) :
  has_message res -> answers_well (ret res).
Proof. intros H w r w' [= <- _]. exact H. Qed.

Lemma answers_well_throw (e : Err) : answers_well (throw e).
Proof. intros w r w' [=]. Qed.

Lemma answers_well_bind {A} (c : M A) (k : A -> M Response) :
  (forall a, answers_well (k a)) -> answers_well (bind c k).
Proof.
  intros Hk w r w'. unfold bind.
  destruct (c w) as [[a|e] w1]; [apply Hk | intros [=]].
Qed.

Lemma answers_try_catch (c : M Response) (h : Err -> M Response) :
  answers_well c -> (forall e, answers (h e)) -> answers (try_catch c h).
Proof.
  intros Hc Hh w. unfold try_catch.
  destruct (c w) as [[r|e] w1] eqn:E.
  - exists r, w1. split; [reflexivity | apply (Hc w r w1 E)].
  - apply Hh.
Qed.

Lemma answers_ret (res : Response) : has_message res -> answers (ret res).
Proof. intros H w. now exists res, w. Qed.

Lemma answers_route (mw : Middleware) (handler : Request -> M Response)
      (req : Request) :
  answers_or_passes (mw req) -> (forall r, answers (handler r)) ->
  answers (route mw handler req).
Proof.
  intros Hm Hh w. unfold route, bind.
  destruct (Hm w) as ([res|req'] & w1 & -> & Hr).
  - now exists res, w1.
  - apply Hh.
Qed.

Lemma has_message_message (m : string) (st : N) :
  has_message (mkResponse st (message m)).
Proof. exists m. reflexivity. Qed.

Ltac answering :=
  repeat first
    [ apply answers_well_bind; intro
    | apply answers_well_throw
    | apply answers_well_ret; eexists; reflexivity
    | match goal with
      | |- answers_well (match ?x with _ => _ end) => destruct x
      | |- answers_well (if ?x then _ else _) => destruct x
      end ].

Lemma checkDatabaseConnection_answers_or_passes (req : Request) :
  answers_or_passes (checkDatabaseConnection req).
Proof.
  intro w. unfold checkDatabaseConnection.
  destruct (negb _ || negb _); eexists _, _; (split; [reflexivity|]);
    [eexists; reflexivity | exact I].
Qed.

Lemma verifyToken_answers_or_passes (req : Request) :
  answers_or_passes (verifyToken P req).
Proof.
  intro w. unfold verifyToken.
  destruct (bearer req) as [token|].
  - destruct (truthy (Some token)).
    + unfold try_catch, bind.
      destruct (jwt_verify P token w) as [[c|e] w1]; eexists _, _;
        (split; [reflexivity|]); [exact I | apply has_message_message].
    + eexists _, _. split; [reflexivity | apply has_message_message].
  - eexists _, _. split; [reflexivity | apply has_message_message].
Qed.

Lemma register_handler_answers (req : Request) :
  answers (register_handler P req).
Proof.
  apply answers_try_catch.
  - unfold register_try. answering.
  - intro e. apply answers_ret. eexists. reflexivity.
Qed.

Lemma login_handler_answers (req : Request) : answers (login_handler P req).
Proof.
  apply answers_try_catch.
  - answering.
  - intro e. apply answers_ret. eexists. reflexivity.
Qed.

Lemma get_profile_handler_answers (req : Request) :
  answers (get_profile_handler req).
Proof.
  apply answers_try_catch.
  - answering.
  - intro e. apply answers_ret. apply has_message_message.
Qed.

Lemma put_profile_handler_answers (req : Request) :
  answers (put_profile_handler req).
Proof.
  apply answers_try_catch.
  - answering.
  - intro e. apply answers_ret. apply has_message_message.
Qed.

(** ** Failures of registration *)

Ltac journal_prefix :=
  first [ exists 0%nat; simpl; rewrite ?app_nil_r; reflexivity
        | exists 1%nat; simpl; rewrite <- ?app_assoc; reflexivity
        | exists 2%nat; simpl; rewrite <- ?app_assoc; reflexivity
        | exists 3%nat; simpl; rewrite <- ?app_assoc; reflexivity
        | exists 4%nat; simpl; rewrite <- ?app_assoc; reflexivity ].

(** Every run of [POST /register] ends in an answer whose body has a
    [message], after at most one call of each collaborator, in the order of
    the handler. *)
Lemma register_always_answers (req : Request) (w : World) :
  exists res w',
    post_register P req w = (Ok res, w')
    /\ (exists m, field "message" (body res) = Some (JStr m))
    /\ exists k,
         journal w'
         = journal w ++ firstn k [CallFindOne (body_email req); CallHash;
                                  CallSave (objectIds w);
                                  CallSign (objectIds w)].
Proof.
  unfold post_register, route, bind, checkDatabaseConnection.
  destruct (negb (isConnected (gateway w)) || negb (readyState w =? 1)).
  { eexists _, _. split; [reflexivity|]. split; [eexists; reflexivity|].
    journal_prefix. }
  unfold register_handler, try_catch, register_catch, register_try,
    User_findOne, bind, record_call, round_trip. simpl.
  destruct (outage w (roundTrips w)); simpl.
  { eexists _, _. split; [reflexivity|]. split; [eexists; reflexivity|].
    journal_prefix. }
  match goal with
  | |- context [option_map _ ?h] => destruct h; simpl
  end.
  { eexists _, _. split; [reflexivity|]. split; [eexists; reflexivity|].
    journal_prefix. }
  unfold bcrypt_hash, bind, record_call. simpl.
  destruct (body_password req); simpl.
  2:{ eexists _, _. split; [reflexivity|]. split; [eexists; reflexivity|].
      journal_prefix. }
  unfold save, bind, record_call, round_trip. simpl.
  destruct (required_ok _); simpl.
  2:{ eexists _, _. split; [reflexivity|]. split; [eexists; reflexivity|].
      journal_prefix. }
  destruct (outage w (S (roundTrips w))); simpl.
  { eexists _, _. split; [reflexivity|]. split; [eexists; reflexivity|].
    journal_prefix. }
  destruct (existsb _ (users w)); simpl.
  { eexists _, _. split; [reflexivity|]. split; [eexists; reflexivity|].
    journal_prefix. }
  unfold jwt_sign, bind, record_call, Date_now, ret, throw. simpl.
  destruct (JWT_SECRET P); simpl.
  - eexists _, _. split; [reflexivity|]. split; [eexists; reflexivity|].
    journal_prefix.
  - eexists _, _. split; [reflexivity|]. split; [eexists; reflexivity|].
    journal_prefix.
Qed.

(** C9.  Whatever exception the [try] block of registration raises (a failed
    lookup or insert, a validation or duplicate-key error, a hashing or
    signing error), the handler answers 500 with the message
    "Error registering user", in the state the exception left; in
    particular a failed lookup and a hashing exception do.  No run of
    [POST /register] ends in an exception: each ends in an answer whose body
    has a [message], and each collaborator is called at most once, so
    nothing is retried.  The other three routes of the file end in an answer
    with a [message] on every run as well. *)
Theorem register_exceptions_surface_as_500 (req : Request) (w : World) :
  (forall err w',
      register_try P req w = (Throw err, w') ->
      register_handler P req w
      = (Ok (mkResponse 500
               (JObj [("message", JStr "Error registering user");
                      ("error", JStr (err_message err))])), w'))
  /\ (forall err,
        up w -> outage w (roundTrips w) = Some err ->
        fst (post_register P req w)
        = Ok (mkResponse 500
                (JObj [("message", JStr "Error registering user");
                       ("error", JStr (err_message err))])))
  /\ (forall e,
        up w -> outage w (roundTrips w) = None ->
        body_email req = Some e -> find (by_email e) (users w) = None ->
        body_password req = None ->
        exists err,
          fst (bcrypt_hash P (body_password req) 10 w) = Throw err
          /\ fst (post_register P req w)
             = Ok (mkResponse 500
                     (JObj [("message", JStr "Error registering user");
                            ("error", JStr (err_message err))])))
  /\ (exists res w',
        post_register P req w = (Ok res, w')
        /\ (exists m, field "message" (body res) = Some (JStr m))
        /\ exists k,
             journal w'
             = journal w ++ firstn k [CallFindOne (body_email req); CallHash;
                                      CallSave (objectIds w);
                                      CallSign (objectIds w)])
  /\ answers (post_register P req) /\ answers (post_login P req)
  /\ answers (get_profile P req) /\ answers (put_profile P req).
Proof.
  split; [|split; [|split; [|split]]].
  5:{ split; [|split; [|split]]; apply answers_route;
        auto using checkDatabaseConnection_answers_or_passes,
          verifyToken_answers_or_passes, register_handler_answers,
          login_handler_answers, get_profile_handler_answers,
          put_profile_handler_answers. }
  - intros err w' H. unfold register_handler, try_catch. now rewrite H.
  - intros err Hup Ho. rewrite (register_gate_open req w Hup).
    unfold register_handler, try_catch, register_try, User_findOne, bind,
      record_call, round_trip. simpl. rewrite Ho. reflexivity.
  - intros e Hup Ho He Hf Hp. rewrite (register_gate_open req w Hup).
    unfold register_handler, try_catch, register_try, User_findOne, bind,
      record_call, round_trip. rewrite He, Hp. simpl. rewrite Ho. simpl.
    rewrite Hf. simpl. eexists. split; reflexivity.
  - apply register_always_answers.
Qed.

(** ** What the answers of a route look like *)

Lemma returns_only_ret (Q : Response -> Prop) (res : Response) :
  Q res -> returns_only Q (ret res).
Proof. intros H w r w' [= <- _]. exact H. Qed.

Lemma returns_only_throw (Q : Response -> Prop) (e : Err) :
  returns_only Q (throw e).
Proof. intros w r w' [=]. Qed.

Lemma returns_only_bind {A} (Q : Response -> Prop) (c : M A)
      (k : A -> M Response) :
  (forall a, returns_only Q (k a)) -> returns_only Q (bind c k).
Proof.
  intros Hk w r w'. unfold bind.
  destruct (c w) as [[a|e] w1]; [apply Hk | intros [=]].
Qed.

Lemma returns_only_try_catch (Q : Response -> Prop) (c : M Response)
      (h : Err -> M Response) :
  returns_only Q c -> (forall e, returns_only Q (h e)) ->
  returns_only Q (try_catch c h).
Proof.
  intros Hc Hh w r w'. unfold try_catch.
  destruct (c w) as [[a|e] w1] eqn:E.
  - intros [= <- <-]. apply (Hc w a w1 E).
  - apply Hh.
Qed.

Lemma returns_only_route (Q : Response -> Prop) (mw : Middleware)
      (handler : Request -> M Response) (req : Request) :
  answers_only Q (mw req) -> (forall r, returns_only Q (handler r)) ->
  returns_only Q (route mw handler req).
Proof.
  intros Hm Hh w res w'. unfold route, bind.
  destruct (mw req w) as [[[r|req']|e] w1] eqn:E.
  - intros [= <- <-]. apply (Hm w r w1 E).
  - apply Hh.
  - intros [=].
Qed.

(** Walk through a handler, closing each answer with [tac]. *)
Ltac returning tac :=
  repeat first
    [ apply returns_only_bind; intro
    | apply returns_only_try_catch; [|intro]
    | apply returns_only_throw
    | apply returns_only_ret; tac
    | match goal with
      | |- returns_only _ (match ?x with _ => _ end) => destruct x
      | |- returns_only _ (if ?x then _ else _) => destruct x
      end ].

Lemma gate_condition (w : World) :
  negb (isConnected (gateway w)) || negb (readyState w =? 1) = false <-> up w.
Proof.
  unfold up. destruct (isConnected (gateway w)); simpl.
  - destruct (N.eqb_spec (readyState w) 1) as [E|E]; simpl.
    + split; [intros _; split; [reflexivity | exact E] | reflexivity].
    + split; [discriminate | intros [_ H]; exfalso; exact (E H)].
  - split; [discriminate | intros [H _]; discriminate].
Qed.

Lemma register_handler_never_503 (req : Request) :
  returns_only (fun res => status res <> 503) (register_handler P req).
Proof.
  unfold register_handler, register_try, register_catch.
  returning ltac:(simpl; discriminate).
Qed.

Lemma login_handler_never_503 (req : Request) :
  returns_only (fun res => status res <> 503) (login_handler P req).
Proof.
  unfold login_handler. returning ltac:(simpl; discriminate).
Qed.

(** X5.  [POST /register] and [POST /login] answer 503 exactly when the
    store is not usable, that is when the flag is false or mongoose does not
    report the state 1: a set flag alone is not enough, and no other path of
    the two handlers answers 503. *)
Theorem gate_answers_503_exactly_when_unready (req : Request) (w : World) :
  (exists res w', post_register P req w = (Ok res, w')
                  /\ (status res = 503 <-> ~ up w))
  /\ (exists res w', post_login P req w = (Ok res, w')
                     /\ (status res = 503 <-> ~ up w)).
Proof.
  destruct (negb (isConnected (gateway w)) || negb (readyState w =? 1)) eqn:G.
  - assert (Hn : ~ up w).
    { intro Hup. apply gate_condition in Hup. rewrite Hup in G. discriminate. }
    split; unfold post_register, post_login, route, bind,
      checkDatabaseConnection; rewrite G; eexists _, _;
      (split; [reflexivity|]); simpl; split; auto.
  - apply gate_condition in G. split.
    + rewrite (register_gate_open req w G).
      destruct (register_handler_answers req w) as (res & w' & Hr & _).
      exists res, w'. split; [exact Hr|]. split.
      * intro Hs. exfalso.
        apply (register_handler_never_503 req w res w' Hr Hs).
      * intro Hn. contradiction.
    + rewrite (login_gate_open req w G).
      destruct (login_handler_answers req w) as (res & w' & Hr & _).
      exists res, w'. split; [exact Hr|]. split.
      * intro Hs. exfalso. apply (login_handler_never_503 req w res w' Hr Hs).
      * intro Hn. contradiction.
Qed.

(** X6.  After an event that clears the flag (a failed attempt, the
    connection's [error], a [disconnected]) the next registration or login is
    answered 503, whatever mongoose reports and whatever the flag was; after
    one that sets it (a successful attempt, [connected]) the gate lets the
    request through to its handler as soon as mongoose reports the state 1.
    The events themselves leave the collection alone. *)
Theorem connection_events_drive_the_gate
        (ev : Event) (w w' : World) (req : Request) :
  deliver ev w = Some w' ->
  users w' = users w
  /\ (clears_flag ev = true ->
      exists res, post_register P req w' = (Ok res, w')
                  /\ post_login P req w' = (Ok res, w')
                  /\ status res = 503)
  /\ (sets_flag ev = true -> readyState w = 1 ->
      post_register P req w' = register_handler P req w'
      /\ post_login P req w' = login_handler P req w').
Proof.
  unfold deliver. intro Hd.
  destruct (step ev (gateway w)) as [g|] eqn:Hs; [|discriminate].
  injection Hd as <-. split; [reflexivity|]. split.
  - intro Hc.
    assert (Hf : isConnected g = false).
    { destruct ev; simpl in Hc, Hs; try discriminate.
      - destruct (connecting (gateway w)); [discriminate|].
        now injection Hs as <-.
      - now injection Hs as <-.
      - now injection Hs as <-. }
    destruct (gate_closed req (with_gateway g w) Hf) as (res & Hg & Hst & _).
    exists res. unfold post_register, post_login, route, bind.
    rewrite Hg. repeat split. exact Hst.
  - intros Hc Hr.
    assert (Hf : isConnected g = true).
    { destruct ev; simpl in Hc, Hs; try discriminate.
      - destruct (connecting (gateway w)); [discriminate|].
        now injection Hs as <-.
      - now injection Hs as <-. }
    assert (Hup : up (with_gateway g w)) by (split; assumption).
    split; [apply (register_gate_open _ _ Hup) | apply (login_gate_open _ _ Hup)].
Qed.

(** X7.  [POST /login] answers 200 only for a password that the stored hash
    of the user it looked up accepts: the answer then carries that user's
    id, name and email and a token for that user's id, and when the request
    names an email, the user is a stored one with that email. *)
Theorem login_succeeds_only_on_matching_password
        (req : Request) (w w' : World) (res : Response) :
  post_login P req w = (Ok res, w') -> status res = 200 ->
  exists u p h key,
    body_password req = Some p
    /\ password u = Some h
    /\ bcrypt_check P p h = true
    /\ JWT_SECRET P = Some key
    /\ body res
       = JObj [("message", JStr "Login successful");
               ("token",
                JStr (let c := mkClaims (_id u) (clock w / 1000)
                                        (clock w / 1000 + one_day) in
                      jwt_encode P c (hs256 P key c)));
               ("user", user_summary u)]
    /\ (forall e, body_email req = Some e ->
                  In u (users w) /\ email u = Some e).
Proof.
  unfold post_login, route, bind, checkDatabaseConnection.
  destruct (negb (isConnected (gateway w)) || negb (readyState w =? 1)).
  { intros [= <- _] Hs. discriminate Hs. }
  unfold login_handler, try_catch, User_findOne, bind, record_call, round_trip.
  simpl. destruct (outage w (roundTrips w)); simpl.
  { intros [= <- _] Hs. discriminate Hs. }
  match goal with
  | |- context [option_map _ ?h] => destruct h as [u|] eqn:Hf; simpl
  end.
  2:{ intros [= <- _] Hs. discriminate Hs. }
  unfold bcrypt_compare, bind, record_call, ret, throw. simpl.
  destruct (body_password req) as [p|]; simpl.
  2:{ intros [= <- _] Hs. discriminate Hs. }
  destruct (password u) as [h|] eqn:Hh; simpl.
  2:{ intros [= <- _] Hs. discriminate Hs. }
  destruct (bcrypt_check P p h) eqn:Hc; simpl.
  2:{ intros [= <- _] Hs. discriminate Hs. }
  unfold jwt_sign, bind, record_call, Date_now, ret, throw. simpl.
  destruct (JWT_SECRET P) as [key|] eqn:Hk; simpl.
  2:{ intros [= <- _] Hs. discriminate Hs. }
  intros [= <- _] _. exists u, p, h, key.
  repeat (split; [first [reflexivity | assumption]|]).
  intros e He. rewrite He in Hf. apply find_some in Hf.
  destruct Hf as [Hin Hb]. split; [exact Hin|].
  unfold by_email in Hb. now apply jsstring_eqb_eq in Hb.
Qed.

(** ** No answer carries a password *)

Ltac no_password :=
  unfold password_free;
  try match goal with
      | |- context [user_summary ?u] =>
          unfold user_summary; destruct (name u), (email u)
      | |- context [userProfile ?u _] =>
          unfold userProfile; destruct (name u), (email u)
      | |- context [updatedProfile ?u _] =>
          unfold updatedProfile; destruct (name u), (email u)
      end;
  reflexivity.

Lemma gate_answers_password_free (req : Request) :
  answers_only password_free (checkDatabaseConnection req).
Proof.
  intros w res w'. unfold checkDatabaseConnection.
  destruct (negb _ || negb _); intros [= <- _]; reflexivity.
Qed.

Lemma verifyToken_answers_password_free (req : Request) :
  answers_only password_free (verifyToken P req).
Proof.
  intros w res w'. unfold verifyToken.
  destruct (bearer req) as [token|]; [|intros [= <- _]; reflexivity].
  destruct (truthy (Some token)); [|intros [= <- _]; reflexivity].
  unfold try_catch, bind.
  destruct (jwt_verify P token w) as [[c|e] w1]; simpl;
    [intros [=] | intros [= <- _]; reflexivity].
Qed.

(** X8.  No answer of [POST /register], [POST /login], [GET /profile] or
    [PUT /profile] has a [password] key anywhere in its body, on any run:
    neither the plaintext of the request nor the stored hash is echoed under
    that name, in successes and failures alike. *)
Theorem no_answer_has_a_password_key (req : Request) :
  returns_only password_free (post_register P req)
  /\ returns_only password_free (post_login P req)
  /\ returns_only password_free (get_profile P req)
  /\ returns_only password_free (put_profile P req).
Proof.
  split; [|split; [|split]]; apply returns_only_route;
    auto using gate_answers_password_free, verifyToken_answers_password_free;
    intro r.
  - unfold register_handler, register_try, register_catch.
    returning no_password.
  - unfold login_handler. returning no_password.
  - unfold get_profile_handler. returning no_password.
  - unfold put_profile_handler. returning no_password.
Qed.

(** ** What the routes leave alone *)

Lemma preserves_pure_step {A X} (obs : World -> X) (f : World -> Result A) :
  preserves obs (fun w => (f w, w)).
Proof. intro w. reflexivity. Qed.

Lemma surroundings_record_call (c : Call) :
  preserves surroundings (record_call c).
Proof. intro w. reflexivity. Qed.

Lemma surroundings_round_trip : preserves surroundings round_trip.
Proof. intro w. unfold round_trip. destruct (outage w _); reflexivity. Qed.

Lemma surroundings_bcrypt_hash (pw : jsstring) (rounds : N) :
  preserves surroundings (bcrypt_hash P pw rounds).
Proof. intro w. unfold bcrypt_hash, bind. simpl. destruct pw; reflexivity. Qed.

Lemma surroundings_new_User (n e p : jsstring) :
  preserves surroundings (new_User n e p).
Proof. intro w. reflexivity. Qed.

Lemma surroundings_save (d : Document) : preserves surroundings (save d).
Proof.
  intro w. unfold save, bind, record_call, round_trip. simpl.
  destruct (fetched d) as [was|].
  - destruct (User_eqb was (doc d)); [reflexivity|].
    destruct (modified_required_ok was (doc d)); [|reflexivity].
    simpl. destruct (outage w (roundTrips w)); [reflexivity|]. simpl.
    destruct (negb (existsb _ (users w))); [reflexivity|].
    destruct (negb _ && existsb _ (users w)); reflexivity.
  - destruct (required_ok (doc d)); [|reflexivity].
    simpl. destruct (outage w (roundTrips w)); [reflexivity|]. simpl.
    destruct (existsb _ (users w)); reflexivity.
Qed.

Lemma objectIds_record_call (c : Call) : preserves objectIds (record_call c).
Proof. intro w. reflexivity. Qed.

Lemma objectIds_round_trip : preserves objectIds round_trip.
Proof. intro w. unfold round_trip. destruct (outage w _); reflexivity. Qed.

#[local] Hint Resolve preserves_pure_step surroundings_record_call
  surroundings_round_trip surroundings_bcrypt_hash surroundings_new_User
  surroundings_save objectIds_record_call objectIds_round_trip : frame.

(** As [frame], but a step known to leave the observation alone is not
    opened. *)
Ltac untouched :=
  repeat first
    [ solve [auto with frame]
    | apply preserves_bind; [|intro]
    | apply preserves_try_catch; [|intro]
    | match goal with
      | |- preserves _ (match ?x with _ => _ end) => destruct x
      | |- preserves _ (if ?x then _ else _) => destruct x
      end ].

Lemma surroundings_checkDatabaseConnection (req : Request) :
  preserves surroundings (checkDatabaseConnection req).
Proof.
  intro w. unfold checkDatabaseConnection.
  destruct (negb _ || negb _); reflexivity.
Qed.

Lemma objectIds_checkDatabaseConnection (req : Request) :
  preserves objectIds (checkDatabaseConnection req).
Proof.
  intro w. unfold checkDatabaseConnection.
  destruct (negb _ || negb _); reflexivity.
Qed.

Lemma surroundings_verifyToken (req : Request) :
  preserves surroundings (verifyToken P req).
Proof. unfold verifyToken, jwt_verify. frame. Qed.

Lemma objectIds_verifyToken (req : Request) :
  preserves objectIds (verifyToken P req).
Proof. unfold verifyToken, jwt_verify. frame. Qed.

(** X9.  No route writes what belongs to the connection logic and the
    environment: after any run of any of the four routes, the readiness
    flag with the pending attempts and retries, mongoose's connection state
    and the clock are what they were. *)
Theorem routes_leave_the_connection_alone (req : Request) (w : World) :
  surroundings (snd (post_register P req w)) = surroundings w
  /\ surroundings (snd (post_login P req w)) = surroundings w
  /\ surroundings (snd (get_profile P req w)) = surroundings w
  /\ surroundings (snd (put_profile P req w)) = surroundings w.
Proof.
  split; [|split; [|split]].
  - apply preserves_route; [apply surroundings_checkDatabaseConnection|].
    intro r. unfold register_handler, register_try, register_catch,
      User_findOne, jwt_sign. untouched.
  - apply preserves_route; [apply surroundings_checkDatabaseConnection|].
    intro r. unfold login_handler, User_findOne, bcrypt_compare, jwt_sign.
    untouched.
  - apply preserves_route; [apply surroundings_verifyToken|].
    intro r. unfold get_profile_handler, User_findById. untouched.
  - apply preserves_route; [apply surroundings_verifyToken|].
    intro r. unfold put_profile_handler, User_findById. untouched.
Qed.

Lemma objectIds_login (req : Request) : preserves objectIds (post_login P req).
Proof.
  apply preserves_route; [apply objectIds_checkDatabaseConnection|].
  intro r. unfold login_handler, User_findOne, bcrypt_compare, jwt_sign.
  frame.
Qed.

Lemma objectIds_get_profile (req : Request) :
  preserves objectIds (get_profile P req).
Proof.
  apply preserves_route; [apply objectIds_verifyToken|].
  intro r. unfold get_profile_handler, User_findById. frame.
Qed.

(** ** The store stays well formed *)

(** What a registration does to the collection and the id supply. *)
Lemma register_handler_store (req : Request) (w : World) :
  (users (snd (register_handler P req w)) = users w
   /\ objectIds w <= objectIds (snd (register_handler P req w)))
  \/ exists u,
       users (snd (register_handler P req w)) = users w ++ [u]
       /\ objectIds (snd (register_handler P req w)) = objectIds w + 1
       /\ _id u = objectIds w
       /\ email u = body_email req
       /\ required_ok u = true
       /\ existsb (fun v => jsstring_eqb (email v) (email u)) (users w) = false.
Proof.
  unfold register_handler, try_catch, register_catch, register_try,
    User_findOne, bind, record_call, round_trip. simpl.
  destruct (outage w (roundTrips w)); simpl; [left; split; [reflexivity|lia]|].
  match goal with
  | |- context [option_map _ ?h] =>
      destruct h; simpl; [left; split; [reflexivity|lia]|]
  end.
  unfold bcrypt_hash, bind, record_call. simpl.
  destruct (body_password req); simpl; [|left; split; [reflexivity|lia]].
  unfold save, bind, record_call, round_trip. simpl.
  destruct (required_ok _) eqn:R; simpl; [|left; split; [reflexivity|lia]].
  destruct (outage w (S (roundTrips w))); simpl;
    [left; split; [reflexivity|lia]|].
  destruct (existsb _ (users w)) eqn:E; simpl;
    [left; split; [reflexivity|lia]|].
  right. eexists.
  unfold jwt_sign, bind, record_call, Date_now, ret, throw. simpl.
  destruct (JWT_SECRET P); simpl;
    (split; [reflexivity|]); (split; [reflexivity|]);
    (split; [reflexivity|]); (split; [reflexivity|]);
    (split; [exact R | exact E]).
Qed.

(** What [PUT /profile] does to the collection and the id supply. *)
Lemma put_profile_handler_store (r : Request) (w : World) :
  objectIds (snd (put_profile_handler r w)) = objectIds w
  /\ (users (snd (put_profile_handler r w)) = users w
      \/ exists i u,
           userId r = Some i
           /\ find (by_id i) (users w) = Some u
           /\ users (snd (put_profile_handler r w))
              = update_one i (set_modified u (assign_profile r u)) (users w)
           /\ (jsstring_eqb (email u) (email (assign_profile r u)) = false ->
               existsb (fun x => negb (by_id i x)
                                 && jsstring_eqb (email x)
                                      (email (assign_profile r u)))
                       (users w) = false)).
Proof.
  unfold put_profile_handler, try_catch, User_findById, bind, record_call,
    round_trip. simpl.
  destruct (outage w (roundTrips w)); simpl; [split; [reflexivity|now left]|].
  destruct (userId r) as [i|]; simpl; [|split; [reflexivity|now left]].
  destruct (find (by_id i) (users w)) as [u|] eqn:Hf; simpl;
    [|split; [reflexivity|now left]].
  pose proof (find_by_id_id _ _ _ Hf) as Hid.
  assert (Hi : _id (assign_profile r u) = i).
  { pose proof (assign_profile_frozen r u) as H. unfold frozen in H.
    injection H as H _ _ _ _. now rewrite H. }
  unfold save, bind, record_call, round_trip. simpl. rewrite Hi.
  destruct (User_eqb u (assign_profile r u)); simpl;
    [split; [reflexivity|now left]|].
  destruct (modified_required_ok u (assign_profile r u)); simpl;
    [|split; [reflexivity|now left]].
  destruct (outage w (S (roundTrips w))); simpl;
    [split; [reflexivity|now left]|].
  destruct (negb (existsb _ (users w))); simpl;
    [split; [reflexivity|now left]|].
  destruct (jsstring_eqb (email u) (email (assign_profile r u))) eqn:Em;
    simpl.
  - split; [reflexivity|]. right. exists i, u.
    repeat split; try assumption. intro H. rewrite Em in H. discriminate.
  - destruct (existsb _ (users w)) eqn:Ex; simpl;
      [split; [reflexivity|now left]|].
    split; [reflexivity|]. right. exists i, u.
    repeat split; try assumption. intros _. exact Ex.
Qed.

Lemma put_profile_store (req : Request) (w : World) :
  objectIds (snd (put_profile P req w)) = objectIds w
  /\ (users (snd (put_profile P req w)) = users w
      \/ exists token c u,
           bearer req = Some token
           /\ fst (jwt_verify P token w) = Ok c
           /\ find (by_id (claim_id c)) (users w) = Some u
           /\ users (snd (put_profile P req w))
              = update_one (claim_id c)
                           (set_modified u (assign_profile req u)) (users w)
           /\ (jsstring_eqb (email u) (email (assign_profile req u)) = false ->
               existsb (fun x => negb (by_id (claim_id c) x)
                                 && jsstring_eqb (email x)
                                      (email (assign_profile req u)))
                       (users w) = false)).
Proof.
  unfold put_profile, route, bind.
  pose proof (users_verifyToken req w) as Hu.
  pose proof (objectIds_verifyToken req w) as Ho.
  unfold verifyToken in *.
  destruct (bearer req) as [token|]; [|split; [reflexivity|now left]].
  destruct (truthy (Some token)); [|split; [reflexivity|now left]].
  unfold try_catch, bind in *.
  destruct (jwt_verify P token w) as [[c|e] w1] eqn:Hv; simpl in *;
    [|split; [exact Ho | left; exact Hu]].
  destruct (put_profile_handler_store (with_userId (claim_id c) req) w1)
    as [Hids [H|(i & u & Hi & Hf & H & Hc)]].
  - split; [now rewrite Hids|]. left. now rewrite H.
  - split; [now rewrite Hids|]. right. simpl in Hi. injection Hi as <-.
    exists token, c, u. rewrite Hu in Hf, H, Hc.
    split; [reflexivity|]. split; [now rewrite Hv|]. split; [exact Hf|].
    split; [exact H | exact Hc].
Qed.

Lemma not_in_map_email (e : jsstring) (us : list User) :
  existsb (fun v => jsstring_eqb (email v) e) us = false ->
  ~ In e (map email us).
Proof.
  induction us as [|u rest IH]; simpl; [tauto|].
  intros H [He|Hin].
  - rewrite He, jsstring_eqb_refl in H. discriminate.
  - apply orb_false_iff in H. destruct H as [_ H]. now apply IH.
Qed.

Lemma not_in_map_id (i : N) (us : list User) :
  Forall (fun u => _id u < i) us -> ~ In i (map _id us).
Proof.
  induction 1 as [|u rest Hu _ IH]; simpl; [tauto|].
  intros [He|Hin]; [lia | now apply IH].
Qed.

Lemma NoDup_snoc {A} (l : list A) (a : A) :
  NoDup l -> ~ In a l -> NoDup (l ++ [a]).
Proof.
  intros Hl Ha. induction Hl as [|x l Hx Hl IH]; simpl.
  - constructor; [tauto | constructor].
  - constructor.
    + rewrite in_app_iff. simpl. intros [H|[H|[]]]; [tauto|].
      subst. apply Ha. now left.
    + apply IH. intro H. apply Ha. now right.
Qed.

(** Writing a new email into the first record with id [i], when ids are
    unique and no record with another id has that email. *)
Lemma NoDup_email_update (i : N) (f : User -> User) (us : list User) :
  NoDup (map _id us) -> NoDup (map email us) ->
  (forall x, _id (f x) = _id x) ->
  (forall x, email (f x) = email x
             \/ existsb (fun y => negb (by_id i y)
                                  && jsstring_eqb (email y) (email (f x)))
                        us = false) ->
  NoDup (map email (update_one i f us)).
Proof.
  intros Hid Hem Hf Hchk.
  assert (G : forall l,
             NoDup (map _id l) -> NoDup (map email l) ->
             (forall x, email (f x) = email x
                        \/ forall y, In y l -> _id y <> i ->
                                     email y <> email (f x)) ->
             NoDup (map email (update_one i f l))).
  { induction l as [|u rest IH]; simpl; intros Hi He Hc; [constructor|].
    inversion Hi as [|? ? Hni Hi']. inversion He as [|? ? Hne He']. subst.
    destruct (N.eqb_spec (_id u) i) as [E|E]; simpl.
    - constructor; [|exact He'].
      destruct (Hc u) as [H|H]; [now rewrite H|].
      intro Hin. apply in_map_iff in Hin. destruct Hin as (y & Hy & Hin).
      apply (H y); [now right | | exact Hy].
      intro Hyi. apply Hni. apply in_map_iff. exists y.
      split; [congruence | exact Hin].
    - assert (Hrest : NoDup (map email (update_one i f rest))).
      { apply IH; auto. intro x. destruct (Hc x) as [H|H]; [now left|].
        right. intros y Hy. apply H. now right. }
      constructor; [|exact Hrest].
      clear IH Hrest. revert Hne Hc. clear - E.
      induction rest as [|v rest IH]; simpl; intros Hne Hc; [tauto|].
      destruct (N.eqb_spec (_id v) i) as [Ev|Ev]; simpl.
      + intros [H|H]; [|apply Hne; now right].
        destruct (Hc v) as [Hk|Hk].
        * apply Hne. left. congruence.
        * apply (Hk u); [now left | exact E | now symmetry].
      + intros [H|H]; [apply Hne; now left|].
        revert H. apply IH.
        * intro Hin. apply Hne. now right.
        * intro x. destruct (Hc x) as [Hk|Hk]; [now left|].
          right. intros y [Hy|Hy]; [subst; apply Hk; now left|].
          apply Hk. right. now right. }
  apply G; auto. intro x. destruct (Hchk x) as [H|H]; [now left|].
  right. intros y Hy Hyi Heq.
  assert (Hex : existsb (fun y => negb (by_id i y)
                                  && jsstring_eqb (email y) (email (f x)))
                        us = true).
  { apply existsb_exists. exists y. split; [exact Hy|].
    unfold by_id. destruct (N.eqb_spec (_id y) i); [contradiction|].
    simpl. rewrite Heq. apply jsstring_eqb_refl. }
  rewrite Hex in H. discriminate.
Qed.

Lemma Forall_update_one (Q : User -> Prop) (i : N) (f : User -> User)
      (us : list User) :
  Forall Q us -> (forall x, Q x -> Q (f x)) -> Forall Q (update_one i f us).
Proof.
  intros H Hf. induction H as [|u rest Hu Hrest IH]; simpl; [constructor|].
  destruct (_id u =? i); constructor; auto.
Qed.

(** X10.  Every route keeps the collection well formed: if the ids of the
    stored users are unique and older than the next ObjectId and their
    emails are unique, the same holds after any run of [POST /register],
    [POST /login], [GET /profile] and [PUT /profile], successful or not. *)
Theorem routes_keep_the_store_well_formed (req : Request) (w : World) :
  well_formed w ->
  well_formed (snd (post_register P req w))
  /\ well_formed (snd (post_login P req w))
  /\ well_formed (snd (get_profile P req w))
  /\ well_formed (snd (put_profile P req w)).
Proof.
  intros (Hid & Hlt & Hem). split; [|split; [|split]].
  - unfold post_register, route, bind, checkDatabaseConnection.
    destruct (negb _ || negb _); [now repeat split|].
    destruct (register_handler_store req w)
      as [[Hu Ho]|(u & Hu & Ho & Hi & He & _ & Hex)];
      unfold well_formed; rewrite Hu.
    + split; [exact Hid|]. split; [|exact Hem].
      eapply Forall_impl; [|exact Hlt]. simpl. intros a Ha. lia.
    + rewrite Ho, !map_app. simpl. split; [|split].
      * apply NoDup_snoc; [exact Hid|]. rewrite Hi.
        now apply not_in_map_id.
      * apply Forall_app. split.
        -- eapply Forall_impl; [|exact Hlt]. simpl. intros a Ha. lia.
        -- constructor; [lia | constructor].
      * apply NoDup_snoc; [exact Hem|]. now apply not_in_map_email.
  - unfold well_formed. now rewrite users_login, objectIds_login.
  - unfold well_formed. now rewrite users_get_profile, objectIds_get_profile.
  - destruct (put_profile_store req w)
      as [Ho [Hu|(token & c & u & _ & _ & Hf & Hu & Hchk)]];
      unfold well_formed; rewrite Hu, Ho; [now repeat split|].
    split; [|split].
    + rewrite map_update_one; [exact Hid | reflexivity].
    + apply Forall_update_one; [exact Hlt|]. intros x Hx. exact Hx.
    + apply NoDup_email_update; auto. intro x. simpl.
      destruct (jsstring_eqb (email u) (email (assign_profile req u))) eqn:E.
      * now left.
      * right. now apply Hchk.
Qed.

(** X11.  [PUT /profile] changes no record but the caller's: without a
    token that verifies, the collection is left as it was, and with a token
    that verifies to the id [i], the records of all users other than [i] are
    the same, in the same order, after the run. *)
Theorem put_profile_touches_only_the_callers_record
        (req : Request) (w : World) :
  (truthy (bearer req) = false ->
   users (snd (put_profile P req w)) = users w)
  /\ (forall token err,
        bearer req = Some token -> fst (jwt_verify P token w) = Throw err ->
        users (snd (put_profile P req w)) = users w)
  /\ (forall token c,
        bearer req = Some token -> fst (jwt_verify P token w) = Ok c ->
        others (claim_id c) (users (snd (put_profile P req w)))
        = others (claim_id c) (users w)).
Proof.
  split; [|split].
  - intro H. unfold put_profile, route, bind.
    now rewrite (verifyToken_absent req w H).
  - intros token err Hb Hv.
    destruct (put_profile_store req w)
      as [_ [Hu|(t & c & u & Hb' & Hv' & _)]]; [exact Hu|].
    rewrite Hb in Hb'. injection Hb' as <-. rewrite Hv in Hv'. discriminate.
  - intros token c Hb Hv.
    destruct (put_profile_store req w)
      as [_ [Hu|(t & c' & u & Hb' & Hv' & _ & Hu & _)]]; [now rewrite Hu|].
    rewrite Hb in Hb'. injection Hb' as <-. rewrite Hv in Hv'.
    injection Hv' as <-. rewrite Hu. now apply others_update_one.
Qed.

(** ** Registration, composed with what follows *)

Lemma register_inserts (req : Request) (w : World) (n e p : string) :
  up w -> healthy w -> bcrypt_sound P ->
  body_name req = Some n -> n <> "" ->
  body_email req = Some e -> e <> "" ->
  body_password req = Some p ->
  (forall u, In u (users w) -> email u <> Some e) ->
  users (snd (post_register P req w)) = users w ++ [registered P w n e p]
  /\ (JWT_SECRET P = None ->
      fst (post_register P req w)
      = Ok (mkResponse 500
              (JObj [("message", JStr "Error registering user");
                     ("error",
                      JStr "secretOrPrivateKey must have a value")]))).
Proof.
  intros Hup Hh Hb Hn Hn0 He He0 Hp Hfresh.
  rewrite (register_gate_open req w Hup).
  unfold register_handler, try_catch, register_catch, register_try,
    User_findOne, bind, record_call, round_trip.
  rewrite He, Hn, Hp. simpl. rewrite (Hh (roundTrips w)). simpl.
  rewrite (find_by_email_none e (users w) Hfresh). simpl.
  unfold save, bind, record_call, round_trip, required_ok. simpl.
  rewrite (truthy_nonempty n Hn0), (truthy_nonempty e He0).
  rewrite (truthy_nonempty _ (proj1 (Hb p 10 (entropy w)))). simpl.
  rewrite (Hh (S (roundTrips w))). simpl.
  rewrite (existsb_email_fresh e (users w) Hfresh). simpl.
  unfold jwt_sign, bind, record_call, Date_now, ret, throw.
  destruct (JWT_SECRET P); simpl; split; try reflexivity; discriminate.
Qed.

Lemma register_known_email (req : Request) (w : World) (e : string) (u : User) :
  up w -> outage w (roundTrips w) = None ->
  body_email req = Some e -> find (by_email e) (users w) = Some u ->
  fst (post_register P req w)
  = Ok (mkResponse 400 (message "User already exists"))
  /\ users (snd (post_register P req w)) = users w.
Proof.
  intros Hup Ho He Hf. rewrite (register_gate_open req w Hup).
  unfold register_handler, try_catch, register_try, User_findOne, bind,
    record_call, round_trip. rewrite He. simpl. rewrite Ho. simpl.
  rewrite Hf. split; reflexivity.
Qed.

(** X12.  Insert, then look up: once a registration of [{name, e, p}] with
    a fresh email has run on a usable store, any further registration with
    the email [e], in any later state with the collection it left and the
    store usable, is answered 400 "User already exists" and stores nothing.
    This holds even when the first answer was a failure after the insert. *)
Theorem registering_again_conflicts
        (req again : Request) (w : World) (n e p : string) :
  up w -> healthy w -> bcrypt_sound P ->
  body_name req = Some n -> n <> "" ->
  body_email req = Some e -> e <> "" ->
  body_password req = Some p ->
  (forall u, In u (users w) -> email u <> Some e) ->
  body_email again = Some e ->
  forall v,
    users v = users (snd (post_register P req w)) ->
    up v -> outage v (roundTrips v) = None ->
    fst (post_register P again v)
    = Ok (mkResponse 400 (message "User already exists"))
    /\ users (snd (post_register P again v)) = users v.
Proof.
  intros Hup Hh Hb Hn Hn0 He He0 Hp Hfresh Ha v Hv Hvup Hvo.
  destruct (register_inserts req w n e p Hup Hh Hb Hn Hn0 He He0 Hp Hfresh)
    as [Hus _].
  apply (register_known_email again v e (registered P w n e p)); auto.
  rewrite Hv, Hus. apply find_app_fresh.
  - now apply find_by_email_none.
  - unfold by_email. simpl. apply String.eqb_refl.
Qed.

(** X13.  When [jwt.sign] fails (no secret is configured), a registration
    that is otherwise in order has already stored the user: the answer is
    500 "Error registering user", and the new record is in the
    collection. *)
Theorem register_stores_before_it_signs
        (req : Request) (w : World) (n e p : string) :
  JWT_SECRET P = None ->
  up w -> healthy w -> bcrypt_sound P ->
  body_name req = Some n -> n <> "" ->
  body_email req = Some e -> e <> "" ->
  body_password req = Some p ->
  (forall u, In u (users w) -> email u <> Some e) ->
  (exists res, fst (post_register P req w) = Ok res
               /\ status res = 500
               /\ field "message" (body res)
                  = Some (JStr "Error registering user"))
  /\ users (snd (post_register P req w)) = users w ++ [registered P w n e p].
Proof.
  intros Hk Hup Hh Hb Hn Hn0 He He0 Hp Hfresh.
  destruct (register_inserts req w n e p Hup Hh Hb Hn Hn0 He He0 Hp Hfresh)
    as [Hus Hres].
  split; [|exact Hus]. eexists. split; [apply (Hres Hk)|]. split; reflexivity.
Qed.

Lemma find_by_id_fresh (i : N) (us : list User) :
  Forall (fun u => _id u < i) us -> find (by_id i) us = None.
Proof.
  induction 1 as [|u rest Hu _ IH]; simpl; [reflexivity|].
  unfold by_id at 1. destruct (N.eqb_spec (_id u) i); [lia | exact IH].
Qed.

Lemma jwt_verify_signed (key : string) (c : Claims) (w : World) :
  JWT_SECRET P = Some key -> jwt_codec_sound P ->
  clock w / 1000 < exp c ->
  fst (jwt_verify P (jwt_encode P c (hs256 P key c)) w) = Ok c.
Proof.
  intros Hk Hc Hlt.
  unfold jwt_verify, bind, record_call, Date_now, ret, throw.
  rewrite Hc, Hk, String.eqb_refl. simpl.
  destruct (N.leb_spec (exp c) (clock w / 1000)); [lia | reflexivity].
Qed.

(** X14.  Register, then read the profile: the token of a successful
    registration, sent to [GET /profile] in any later state with the
    collection it left, before the token expires and with the lookup
    answered, shows the profile of the user just registered: the name and
    email of the request, the role "member", the time of registration as
    [createdAt], and no password. *)
Theorem register_then_read_profile
        (req : Request) (w : World) (key n e p : string) :
  up w -> healthy w ->
  JWT_SECRET P = Some key -> bcrypt_sound P -> jwt_codec_sound P ->
  body_name req = Some n -> n <> "" ->
  body_email req = Some e -> e <> "" ->
  body_password req = Some p ->
  (forall u, In u (users w) -> email u <> Some e) ->
  Forall (fun u => _id u < objectIds w) (users w) ->
  exists res1 token1 w1,
    post_register P req w = (Ok res1, w1)
    /\ field "token" (body res1) = Some (JStr token1)
    /\ forall r v,
         bearer r = Some token1 -> token1 <> "" ->
         users v = users w1 ->
         outage v (roundTrips v) = None ->
         clock v / 1000 < clock w / 1000 + 86400 ->
         fst (get_profile P r v)
         = Ok (mkResponse 200
                 (JObj [("message", JStr "Profile retrieved successfully");
                        ("profile",
                         JObj [("id", JOid (objectIds w));
                               ("name", JStr n);
                               ("email", JStr e);
                               ("role", JStr "member");
                               ("createdAt", JDate (clock w));
                               ("lastLogin", JDate (clock v))])])).
Proof.
  intros Hup Hh Hk Hb Hc Hn Hn0 He He0 Hp Hfresh Hids.
  destruct (register_fresh req w key n e p Hup Hh Hk Hb Hn Hn0 He He0 Hp Hfresh)
    as (w1 & Hreg & Hus & _).
  eexists _, _, w1. split; [exact Hreg|]. split; [reflexivity|].
  intros r v Hbr Ht Hv Ho Hlt.
  pose (c := mkClaims (objectIds w) (clock w / 1000)
                      (clock w / 1000 + one_day)).
  assert (Hver : fst (jwt_verify P (jwt_encode P c (hs256 P key c)) v) = Ok c).
  { apply jwt_verify_signed; auto. }
  rewrite (get_profile_own_record r _ c (registered P w n e p) v Hbr Ht
             Hver Ho).
  - reflexivity.
  - simpl. rewrite Hv, Hus. apply find_app_fresh.
    + now apply find_by_id_fresh.
    + unfold by_id. simpl. apply N.eqb_refl.
Qed.

(** ** Edges of the profile routes *)

Lemma profile_lookup_none (req : Request) (token : string) (c : Claims)
      (w : World) :
  bearer req = Some token -> token <> "" ->
  fst (jwt_verify P token w) = Ok c ->
  outage w (roundTrips w) = None ->
  find (by_id (claim_id c)) (users w) = None ->
  fst (get_profile P req w) = Ok (mkResponse 404 (message "User not found"))
  /\ fst (put_profile P req w) = Ok (mkResponse 404 (message "User not found"))
  /\ saves (snd (put_profile P req w)) = saves w.
Proof.
  intros Hb Ht Hv Ho Hf.
  unfold get_profile, put_profile, route, bind.
  rewrite (verifyToken_accepts req token c w Hb Ht Hv).
  unfold get_profile_handler, put_profile_handler, try_catch, User_findById,
    bind, record_call, round_trip. simpl. rewrite Ho. simpl. rewrite Hf.
  simpl. unfold saves. simpl. rewrite !filter_app. simpl.
  rewrite !app_nil_r. repeat split.
Qed.

(** X15.  A token outlives its user: with a token that still verifies but
    whose id no stored user has, [GET /profile] and [PUT /profile] answer
    404 "User not found", and [PUT /profile] makes no [save] call and leaves
    the collection as it was. *)
Theorem profile_of_a_missing_user_is_404
        (req : Request) (token : string) (c : Claims) (w : World) :
  bearer req = Some token -> token <> "" ->
  fst (jwt_verify P token w) = Ok c ->
  outage w (roundTrips w) = None ->
  find (by_id (claim_id c)) (users w) = None ->
  fst (get_profile P req w) = Ok (mkResponse 404 (message "User not found"))
  /\ fst (put_profile P req w) = Ok (mkResponse 404 (message "User not found"))
  /\ saves (snd (put_profile P req w)) = saves w
  /\ users (snd (put_profile P req w)) = users w.
Proof.
  intros Hb Ht Hv Ho Hf.
  destruct (profile_lookup_none req token c w Hb Ht Hv Ho Hf) as (Hg & Hp & Hs).
  repeat split; try assumption.
  destruct (put_profile_store req w)
    as [_ [Hu|(t & c' & u & Hb' & Hv' & Hf' & _)]]; [exact Hu|].
  rewrite Hb in Hb'. injection Hb' as <-. rewrite Hv in Hv'.
  injection Hv' as <-. rewrite Hf in Hf'. discriminate.
Qed.

(** X16.  [PUT /profile] does not check that a new email is free; the
    store's unique index does.  With a valid token of a stored user and the
    store answering, asking for an email that a user with another id already
    has is answered 500 "Error updating profile", and no record changes, not
    even the name sent along. *)
Theorem put_profile_with_a_taken_email_is_500
        (req : Request) (token : string) (c : Claims) (u v : User)
        (e : string) (w : World) :
  bearer req = Some token -> token <> "" ->
  fst (jwt_verify P token w) = Ok c ->
  healthy w ->
  find (by_id (claim_id c)) (users w) = Some u ->
  body_email req = Some e -> e <> "" -> email u <> Some e ->
  In v (users w) -> _id v <> claim_id c -> email v = Some e ->
  fst (put_profile P req w)
  = Ok (mkResponse 500 (message "Error updating profile"))
  /\ users (snd (put_profile P req w)) = users w.
Proof.
  intros Hb Ht Hv Hh Hf He He0 Hne Hin Hvid Hve.
  pose proof (find_by_id_id _ _ _ Hf) as Hid.
  assert (Hem : email (assign_profile (with_userId (claim_id c) req) u)
                = Some e).
  { unfold assign_profile. simpl. rewrite He. simpl.
    rewrite (truthy_nonempty e He0).
    destruct (truthy (body_name req)); reflexivity. }
  assert (Hi : _id (assign_profile (with_userId (claim_id c) req) u)
               = claim_id c).
  { pose proof (assign_profile_frozen (with_userId (claim_id c) req) u) as H.
    unfold frozen in H. injection H as H _ _ _ _. now rewrite H. }
  assert (Hneq : jsstring_eqb (email u) (Some e) = false).
  { destruct (jsstring_eqb (email u) (Some e)) eqn:E; [|reflexivity].
    apply jsstring_eqb_eq in E. contradiction. }
  unfold put_profile, route, bind.
  rewrite (verifyToken_accepts req token c w Hb Ht Hv).
  unfold put_profile_handler, try_catch, User_findById, bind, record_call,
    round_trip. simpl. rewrite (Hh (roundTrips w)). simpl. rewrite Hf. simpl.
  unfold save, bind, record_call, round_trip. simpl.
  destruct (User_eqb u (assign_profile (with_userId (claim_id c) req) u))
    eqn:Heq.
  { apply User_eqb_eq in Heq. rewrite <- Heq in Hem. contradiction. }
  simpl.
  destruct (modified_required_ok u
              (assign_profile (with_userId (claim_id c) req) u)); simpl;
    [|split; reflexivity].
  rewrite (Hh (S (roundTrips w))). simpl.
  rewrite Hi, Hem, (existsb_by_id_found _ _ _ Hf), Hneq. simpl.
  assert (Hex : existsb (fun x => negb (by_id (claim_id c) x)
                                  && jsstring_eqb (email x) (Some e))
                        (users w) = true).
  { apply existsb_exists. exists v. split; [exact Hin|].
    unfold by_id. destruct (N.eqb_spec (_id v) (claim_id c)); [contradiction|].
    simpl. rewrite Hve. apply jsstring_eqb_refl. }
  rewrite Hex. split; reflexivity.
Qed.

(** X17.  [PUT /profile] treats an empty string like a missing field: with
    a valid token of a stored user and the store answering, a body whose
    name and email are each missing or empty is answered 200 with the
    profile as it is, and the collection is left as it was. *)
Theorem put_profile_without_fields_changes_nothing
        (req : Request) (token : string) (c : Claims) (u : User) (w : World) :
  bearer req = Some token -> token <> "" ->
  fst (jwt_verify P token w) = Ok c ->
  healthy w ->
  find (by_id (claim_id c)) (users w) = Some u ->
  truthy (body_name req) = false -> truthy (body_email req) = false ->
  fst (put_profile P req w)
  = Ok (mkResponse 200
          (JObj [("message", JStr "Profile updated successfully");
                 ("profile", updatedProfile u (clock w))]))
  /\ users (snd (put_profile P req w)) = users w.
Proof.
  intros Hb Ht Hv Hh Hf Hn He.
  assert (Ha : assign_profile (with_userId (claim_id c) req) u = u).
  { unfold assign_profile. simpl. now rewrite Hn, He. }
  unfold put_profile, route, bind.
  rewrite (verifyToken_accepts req token c w Hb Ht Hv).
  unfold put_profile_handler, try_catch, User_findById, bind, record_call,
    round_trip. simpl. rewrite (Hh (roundTrips w)). simpl. rewrite Hf. simpl.
  rewrite Ha. unfold save, bind, record_call, round_trip. simpl.
  rewrite User_eqb_refl. simpl. split; reflexivity.
Qed.

(** X18.  A registration whose name or email is missing or empty never
    stores a user and is never answered 201, whatever else the request and
    the state are. *)
Theorem register_without_name_or_email_stores_nothing
        (req : Request) (w : World) :
  truthy (body_name req) = false \/ truthy (body_email req) = false ->
  users (snd (post_register P req w)) = users w
  /\ exists res w', post_register P req w = (Ok res, w')
                    /\ status res <> 201.
Proof.
  intro Hbad.
  unfold post_register, route, bind, checkDatabaseConnection.
  destruct (negb _ || negb _).
  { split; [reflexivity|]. eexists _, _. split; [reflexivity|]. discriminate. }
  unfold register_handler, try_catch, register_catch, register_try,
    User_findOne, bind, record_call, round_trip. simpl.
  destruct (outage w (roundTrips w)); simpl.
  { split; [reflexivity|]. eexists _, _. split; [reflexivity|]. discriminate. }
  match goal with
  | |- context [option_map _ ?h] => destruct h; simpl
  end.
  { split; [reflexivity|]. eexists _, _. split; [reflexivity|]. discriminate. }
  unfold bcrypt_hash, bind, record_call. simpl.
  destruct (body_password req); simpl.
  2:{ split; [reflexivity|]. eexists _, _. split; [reflexivity|].
      discriminate. }
  unfold save, bind, record_call, round_trip, required_ok. simpl.
  assert (Hr : truthy (body_name req) && truthy (body_email req) = false).
  { destruct Hbad as [H|H]; rewrite H; [reflexivity | apply andb_false_r]. }
  rewrite Hr. simpl.
  split; [reflexivity|]. eexists _, _. split; [reflexivity|]. discriminate.
Qed.

(** X19.  A login does not tell a failure from a bad request: when the
    lookup fails, and also when the user is found but the request has no
    password (so that [bcrypt.compare] throws), the answer is 500
    "Login failed", not 401 or 404. *)
Theorem login_failures_are_500 (req : Request) (w : World) :
  up w ->
  (forall err,
      outage w (roundTrips w) = Some err ->
      fst (post_login P req w)
      = Ok (mkResponse 500
              (JObj [("message", JStr "Login failed");
                     ("error", JStr (err_message err))])))
  /\ (forall e u,
        outage w (roundTrips w) = None ->
        body_email req = Some e -> find (by_email e) (users w) = Some u ->
        body_password req = None ->
        exists res,
          fst (post_login P req w) = Ok res
          /\ status res = 500
          /\ field "message" (body res) = Some (JStr "Login failed")).
Proof.
  intro Hup. rewrite (login_gate_open req w Hup). split.
  - intros err Ho.
    unfold login_handler, try_catch, User_findOne, bind, record_call,
      round_trip. simpl. rewrite Ho. reflexivity.
  - intros e u Ho He Hf Hp.
    unfold login_handler, try_catch, User_findOne, bind, record_call,
      round_trip. rewrite He, Hp. simpl. rewrite Ho. simpl. rewrite Hf.
    eexists. split; [reflexivity|]. split; reflexivity.
Qed.

(** ** Edges of the token gate *)

(** X20.  How the header is cut: a header without a space, and a header
    with two spaces after its first word, carry no token and are answered
    401 without touching anything; in a header of three words the second is
    the token and the third is ignored. *)
Theorem header_is_cut_at_single_spaces (req : Request) (w : World) (h : string) :
  authorization req = Some h ->
  (spaceless h = true ->
   get_profile P req w = (Ok (mkResponse 401 (message "Access Denied")), w))
  /\ (forall scheme rest,
        spaceless scheme = true ->
        h = (scheme ++ String " " (String " " rest))%string ->
        get_profile P req w
        = (Ok (mkResponse 401 (message "Access Denied")), w))
  /\ (forall scheme token rest,
        spaceless scheme = true -> spaceless token = true ->
        h = (scheme ++ String " " (token ++ String " " rest))%string ->
        bearer req = Some token).
Proof.
  intro Ha. split; [|split].
  - intro Hs. unfold get_profile, route, bind.
    rewrite verifyToken_absent; [reflexivity|].
    unfold bearer. rewrite Ha, (split_spaceless h Hs). reflexivity.
  - intros scheme rest Hs ->. unfold get_profile, route, bind.
    rewrite verifyToken_absent; [reflexivity|].
    unfold bearer. rewrite Ha, (split_first_word scheme _ Hs). reflexivity.
  - intros scheme token rest Hs Ht ->. unfold bearer.
    rewrite Ha, (split_first_word scheme _ Hs), (split_first_word token _ Ht).
    reflexivity.
Qed.

(** ** The second file's profile route *)

(** X21.  In the second file, [GET /profile] with a valid token answers 200
    in both cases of the lookup: with the stored document, in which no
    [password] occurs, when the user exists, and with the body [null], not
    a 404, when no stored user has the token's id. *)
Theorem second_file_profile_answers_200
        (req : Request) (token : string) (c : Claims) (w : World) :
  bearer req = Some token -> token <> "" ->
  fst (jwt_verify P token w) = Ok c ->
  outage w (roundTrips w) = None ->
  (find (by_id (claim_id c)) (users w) = None ->
   fst (get_profile_uncaught P req w) = Ok (mkResponse 200 JNull))
  /\ (forall u,
        find (by_id (claim_id c)) (users w) = Some u ->
        exists document,
          fst (get_profile_uncaught P req w) = Ok (mkResponse 200 document)
          /\ field "_id" document = Some (JOid (claim_id c))
          /\ field "name" document = jstr (name u)
          /\ field "email" document = jstr (email u)
          /\ mentions "password" document = false).
Proof.
  intros Hb Ht Hv Ho.
  pose proof (verifyToken_accepts req token c w Hb Ht Hv) as Hacc.
  split.
  - intro Hf. unfold get_profile_uncaught, route, bind.
    unfold bind in Hacc. rewrite Hacc.
    unfold User_findById, bind, record_call, round_trip. simpl.
    rewrite Ho. simpl. rewrite Hf. reflexivity.
  - intros u Hf. exists (document_json (minus_password u)). split.
    + unfold get_profile_uncaught, route, bind.
      unfold bind in Hacc. rewrite Hacc.
      unfold User_findById, bind, record_call, round_trip. simpl.
      rewrite Ho. simpl. rewrite Hf. reflexivity.
    + pose proof (find_by_id_id _ _ _ Hf) as Hid.
      unfold document_json, minus_password, with_password. simpl.
      rewrite Hid. destruct (name u), (email u); repeat split; reflexivity.
Qed.

(** ** Round trips to the store *)

Lemma roundTrips_verifyToken (req : Request) :
  preserves roundTrips (verifyToken P req).
Proof.
  unfold verifyToken, jwt_verify.
  repeat first
    [ apply preserves_bind; [|intro]
    | apply preserves_try_catch; [|intro]
    | apply preserves_ret | apply preserves_throw | apply preserves_Date_now
    | (intro; reflexivity)
    | match goal with
      | |- preserves _ (match ?x with _ => _ end) => destruct x
      | |- preserves _ (if ?x then _ else _) => destruct x
      end ].
Qed.

(** X22.  No route repeats a store operation: a run of [POST /login] or
    [GET /profile] makes at most one round trip to the store (the lookup),
    and a run of [POST /register] or [PUT /profile] at most two (the lookup
    and the write), whether they succeed or fail. *)
Theorem routes_make_at_most_two_round_trips (req : Request) (w : World) :
  (roundTrips (snd (post_register P req w)) <= roundTrips w + 2)%nat
  /\ (roundTrips (snd (post_login P req w)) <= roundTrips w + 1)%nat
  /\ (roundTrips (snd (get_profile P req w)) <= roundTrips w + 1)%nat
  /\ (roundTrips (snd (put_profile P req w)) <= roundTrips w + 2)%nat.
Proof.
  split; [|split; [|split]].
  - unfold post_register, route, bind, checkDatabaseConnection.
    destruct (negb _ || negb _); simpl; [lia|].
    unfold register_handler, try_catch, register_catch, register_try,
      User_findOne, bind, record_call, round_trip. simpl.
    destruct (outage w (roundTrips w)); simpl; [lia|].
    match goal with
    | |- context [option_map _ ?h] => destruct h; simpl; [lia|]
    end.
    unfold bcrypt_hash, bind, record_call. simpl.
    destruct (body_password req); simpl; [|lia].
    unfold save, bind, record_call, round_trip. simpl.
    destruct (required_ok _); simpl; [|lia].
    destruct (outage w (S (roundTrips w))); simpl; [lia|].
    destruct (existsb _ (users w)); simpl; [lia|].
    unfold jwt_sign, bind, record_call, Date_now, ret, throw. simpl.
    destruct (JWT_SECRET P); simpl; lia.
  - unfold post_login, route, bind, checkDatabaseConnection.
    destruct (negb _ || negb _); simpl; [lia|].
    unfold login_handler, try_catch, User_findOne, bind, record_call,
      round_trip. simpl.
    destruct (outage w (roundTrips w)); simpl; [lia|].
    match goal with
    | |- context [option_map _ ?h] => destruct h as [u|]; simpl; [|lia]
    end.
    unfold bcrypt_compare, bind, record_call, ret, throw. simpl.
    destruct (body_password req); simpl; [|lia].
    destruct (password u); simpl; [|lia].
    destruct (bcrypt_check P _ _); simpl; [|lia].
    unfold jwt_sign, bind, record_call, Date_now, ret, throw. simpl.
    destruct (JWT_SECRET P); simpl; lia.
  - unfold get_profile, route, bind.
    pose proof (roundTrips_verifyToken req w) as Hr.
    destruct (verifyToken P req w) as [[[res|r]|e] w1]; simpl in *;
      try lia.
    unfold get_profile_handler, try_catch, User_findById, bind, record_call,
      round_trip. simpl.
    destruct (outage w1 (roundTrips w1)); simpl; [lia|].
    match goal with
    | |- context [option_map _ ?h] => destruct h; simpl; lia
    end.
  - unfold put_profile, route, bind.
    pose proof (roundTrips_verifyToken req w) as Hr.
    destruct (verifyToken P req w) as [[[res|r]|e] w1]; simpl in *;
      try lia.
    unfold put_profile_handler, try_catch, User_findById, bind, record_call,
      round_trip. simpl.
    destruct (outage w1 (roundTrips w1)); simpl; [lia|].
    match goal with
    | |- context [option_map _ ?h] => destruct h as [u|]; simpl; [|lia]
    end.
    unfold save, bind, record_call, round_trip. simpl.
    destruct (User_eqb u _); simpl; [lia|].
    destruct (modified_required_ok u _); simpl; [|lia].
    destruct (outage w1 (S (roundTrips w1))); simpl; [lia|].
    destruct (negb (existsb _ (users w1))); simpl; [lia|].
    destruct (negb _ && existsb _ (users w1)); simpl; lia.
Qed.

End Properties.

(* ------------------------------------------------------------------------- *)
(** ** The reconnect loop *)

Lemma failures_keep_retrying (err : Err) (n : nat) :
  forall g, (0 < connecting g)%nat ->
  exists g', run (failures err n) g = Some g'
             /\ connecting g' = connecting g
             /\ attempts g' = (attempts g + n)%nat
             /\ length (timeouts g') = length (timeouts g).
Proof.
  induction n as [|n IH]; intros g Hc; simpl.
  - exists g. repeat split. lia.
  - destruct (connecting g) as [|k] eqn:Ek; [lia|].
    simpl. destruct (timeouts g ++ [5000]) as [|d rest] eqn:Et.
    + destruct (timeouts g); discriminate.
    + match goal with
      | |- context [run _ ?g1] =>
          destruct (IH g1) as (g' & Hr & Hc' & Ha' & Hl'); [simpl; lia|]
      end.
      exists g'. split; [exact Hr|]. simpl in *.
      split; [lia|]. split; [lia|].
      rewrite Hl'. apply (f_equal (@length N)) in Et.
      rewrite length_app in Et. simpl in Et. lia.
Qed.

Lemma step_fixed_delay (ev : Event) (g g' : Gateway) :
  Forall (eq 5000) (timeouts g) -> step ev g = Some g' ->
  Forall (eq 5000) (timeouts g').
Proof.
  intros H Hs. destruct ev; simpl in Hs.
  - destruct (connecting g); [discriminate|]. injection Hs as <-. exact H.
  - destruct (connecting g); [discriminate|]. injection Hs as <-. simpl.
    apply Forall_app. split; [exact H | repeat constructor].
  - injection Hs as <-. exact H.
  - injection Hs as <-. exact H.
  - injection Hs as <-. exact H.
  - destruct (timeouts g) as [|d rest]; [discriminate|].
    injection Hs as <-. simpl. now inversion H.
Qed.

Lemma run_fixed_delay (evs : list Event) :
  forall g g', Forall (eq 5000) (timeouts g) -> run evs g = Some g' ->
               Forall (eq 5000) (timeouts g').
Proof.
  induction evs as [|ev rest IH]; intros g g' H Hr; simpl in Hr.
  - injection Hr as <-. exact H.
  - destruct (step ev g) as [g1|] eqn:Hs; [|discriminate].
    apply (IH g1 g'); [|exact Hr]. now apply (step_fixed_delay ev g).
Qed.

Lemma step_alive (ev : Event) (g g' : Gateway) :
  is_on_error ev = false -> step ev g = Some g' -> alive g'.
Proof.
  intros He Hs. destruct ev; simpl in Hs; try discriminate.
  - destruct (connecting g); [discriminate|]. injection Hs as <-. now left.
  - destruct (connecting g); [discriminate|]. injection Hs as <-. right.
    unfold reconnecting. simpl. rewrite length_app. simpl.
    rewrite Nat.add_comm. simpl. apply orb_true_r.
  - injection Hs as <-. now left.
  - injection Hs as <-. now right.
  - destruct (timeouts g); [discriminate|]. injection Hs as <-. now right.
Qed.

Lemma run_alive (evs : list Event) :
  forall g g', alive g -> forallb (fun ev => negb (is_on_error ev)) evs = true ->
               run evs g = Some g' -> alive g'.
Proof.
  induction evs as [|ev rest IH]; intros g g' Ha Hn Hr; simpl in *.
  - injection Hr as <-. exact Ha.
  - apply andb_prop in Hn. destruct Hn as [Hev Hrest].
    destruct (step ev g) as [g1|] eqn:Hs; [|discriminate].
    apply (IH g1 g'); [|exact Hrest|exact Hr].
    apply (step_alive ev g); [|exact Hs].
    now destruct (is_on_error ev).
Qed.

(** C7, as the code has it.  When a connection attempt fails, the flag
    becomes false and one retry is scheduled with the delay 5000 ms, whatever
    the error and however many attempts were made before.  When the
    connection reports [disconnected], the flag becomes false and
    [connectWithRetry] is entered at once: an attempt is pending and no
    timeout is added.  Any number of failures in a row is retried, every
    timeout ever pending has the delay 5000 ms, and along any run of events
    other than the connection's [error] event the gateway is connected or
    has an attempt pending or a retry scheduled. *)
Theorem reconnects_forever_with_fixed_delay (g : Gateway) :
  (forall err g',
      step (ConnectRejected err) g = Some g' ->
      isConnected g' = false
      /\ timeouts g' = timeouts g ++ [5000]
      /\ reconnecting g' = true)
  /\ (exists g',
        step OnDisconnected g = Some g'
        /\ isConnected g' = false
        /\ connecting g' = S (connecting g)
        /\ attempts g' = S (attempts g)
        /\ timeouts g' = timeouts g
        /\ reconnecting g' = true)
  /\ (forall err n,
        (0 < connecting g)%nat ->
        exists g', run (failures err n) g = Some g'
                   /\ connecting g' = connecting g
                   /\ attempts g' = (attempts g + n)%nat)
  /\ (forall evs g',
        run evs startup = Some g' -> Forall (eq 5000) (timeouts g'))
  /\ (forall evs g',
        forallb (fun ev => negb (is_on_error ev)) evs = true ->
        run evs startup = Some g' ->
        isConnected g' = true \/ reconnecting g' = true).
Proof.
  split; [|split; [|split; [|split]]].
  - intros err g' Hs. simpl in Hs.
    destruct (connecting g); [discriminate|]. injection Hs as <-.
    simpl. split; [reflexivity|]. split; [reflexivity|].
    unfold reconnecting. simpl. rewrite length_app. simpl.
    rewrite Nat.add_comm. simpl. apply orb_true_r.
  - eexists. split; [reflexivity|]. simpl. repeat split.
  - intros err n Hc.
    destruct (failures_keep_retrying err n g Hc) as (g' & Hr & Hc' & Ha & _).
    now exists g'.
  - intros evs g' Hr. apply (run_fixed_delay evs startup g'); [|exact Hr].
    constructor.
  - intros evs g' Hn Hr. apply (run_alive evs startup g'); auto.
    now right.
Qed.

(* ------------------------------------------------------------------------- *)
(** ** Bookkeeping of the reconnect loop *)

Lemma count_cons (p : Event -> bool) (ev : Event) (evs : list Event) :
  count p (ev :: evs) = ((if p ev then 1 else 0) + count p evs)%nat.
Proof. unfold count. simpl. destruct (p ev); reflexivity. Qed.

Lemma step_bookkeeping (ev : Event) (g g' : Gateway) :
  step ev g = Some g' ->
  attempts g'
  = (attempts g + (if is_disconnected ev then 1 else 0)
     + (if is_timeout ev then 1 else 0))%nat
  /\ (connecting g' + (if is_resolved ev then 1 else 0)
      + (if is_rejected ev then 1 else 0)
      = connecting g + (if is_disconnected ev then 1 else 0)
        + (if is_timeout ev then 1 else 0))%nat
  /\ (length (timeouts g') + (if is_timeout ev then 1 else 0)
      = length (timeouts g) + (if is_rejected ev then 1 else 0))%nat.
Proof.
  intro Hs. destruct ev; simpl in *.
  - destruct (connecting g) eqn:E; [discriminate|]. injection Hs as <-.
    simpl. rewrite E. simpl. lia.
  - destruct (connecting g) eqn:E; [discriminate|]. injection Hs as <-.
    simpl. rewrite E, length_app. simpl. lia.
  - injection Hs as <-. simpl. lia.
  - injection Hs as <-. simpl. lia.
  - injection Hs as <-. simpl. lia.
  - destruct (timeouts g) eqn:E; [discriminate|]. injection Hs as <-.
    simpl. lia.
Qed.

(** X23.  The loop neither loses nor doubles work.  Along any run of
    events, [connectWithRetry] has been entered once more for every
    [disconnected] event and every timeout fired; every attempt entered is
    still pending or has been settled by exactly one success or failure; and
    the timeouts pending are the failures whose timeout has not fired yet,
    one retry for each failed attempt. *)
Theorem reconnect_loop_bookkeeping (evs : list Event) :
  forall g g',
    run evs g = Some g' ->
    attempts g'
    = (attempts g + count is_disconnected evs + count is_timeout evs)%nat
    /\ (connecting g' + count is_resolved evs + count is_rejected evs
        = connecting g + count is_disconnected evs + count is_timeout evs)%nat
    /\ (length (timeouts g') + count is_timeout evs
        = length (timeouts g) + count is_rejected evs)%nat.
Proof.
  induction evs as [|ev rest IH]; intros g g' Hr; simpl in Hr.
  - injection Hr as <-. unfold count. simpl. lia.
  - destruct (step ev g) as [g1|] eqn:Hs; [|discriminate].
    destruct (step_bookkeeping ev g g1 Hs) as (Ha & Hc & Ht).
    destruct (IH g1 g' Hr) as (Ha' & Hc' & Ht').
    rewrite !count_cons. lia.
Qed.

Lemma step_plain_schedule (ev : Event) (g1 g2 : Gateway) :
  schedule g1 = schedule g2 ->
  option_map schedule (step ev g1) = option_map schedule (step_plain ev g2).
Proof.
  destruct g1 as [f1 c1 t1 a1], g2 as [f2 c2 t2 a2].
  unfold schedule. simpl. intros [= -> -> ->].
  destruct ev; simpl; try reflexivity.
  - destruct c2; reflexivity.
  - destruct c2; reflexivity.
  - destruct t2; reflexivity.
Qed.

Lemma run_plain_schedule (evs : list Event) :
  forall g1 g2,
    schedule g1 = schedule g2 ->
    option_map schedule (run evs g1) = option_map schedule (run_plain evs g2).
Proof.
  induction evs as [|ev rest IH]; intros g1 g2 H; simpl.
  - now rewrite H.
  - pose proof (step_plain_schedule ev g1 g2 H) as Hs.
    destruct (step ev g1) as [g1'|], (step_plain ev g2) as [g2'|];
      simpl in Hs; try discriminate; [|reflexivity].
    apply IH. congruence.
Qed.

(** X24.  The reconnect loop of the second file, which has no readiness
    flag, makes the same attempts and schedules the same retries as the
    loop of the first file: along every run of events the two have the same
    attempts pending, the same timeouts pending and the same number of
    attempts made, and a run possible for one is possible for the other. *)
Theorem second_file_loop_schedules_the_same (evs : list Event) (g : Gateway) :
  option_map schedule (run_plain evs g) = option_map schedule (run evs g).
Proof. symmetry. now apply run_plain_schedule. Qed.

(* ------------------------------------------------------------------------- *)
(** ** Further facts *)

(** X1.  A login that passes the readiness gate and whose lookup is answered
    is refused with 404 "User not found" when no user has the email, and with
    401 "Invalid credentials" when the password does not match the stored
    hash. *)
Theorem login_rejections (P : Platform) (req : Request) (w : World)
        (e : string) :
  up w -> outage w (roundTrips w) = None -> body_email req = Some e ->
  (find (by_email e) (users w) = None ->
   fst (post_login P req w) = Ok (mkResponse 404 (message "User not found")))
  /\ (forall u p h,
        find (by_email e) (users w) = Some u ->
        body_password req = Some p -> password u = Some h ->
        bcrypt_check P p h = false ->
        fst (post_login P req w)
        = Ok (mkResponse 401 (message "Invalid credentials"))).
Proof.
  intros Hup Ho He. split.
  - intro Hf. unfold post_login, route, bind. rewrite (gate_open req w Hup).
    unfold login_handler, try_catch, User_findOne, bind, record_call,
      round_trip. rewrite He. simpl. rewrite Ho. simpl. rewrite Hf. reflexivity.
  - intros u p h Hf Hp Hh Hc.
    unfold post_login, route, bind. rewrite (gate_open req w Hup).
    unfold login_handler, try_catch, User_findOne, bind, record_call,
      round_trip. rewrite He, Hp. simpl. rewrite Ho. simpl. rewrite Hf. simpl.
    unfold bcrypt_compare, bind, record_call, ret. simpl. rewrite Hh. simpl.
    rewrite Hc. reflexivity.
Qed.

(** X2.  The connection's [error] event clears the flag and does nothing
    else.  When no attempt is pending and no retry is scheduled, the gateway
    is then neither connected nor reconnecting, and no timeout or outcome of
    an attempt is left to arrive. *)
Theorem on_error_starts_no_reconnect (err : Err) (g : Gateway) :
  connecting g = 0%nat -> timeouts g = [] ->
  exists g',
    step (OnError err) g = Some g'
    /\ isConnected g' = false
    /\ reconnecting g' = false
    /\ step TimeoutFired g' = None
    /\ step ConnectResolved g' = None
    /\ forall e, step (ConnectRejected e) g' = None.
Proof.
  intros Hc Ht. eexists. split; [reflexivity|].
  unfold reconnecting. simpl. rewrite Hc, Ht. simpl.
  repeat split.
Qed.

(** X3.  In the second file, [GET /profile] has no [try]/[catch]: when the
    lookup fails, the run ends in that exception and not in an answer. *)
Theorem uncaught_profile_lookup (P : Platform) (req : Request) (w : World)
        (token : string) (c : Claims) (err : Err) :
  bearer req = Some token -> token <> "" ->
  fst (jwt_verify P token w) = Ok c ->
  outage w (roundTrips w) = Some err ->
  fst (get_profile_uncaught P req w) = Throw err.
Proof.
  intros Hb Ht Hv Ho. unfold get_profile_uncaught, route, bind.
  pose proof (verifyToken_accepts P req token c w Hb Ht Hv) as Hacc.
  unfold bind in Hacc. rewrite Hacc.
  unfold User_findById, bind, record_call, round_trip. simpl.
  rewrite Ho. reflexivity.
Qed.

(** X4.  In the second file, [POST /register] has no readiness gate: the
    lookup is made whatever the state of the connection. *)
Theorem ungated_register_reaches_store (P : Platform) (req : Request)
        (w : World) :
  exists rest,
    journal (snd (post_register_ungated P req w))
    = journal w ++ CallFindOne (body_email req) :: rest.
Proof.
  unfold post_register_ungated, register_handler, try_catch, register_catch,
    register_try, User_findOne, bind, record_call, round_trip. simpl.
  destruct (outage w (roundTrips w)); simpl; [now exists []|].
  match goal with
  | |- context [option_map _ ?h] => destruct h; simpl; [now exists []|]
  end.
  unfold bcrypt_hash, bind, record_call. simpl.
  destruct (body_password req); simpl.
  2:{ exists [CallHash]. now rewrite <- app_assoc. }
  unfold save, bind, record_call, round_trip. simpl.
  destruct (required_ok _); simpl.
  2:{ eexists. rewrite <- !app_assoc. reflexivity. }
  destruct (outage w (S (roundTrips w))); simpl.
  { eexists. rewrite <- !app_assoc. reflexivity. }
  destruct (existsb _ (users w)); simpl.
  { eexists. rewrite <- !app_assoc. reflexivity. }
  unfold jwt_sign, bind, record_call, Date_now, ret, throw. simpl.
  destruct (JWT_SECRET P); simpl; eexists; rewrite <- !app_assoc;
    reflexivity.
Qed.

(* ------------------------------------------------------------------------- *)
(** ** The reference platform meets the contracts *)

Lemma read_bits_bits (p : positive) (rest : string) :
  Reference.read_bits ((Reference.bits p ++ ",") ++ rest)%string
  = Some (p, rest).
Proof.
  induction p as [q IH|q IH|]; simpl; [now rewrite IH | now rewrite IH |].
  reflexivity.
Qed.

Lemma read_digits_digits (n : N) (rest : string) :
  Reference.read_digits (Reference.digits n ++ rest)%string = Some (n, rest).
Proof.
  destruct n as [|p]; simpl; [reflexivity|]. now rewrite read_bits_bits.
Qed.

Lemma reference_jwt_codec_sound : jwt_codec_sound Reference.platform.
Proof.
  intros [i t x] sig. simpl. unfold Reference.decode, Reference.encode. simpl.
  now rewrite !read_digits_digits.
Qed.

Lemma reference_bcrypt_sound : bcrypt_sound Reference.platform.
Proof.
  intros pw rounds salt. simpl. split; [discriminate | apply String.eqb_refl].
Qed.

Lemma reference_world_up (us : list User) (t : N) : up (Reference.world us t).
Proof. split; reflexivity. Qed.

Lemma reference_world_healthy (us : list User) (t : N) :
  healthy (Reference.world us t).
Proof. intro k. reflexivity. Qed.

(* ------------------------------------------------------------------------- *)
(** ** The results on the reference platform *)

Lemma alice_is_not_bob (u : User) :
  In u [Reference.alice] -> email u <> Some "bob@mcv.club".
Proof. intros [<-|[]]. discriminate. Qed.

(** Bob registers next to Alice and logs in ten seconds later. *)
Lemma register_then_login_witness :
  up (Reference.world [Reference.alice] 5000)
  /\ healthy (Reference.world [Reference.alice] 5000)
  /\ exists res1 token1 w1 newUser,
       post_register Reference.platform
         (Reference.request None (Some "Bob") (Some "bob@mcv.club")
                            (Some "hunter2"))
         (Reference.world [Reference.alice] 5000) = (Ok res1, w1)
       /\ status res1 = 201
       /\ field "token" (body res1) = Some (JStr token1)
       /\ users w1 = [Reference.alice] ++ [newUser]
       /\ fst (verify Reference.platform token1 w1) = Ok (Valid (_id newUser))
       /\ exists res2 token2 w2,
            post_login Reference.platform
              (Reference.request None None (Some "bob@mcv.club")
                                 (Some "hunter2"))
              (Reference.world (users w1) 15000) = (Ok res2, w2)
            /\ status res2 = 200
            /\ field "token" (body res2) = Some (JStr token2)
            /\ fst (verify Reference.platform token2 w2)
               = Ok (Valid (_id newUser)).
Proof.
  split; [apply reference_world_up|]. split; [apply reference_world_healthy|].
  destruct (register_then_login_same_id Reference.platform
              (Reference.request None (Some "Bob") (Some "bob@mcv.club")
                                 (Some "hunter2"))
              (Reference.request None None (Some "bob@mcv.club")
                                 (Some "hunter2"))
              (Reference.world [Reference.alice] 5000)
              "secret" "Bob" "bob@mcv.club" "hunter2"
              (reference_world_up _ _) (reference_world_healthy _ _)
              eq_refl reference_bcrypt_sound reference_jwt_codec_sound
              eq_refl ltac:(discriminate) eq_refl ltac:(discriminate)
              eq_refl eq_refl eq_refl alice_is_not_bob)
    as (res1 & token1 & w1 & newUser & Hreg & Hst & Htok & Hus & _ & Hv1 & Hlog).
  exists res1, token1, w1, newUser.
  split; [exact Hreg|]. split; [exact Hst|]. split; [exact Htok|].
  split; [exact Hus|].
  assert (Hc : clock w1 = 5000).
  { clear - Hreg. simpl in Hreg. now injection Hreg as _ <-. }
  split.
  { apply Hv1. rewrite Hc. simpl. reflexivity. }
  destruct (Hlog (Reference.world (users w1) 15000) eq_refl
                 (reference_world_up _ _) (reference_world_healthy _ _))
    as (res2 & token2 & w2 & Hl & Hs2 & Ht2 & Hv2).
  exists res2, token2, w2.
  split; [exact Hl|]. split; [exact Hs2|]. split; [exact Ht2|].
  apply Hv2.
  assert (Hc2 : clock w2 = 15000).
  { clear - Hl. unfold post_login, route, bind in Hl. simpl in Hl.
    unfold login_handler, try_catch, bind in Hl. simpl in Hl.
    destruct (find _ (users w1)) as [u|]; simpl in Hl.
    - destruct (password u) as [h|]; simpl in Hl.
      + destruct (h =? String "$" "hunter2")%string; simpl in Hl;
          now injection Hl as _ <-.
      + now injection Hl as _ <-.
    - now injection Hl as _ <-. }
  rewrite Hc2. simpl. reflexivity.
Defined.

Lemma alice_token_issued (us : list User) :
  fst (issue Reference.platform 1 (Reference.world us 5000))
  = Ok Reference.alice_token.
Proof. reflexivity. Qed.

(** A token issued at time 5000 is good one second later and no longer good
    a day and one second later; a token that does not parse, and Alice's
    claims under the signature of another token, are not good at any time. *)
Lemma issued_token_witness :
  jwt_codec_sound Reference.platform
  /\ exists token w1,
       issue Reference.platform 42 (Reference.world [] 5000) = (Ok token, w1)
       /\ fst (verify Reference.platform token (Reference.world [] 6000))
          = Ok (Valid 42)
       /\ fst (verify Reference.platform token (Reference.world [] 86406000))
          = Ok Invalid
       /\ fst (verify Reference.platform "abc" (Reference.world [] 6000))
          = Ok Invalid
       /\ fst (verify Reference.platform
                  "p,p10,p1010000110001010,secret/p01010,p10,p1010000110001010,"
                  (Reference.world [] 6000))
          = Ok Invalid.
Proof.
  split; [exact reference_jwt_codec_sound|].
  eexists _, _. split; [reflexivity|].
  destruct (issued_token_verifies_until_expiry Reference.platform 42
              (Reference.world [] 5000) _ _
              reference_jwt_codec_sound eq_refl)
    as (Hgood & Hlate & _ & Hparse & Hsig & _).
  split; [|split; [|split]].
  - apply Hgood. reflexivity.
  - apply Hlate. apply N.leb_le. reflexivity.
  - apply Hparse. reflexivity.
  - apply (Hsig _ _ Reference.alice_claims
                "secret/p01010,p10,p1010000110001010," "secret");
      [reflexivity | reflexivity | intro H; vm_compute in H; discriminate H].
Defined.

(** Eve registers with Alice's email. *)
Lemma register_twice_witness :
  In Reference.alice (users (Reference.world [Reference.alice] 5000))
  /\ email Reference.alice = Some "alice@mcv.club"
  /\ fst (post_register Reference.platform
            (Reference.request None (Some "Eve") (Some "alice@mcv.club")
                               (Some "pw"))
            (Reference.world [Reference.alice] 5000))
     = Ok (mkResponse 400 (message "User already exists"))
  /\ users (snd (post_register Reference.platform
                   (Reference.request None (Some "Eve")
                                      (Some "alice@mcv.club") (Some "pw"))
                   (Reference.world [Reference.alice] 5000)))
     = [Reference.alice].
Proof.
  split; [now left|]. split; [reflexivity|].
  destruct (register_twice_conflicts Reference.platform
              (Reference.request None (Some "Eve") (Some "alice@mcv.club")
                                 (Some "pw"))
              (Reference.world [Reference.alice] 5000)
              "alice@mcv.club" Reference.alice
              eq_refl (or_introl eq_refl) eq_refl) as (Hus & _ & Hres).
  split; [|exact Hus].
  apply Hres; [apply reference_world_up | reflexivity].
Defined.

(** A registration and a login while the flag is cleared. *)
Lemma unready_store_witness :
  isConnected (gateway (Reference.offline [Reference.alice] 5000)) = false
  /\ (exists res,
        post_register Reference.platform
          (Reference.request None (Some "Bob") (Some "bob@mcv.club")
                             (Some "hunter2"))
          (Reference.offline [Reference.alice] 5000)
        = (Ok res, Reference.offline [Reference.alice] 5000)
        /\ status res = 503
        /\ field "state" (body res) = Some (JNum 0))
  /\ journal (snd (post_login Reference.platform
                     (Reference.request None None (Some "alice@mcv.club")
                                        (Some "wonderland"))
                     (Reference.offline [Reference.alice] 5000)))
     = [].
Proof.
  split; [reflexivity|].
  split.
  - exact (proj1 (unready_store_is_not_touched Reference.platform
                    (Reference.request None (Some "Bob") (Some "bob@mcv.club")
                                       (Some "hunter2"))
                    (Reference.offline [Reference.alice] 5000) eq_refl)).
  - exact (proj2 (proj2 (proj2
             (unready_store_is_not_touched Reference.platform
                (Reference.request None None (Some "alice@mcv.club")
                                   (Some "wonderland"))
                (Reference.offline [Reference.alice] 5000) eq_refl)))).
Defined.

(** C5 as stated fails: a header whose scheme is not [Bearer] is not treated
    as "no token".  [Basic abc] is answered 400, not 401, and [Basic] followed
    by Alice's valid token is answered 200 with her profile. *)
Lemma other_scheme_is_not_unauthorized :
  bearer (Reference.request (Some "Basic abc") None None None) = Some "abc"
  /\ fst (get_profile Reference.platform
            (Reference.request (Some "Basic abc") None None None)
            (Reference.world [Reference.alice] 5000))
     = Ok (mkResponse 400 (message "Invalid Token"))
  /\ fst (get_profile Reference.platform
            (Reference.request (Some "Basic abc") None None None)
            (Reference.world [Reference.alice] 5000))
     <> Ok (mkResponse 401 (message "Access Denied"))
  /\ fst (get_profile Reference.platform
            (Reference.request
               (Some ("Basic " ++ Reference.alice_token)%string)
               None None None)
            (Reference.world [Reference.alice] 5000))
     = Ok (mkResponse 200
             (JObj [("message", JStr "Profile retrieved successfully");
                    ("profile",
                     userProfile (minus_password Reference.alice) 5000)])).
Proof.
  split; [reflexivity|]. split; [reflexivity|]. split; [|reflexivity].
  intro H. discriminate H.
Qed.

(** No header, a token that does not parse, and Alice's token. *)
Lemma profile_gate_witness :
  get_profile Reference.platform
    (Reference.request None None None None)
    (Reference.world [Reference.alice] 5000)
  = (Ok (mkResponse 401 (message "Access Denied")),
     Reference.world [Reference.alice] 5000)
  /\ fst (get_profile Reference.platform
            (Reference.request (Some "Bearer abc") None None None)
            (Reference.world [Reference.alice] 5000))
     = Ok (mkResponse 400 (message "Invalid Token"))
  /\ exists profile,
       fst (get_profile Reference.platform
              (Reference.request
                 (Some ("Bearer " ++ Reference.alice_token)%string)
                 None None None)
              (Reference.world [Reference.alice] 5000))
       = Ok (mkResponse 200
               (JObj [("message", JStr "Profile retrieved successfully");
                      ("profile", profile)]))
       /\ field "id" profile = Some (JOid 1)
       /\ field "password" profile = None.
Proof.
  split; [|split].
  - apply (proj1 (proj2 (profile_gate_by_second_header_piece
                           Reference.platform
                           (Reference.request None None None None)
                           (Reference.world [Reference.alice] 5000)))).
    reflexivity.
  - apply (proj1 (proj2 (proj2 (proj2
             (profile_gate_by_second_header_piece
                Reference.platform
                (Reference.request (Some "Bearer abc") None None None)
                (Reference.world [Reference.alice] 5000)))))
            "abc" (mkErr "JsonWebTokenError" "jwt malformed"));
      [reflexivity | discriminate | reflexivity].
  - destruct (proj2 (proj2 (proj2 (proj2
               (profile_gate_by_second_header_piece
                  Reference.platform
                  (Reference.request
                     (Some ("Bearer " ++ Reference.alice_token)%string)
                     None None None)
                  (Reference.world [Reference.alice] 5000)))))
              Reference.alice_token Reference.alice_claims Reference.alice
              eq_refl ltac:(discriminate) eq_refl eq_refl eq_refl)
      as (profile & Hres & Hid & _ & _ & Hpw & _).
    exists profile. split; [exact Hres|]. split; [exact Hid | exact Hpw].
Defined.

(** C7 as stated fails: on [disconnected] no retry is scheduled after five
    seconds; [connectWithRetry] is entered at once, so an attempt is pending
    and no timeout is. *)
Lemma disconnect_schedules_no_timeout :
  step OnDisconnected Reference.gateway_up = Some (mkGateway false 1 [] 2)
  /\ ~ In 5000 (timeouts (mkGateway false 1 [] 2)).
Proof. split; [reflexivity | intros []]. Qed.

(** The first attempt fails; then three more do. *)
Lemma reconnects_forever_witness :
  step (ConnectRejected (mkErr "MongoServerSelectionError" "timed out"))
       startup
  = Some (mkGateway false 0 [5000] 1)
  /\ (exists g',
        step (ConnectRejected (mkErr "MongoServerSelectionError" "timed out"))
             startup = Some g'
        /\ isConnected g' = false /\ timeouts g' = [5000])
  /\ (0 < connecting startup)%nat
  /\ exists g',
       run (failures (mkErr "MongoServerSelectionError" "timed out") 3)
           startup = Some g'
       /\ connecting g' = 1%nat /\ attempts g' = 4%nat.
Proof.
  split; [reflexivity|]. split; [|split; [apply Nat.lt_0_1|]].
  - eexists. split; [reflexivity|].
    destruct (proj1 (reconnects_forever_with_fixed_delay startup)
                    (mkErr "MongoServerSelectionError" "timed out")
                    _ eq_refl) as (Hf & Ht & _).
    split; [exact Hf | exact Ht].
  - exact (proj1 (proj2 (proj2 (reconnects_forever_with_fixed_delay startup)))
                 (mkErr "MongoServerSelectionError" "timed out") 3%nat
                 Nat.lt_0_1).
Defined.

(** Alice renames herself. *)
Lemma put_profile_witness :
  healthy (Reference.world [Reference.alice] 5000)
  /\ fst (put_profile Reference.platform
            (Reference.request
               (Some ("Bearer " ++ Reference.alice_token)%string)
               (Some "Alicia") None None)
            (Reference.world [Reference.alice] 5000))
     = Ok (mkResponse 200
             (JObj [("message", JStr "Profile updated successfully");
                    ("profile",
                     updatedProfile (with_name (Some "Alicia") Reference.alice)
                                    5000)]))
  /\ users (snd (put_profile Reference.platform
                   (Reference.request
                      (Some ("Bearer " ++ Reference.alice_token)%string)
                      (Some "Alicia") None None)
                   (Reference.world [Reference.alice] 5000)))
     = [with_name (Some "Alicia") Reference.alice]
  /\ find (by_id 1)
          (users (snd (put_profile Reference.platform
                         (Reference.request
                            (Some ("Bearer " ++ Reference.alice_token)%string)
                            (Some "Alicia") None None)
                         (Reference.world [Reference.alice] 5000))))
     = Some (mkUser 1 (Some "Alicia") (Some "alice@mcv.club")
                    (Some "$wonderland") "member" 1000 None)
  /\ exists profile,
       fst (put_profile Reference.platform
              (Reference.request
                 (Some ("Bearer " ++ Reference.alice_token)%string)
                 (Some "Alicia") None None)
              (Reference.world [Reference.alice] 5000))
       = Ok (mkResponse 200
               (JObj [("message", JStr "Profile updated successfully");
                      ("profile", JObj profile)]))
       /\ assoc "name" profile = Some (JStr "Alicia")
       /\ assoc "email" profile = Some (JStr "alice@mcv.club").
Proof.
  split; [apply reference_world_healthy|].
  destruct (proj2 (proj2 (proj2
             (put_profile_changes_only_given_fields Reference.platform
                (Reference.request
                   (Some ("Bearer " ++ Reference.alice_token)%string)
                   (Some "Alicia") None None)
                (Reference.world [Reference.alice] 5000))))
            Reference.alice_token Reference.alice_claims Reference.alice
            "Alicia" eq_refl ltac:(discriminate) eq_refl
            (reference_world_healthy _ _) eq_refl eq_refl
            ltac:(discriminate) eq_refl)
    as (Hres & Hus & _ & _ & Hrec & _ & (profile & Hp & _ & Hname & Hemail & _)).
  split; [exact Hres|]. split; [exact Hus|]. split; [exact Hrec|].
  exists profile. split; [exact Hp|]. split; [exact Hname | exact Hemail].
Defined.

(** Bob registers while the store times out. *)
Lemma register_exceptions_witness :
  up (Reference.unreachable [Reference.alice] 5000)
  /\ fst (post_register Reference.platform
            (Reference.request None (Some "Bob") (Some "bob@mcv.club")
                               (Some "hunter2"))
            (Reference.unreachable [Reference.alice] 5000))
     = Ok (mkResponse 500
             (JObj [("message", JStr "Error registering user");
                    ("error", JStr "connection timed out")])).
Proof.
  split; [split; reflexivity|].
  apply (proj1 (proj2 (register_exceptions_surface_as_500 Reference.platform
                         (Reference.request None (Some "Bob")
                                            (Some "bob@mcv.club")
                                            (Some "hunter2"))
                         (Reference.unreachable [Reference.alice] 5000)))
               (mkErr "MongoNetworkError" "connection timed out")).
  - split; reflexivity.
  - reflexivity.
Defined.

(** Alice, who never had a [lastLogin], logs in and reads her profile. *)
Lemma login_persists_nothing_witness :
  users (snd (post_login Reference.platform
                (Reference.request None None (Some "alice@mcv.club")
                                   (Some "wonderland"))
                (Reference.world [Reference.alice] 5000)))
  = [Reference.alice]
  /\ lastLogin Reference.alice = None
  /\ exists profile,
       fst (get_profile Reference.platform
              (Reference.request
                 (Some ("Bearer " ++ Reference.alice_token)%string)
                 None None None)
              (Reference.world [Reference.alice] 5000))
       = Ok (mkResponse 200
               (JObj [("message", JStr "Profile retrieved successfully");
                      ("profile", profile)]))
       /\ field "lastLogin" profile = Some (JDate 5000).
Proof.
  split; [|split; [reflexivity|]].
  - exact (proj1 (login_persists_nothing Reference.platform
                    (Reference.request None None (Some "alice@mcv.club")
                                       (Some "wonderland"))
                    (Reference.world [Reference.alice] 5000))).
  - destruct (proj2 (proj2 (proj2 (proj2
               (login_persists_nothing Reference.platform
                  (Reference.request
                     (Some ("Bearer " ++ Reference.alice_token)%string)
                     None None None)
                  (Reference.world [Reference.alice] 5000)))))
              Reference.alice_token Reference.alice_claims Reference.alice
              eq_refl ltac:(discriminate) eq_refl eq_refl eq_refl eq_refl)
      as (profile & Hres & Hll & _).
    exists profile. split; [exact Hres | exact Hll].
Defined.

(** Nobody is not registered, and Alice's password is not "rabbit". *)
Lemma login_rejections_witness :
  fst (post_login Reference.platform
         (Reference.request None None (Some "nobody@mcv.club") (Some "pw"))
         (Reference.world [Reference.alice] 5000))
  = Ok (mkResponse 404 (message "User not found"))
  /\ fst (post_login Reference.platform
            (Reference.request None None (Some "alice@mcv.club")
                               (Some "rabbit"))
            (Reference.world [Reference.alice] 5000))
     = Ok (mkResponse 401 (message "Invalid credentials")).
Proof.
  split.
  - apply (proj1 (login_rejections Reference.platform
                    (Reference.request None None (Some "nobody@mcv.club")
                                       (Some "pw"))
                    (Reference.world [Reference.alice] 5000)
                    "nobody@mcv.club" (reference_world_up _ _)
                    eq_refl eq_refl)).
    reflexivity.
  - apply (proj2 (login_rejections Reference.platform
                    (Reference.request None None (Some "alice@mcv.club")
                                       (Some "rabbit"))
                    (Reference.world [Reference.alice] 5000)
                    "alice@mcv.club" (reference_world_up _ _)
                    eq_refl eq_refl)
                 Reference.alice "rabbit" "$wonderland");
      reflexivity.
Defined.

(** Alice reads her profile on the second file's route while the store
    times out. *)
Lemma uncaught_profile_lookup_witness :
  fst (get_profile_uncaught Reference.platform
         (Reference.request
            (Some ("Bearer " ++ Reference.alice_token)%string)
            None None None)
         (Reference.unreachable [Reference.alice] 5000))
  = Throw (mkErr "MongoNetworkError" "connection timed out").
Proof.
  apply (uncaught_profile_lookup Reference.platform _ _
           Reference.alice_token Reference.alice_claims);
    [reflexivity | discriminate | reflexivity | reflexivity].
Defined.

(** An [error] event arrives on the connected gateway. *)
Lemma on_error_witness :
  exists g',
    step (OnError (mkErr "MongoNetworkError" "connection reset"))
         Reference.gateway_up = Some g'
    /\ isConnected g' = false
    /\ reconnecting g' = false
    /\ step TimeoutFired g' = None.
Proof.
  destruct (on_error_starts_no_reconnect
              (mkErr "MongoNetworkError" "connection reset")
              Reference.gateway_up eq_refl eq_refl)
    as (g' & Hs & Hf & Hr & Ht & _).
  exists g'. repeat split; assumption.
Defined.

(* ------------------------------------------------------------------------- *)
(** ** More results on the reference platform *)

Lemma reference_world_well_formed :
  well_formed (Reference.world [Reference.alice; Reference.bob] 5000).
Proof.
  split; [|split]; simpl.
  - repeat constructor; simpl; intuition discriminate.
  - repeat constructor.
  - repeat constructor; simpl; intuition discriminate.
Qed.

(** The connection drops under a running server. *)
Lemma connection_events_witness :
  exists w',
    deliver OnDisconnected (Reference.world [Reference.alice] 5000) = Some w'
    /\ users w' = [Reference.alice]
    /\ exists res,
         post_register Reference.platform
           (Reference.request None (Some "Bob") (Some "bob@mcv.club")
                              (Some "hunter2")) w' = (Ok res, w')
         /\ status res = 503.
Proof.
  eexists. split; [reflexivity|].
  destruct (connection_events_drive_the_gate Reference.platform
              OnDisconnected (Reference.world [Reference.alice] 5000) _
              (Reference.request None (Some "Bob") (Some "bob@mcv.club")
                                 (Some "hunter2")) eq_refl)
    as (Hu & Hc & _).
  split; [exact Hu|].
  destruct (Hc eq_refl) as (res & Hr & _ & Hs).
  exists res. split; [exact Hr | exact Hs].
Defined.

(** Alice logs in with her password. *)
Lemma login_succeeds_witness :
  exists res w' u h,
    post_login Reference.platform
      (Reference.request None None (Some "alice@mcv.club")
                         (Some "wonderland"))
      (Reference.world [Reference.alice; Reference.bob] 5000) = (Ok res, w')
    /\ status res = 200
    /\ In u [Reference.alice; Reference.bob]
    /\ email u = Some "alice@mcv.club"
    /\ password u = Some h
    /\ bcrypt_check Reference.platform "wonderland" h = true.
Proof.
  destruct (login_succeeds_only_on_matching_password Reference.platform
              (Reference.request None None (Some "alice@mcv.club")
                                 (Some "wonderland"))
              (Reference.world [Reference.alice; Reference.bob] 5000)
              _ _ eq_refl eq_refl)
    as (u & p & h & key & Hp & Hh & Hc & _ & _ & He).
  destruct (He "alice@mcv.club" eq_refl) as [Hin Hem].
  injection Hp as <-.
  eexists _, _, u, h. split; [reflexivity|]. split; [reflexivity|].
  repeat split; assumption.
Defined.

(** Carol registers next to Alice and Bob. *)
Lemma well_formed_witness :
  well_formed (Reference.world [Reference.alice; Reference.bob] 5000)
  /\ well_formed
       (snd (post_register Reference.platform
               (Reference.request None (Some "Carol") (Some "carol@mcv.club")
                                  (Some "pw"))
               (Reference.world [Reference.alice; Reference.bob] 5000)))
  /\ well_formed
       (snd (put_profile Reference.platform
               (Reference.request
                  (Some ("Bearer " ++ Reference.alice_token)%string)
                  (Some "Alicia") (Some "alicia@mcv.club") None)
               (Reference.world [Reference.alice; Reference.bob] 5000))).
Proof.
  split; [exact reference_world_well_formed|]. split.
  - exact (proj1 (routes_keep_the_store_well_formed Reference.platform _ _
                    reference_world_well_formed)).
  - exact (proj2 (proj2 (proj2
             (routes_keep_the_store_well_formed Reference.platform _ _
                reference_world_well_formed)))).
Defined.

Lemma nobody_is_carol (u : User) :
  In u [Reference.alice; Reference.bob] -> email u <> Some "carol@mcv.club".
Proof. intros [<-|[<-|[]]]; discriminate. Qed.

(** Carol registers, and somebody registers with her email four seconds
    later. *)
Lemma registering_again_witness :
  fst (post_register Reference.platform
         (Reference.request None (Some "Carla") (Some "carol@mcv.club")
                            (Some "other"))
         (Reference.world
            (users (snd (post_register Reference.platform
                           (Reference.request None (Some "Carol")
                                              (Some "carol@mcv.club")
                                              (Some "pw"))
                           (Reference.world
                              [Reference.alice; Reference.bob] 5000))))
            9000))
  = Ok (mkResponse 400 (message "User already exists")).
Proof.
  apply (registering_again_conflicts Reference.platform
           (Reference.request None (Some "Carol") (Some "carol@mcv.club")
                              (Some "pw"))
           (Reference.request None (Some "Carla") (Some "carol@mcv.club")
                              (Some "other"))
           (Reference.world [Reference.alice; Reference.bob] 5000)
           "Carol" "carol@mcv.club" "pw"
           (reference_world_up _ _) (reference_world_healthy _ _)
           reference_bcrypt_sound eq_refl ltac:(discriminate)
           eq_refl ltac:(discriminate) eq_refl nobody_is_carol eq_refl
           _ eq_refl (reference_world_up _ _) eq_refl).
Defined.

Lemma reference_bcrypt_sound_without_secret :
  bcrypt_sound Reference.platform_without_secret.
Proof.
  intros pw rounds salt. simpl. split; [discriminate | apply String.eqb_refl].
Qed.

(** Carol registers on a deployment without a secret. *)
Lemma register_stores_before_it_signs_witness :
  JWT_SECRET Reference.platform_without_secret = None
  /\ (exists res,
        fst (post_register Reference.platform_without_secret
               (Reference.request None (Some "Carol") (Some "carol@mcv.club")
                                  (Some "pw"))
               (Reference.world [Reference.alice; Reference.bob] 5000))
        = Ok res
        /\ status res = 500)
  /\ length (users (snd (post_register Reference.platform_without_secret
                           (Reference.request None (Some "Carol")
                                              (Some "carol@mcv.club")
                                              (Some "pw"))
                           (Reference.world
                              [Reference.alice; Reference.bob] 5000))))
     = 3%nat.
Proof.
  split; [reflexivity|].
  destruct (register_stores_before_it_signs Reference.platform_without_secret
              (Reference.request None (Some "Carol") (Some "carol@mcv.club")
                                 (Some "pw"))
              (Reference.world [Reference.alice; Reference.bob] 5000)
              "Carol" "carol@mcv.club" "pw" eq_refl
              (reference_world_up _ _) (reference_world_healthy _ _)
              reference_bcrypt_sound_without_secret
              eq_refl ltac:(discriminate) eq_refl ltac:(discriminate)
              eq_refl nobody_is_carol) as ((res & Hr & Hs & _) & Hu).
  split.
  - exists res. split; [exact Hr | exact Hs].
  - rewrite Hu. reflexivity.
Defined.

(** Carol registers and reads her profile four seconds later. *)
Lemma register_then_read_profile_witness :
  exists res1 token1 w1,
    post_register Reference.platform
      (Reference.request None (Some "Carol") (Some "carol@mcv.club")
                         (Some "pw"))
      (Reference.world [Reference.alice; Reference.bob] 5000) = (Ok res1, w1)
    /\ field "token" (body res1) = Some (JStr token1)
    /\ fst (get_profile Reference.platform
              (Reference.request (Some ("Bearer " ++ token1)%string)
                                 None None None)
              (Reference.world (users w1) 9000))
       = Ok (mkResponse 200
               (JObj [("message", JStr "Profile retrieved successfully");
                      ("profile",
                       JObj [("id", JOid 100);
                             ("name", JStr "Carol");
                             ("email", JStr "carol@mcv.club");
                             ("role", JStr "member");
                             ("createdAt", JDate 5000);
                             ("lastLogin", JDate 9000)])])).
Proof.
  destruct (register_then_read_profile Reference.platform
              (Reference.request None (Some "Carol") (Some "carol@mcv.club")
                                 (Some "pw"))
              (Reference.world [Reference.alice; Reference.bob] 5000)
              "secret" "Carol" "carol@mcv.club" "pw"
              (reference_world_up _ _) (reference_world_healthy _ _)
              eq_refl reference_bcrypt_sound reference_jwt_codec_sound
              eq_refl ltac:(discriminate) eq_refl ltac:(discriminate)
              eq_refl nobody_is_carol
              (proj1 (proj2 reference_world_well_formed)))
    as (res1 & token1 & w1 & Hreg & Htok & Hget).
  exists res1, token1, w1. split; [exact Hreg|]. split; [exact Htok|].
  simpl in Hreg. injection Hreg as <- <-. simpl in Htok.
  injection Htok as <-.
  apply Hget; [reflexivity | discriminate | reflexivity | reflexivity |].
  reflexivity.
Defined.

(** Alice's token, after her record is gone. *)
Lemma profile_of_a_missing_user_witness :
  fst (get_profile Reference.platform
         (Reference.request
            (Some ("Bearer " ++ Reference.alice_token)%string) None None None)
         (Reference.world [Reference.bob] 5000))
  = Ok (mkResponse 404 (message "User not found"))
  /\ fst (put_profile Reference.platform
            (Reference.request
               (Some ("Bearer " ++ Reference.alice_token)%string)
               (Some "Alicia") None None)
            (Reference.world [Reference.bob] 5000))
     = Ok (mkResponse 404 (message "User not found")).
Proof.
  split.
  - exact (proj1 (profile_of_a_missing_user_is_404 Reference.platform
                    (Reference.request
                       (Some ("Bearer " ++ Reference.alice_token)%string)
                       None None None)
                    Reference.alice_token Reference.alice_claims
                    (Reference.world [Reference.bob] 5000)
                    eq_refl ltac:(discriminate) eq_refl eq_refl eq_refl)).
  - exact (proj1 (proj2 (profile_of_a_missing_user_is_404 Reference.platform
                    (Reference.request
                       (Some ("Bearer " ++ Reference.alice_token)%string)
                       (Some "Alicia") None None)
                    Reference.alice_token Reference.alice_claims
                    (Reference.world [Reference.bob] 5000)
                    eq_refl ltac:(discriminate) eq_refl eq_refl eq_refl))).
Defined.

(** Alice asks for Bob's email, and for a new name along with it. *)
Lemma put_profile_taken_email_witness :
  fst (put_profile Reference.platform
         (Reference.request
            (Some ("Bearer " ++ Reference.alice_token)%string)
            (Some "Alicia") (Some "bob@mcv.club") None)
         (Reference.world [Reference.alice; Reference.bob] 5000))
  = Ok (mkResponse 500 (message "Error updating profile"))
  /\ users (snd (put_profile Reference.platform
                   (Reference.request
                      (Some ("Bearer " ++ Reference.alice_token)%string)
                      (Some "Alicia") (Some "bob@mcv.club") None)
                   (Reference.world [Reference.alice; Reference.bob] 5000)))
     = [Reference.alice; Reference.bob].
Proof.
  apply (put_profile_with_a_taken_email_is_500 Reference.platform
           (Reference.request
              (Some ("Bearer " ++ Reference.alice_token)%string)
              (Some "Alicia") (Some "bob@mcv.club") None)
           Reference.alice_token Reference.alice_claims
           Reference.alice Reference.bob "bob@mcv.club"
           (Reference.world [Reference.alice; Reference.bob] 5000)
           eq_refl ltac:(discriminate) eq_refl (reference_world_healthy _ _)
           eq_refl eq_refl ltac:(discriminate) ltac:(discriminate)
           (or_intror (or_introl eq_refl)) ltac:(discriminate) eq_refl).
Defined.

(** Alice sends an empty name and no email. *)
Lemma put_profile_without_fields_witness :
  truthy (Some "") = false
  /\ fst (put_profile Reference.platform
            (Reference.request
               (Some ("Bearer " ++ Reference.alice_token)%string)
               (Some "") None None)
            (Reference.world [Reference.alice; Reference.bob] 5000))
     = Ok (mkResponse 200
             (JObj [("message", JStr "Profile updated successfully");
                    ("profile", updatedProfile Reference.alice 5000)]))
  /\ users (snd (put_profile Reference.platform
                   (Reference.request
                      (Some ("Bearer " ++ Reference.alice_token)%string)
                      (Some "") None None)
                   (Reference.world [Reference.alice; Reference.bob] 5000)))
     = [Reference.alice; Reference.bob].
Proof.
  split; [reflexivity|].
  apply (put_profile_without_fields_changes_nothing Reference.platform
           (Reference.request
              (Some ("Bearer " ++ Reference.alice_token)%string)
              (Some "") None None)
           Reference.alice_token Reference.alice_claims Reference.alice
           (Reference.world [Reference.alice; Reference.bob] 5000)
           eq_refl ltac:(discriminate) eq_refl (reference_world_healthy _ _)
           eq_refl eq_refl eq_refl).
Defined.

(** A registration without a name. *)
Lemma register_without_name_witness :
  users (snd (post_register Reference.platform
                (Reference.request None None (Some "carol@mcv.club")
                                   (Some "pw"))
                (Reference.world [Reference.alice; Reference.bob] 5000)))
  = [Reference.alice; Reference.bob].
Proof.
  exact (proj1 (register_without_name_or_email_stores_nothing
                  Reference.platform
                  (Reference.request None None (Some "carol@mcv.club")
                                     (Some "pw"))
                  (Reference.world [Reference.alice; Reference.bob] 5000)
                  (or_introl eq_refl))).
Defined.

(** Alice logs in while the store times out, and then without a password. *)
Lemma login_failures_witness :
  fst (post_login Reference.platform
         (Reference.request None None (Some "alice@mcv.club")
                            (Some "wonderland"))
         (Reference.unreachable [Reference.alice] 5000))
  = Ok (mkResponse 500
          (JObj [("message", JStr "Login failed");
                 ("error", JStr "connection timed out")]))
  /\ exists res,
       fst (post_login Reference.platform
              (Reference.request None None (Some "alice@mcv.club") None)
              (Reference.world [Reference.alice] 5000)) = Ok res
       /\ status res = 500
       /\ field "message" (body res) = Some (JStr "Login failed").
Proof.
  split.
  - apply (proj1 (login_failures_are_500 Reference.platform
                    (Reference.request None None (Some "alice@mcv.club")
                                       (Some "wonderland"))
                    (Reference.unreachable [Reference.alice] 5000)
                    (conj eq_refl eq_refl))
                 (mkErr "MongoNetworkError" "connection timed out")).
    reflexivity.
  - apply (proj2 (login_failures_are_500 Reference.platform
                    (Reference.request None None (Some "alice@mcv.club") None)
                    (Reference.world [Reference.alice] 5000)
                    (reference_world_up _ _))
                 "alice@mcv.club" Reference.alice);
      reflexivity.
Defined.

(** The header [Bearer] alone, and a header with two spaces. *)
Lemma header_witness :
  get_profile Reference.platform
    (Reference.request (Some "Bearer") None None None)
    (Reference.world [Reference.alice] 5000)
  = (Ok (mkResponse 401 (message "Access Denied")),
     Reference.world [Reference.alice] 5000)
  /\ get_profile Reference.platform
       (Reference.request
          (Some ("Bearer  " ++ Reference.alice_token)%string) None None None)
       (Reference.world [Reference.alice] 5000)
     = (Ok (mkResponse 401 (message "Access Denied")),
        Reference.world [Reference.alice] 5000).
Proof.
  split.
  - apply (proj1 (header_is_cut_at_single_spaces Reference.platform
                    (Reference.request (Some "Bearer") None None None)
                    (Reference.world [Reference.alice] 5000)
                    "Bearer" eq_refl)).
    reflexivity.
  - apply (proj1 (proj2 (header_is_cut_at_single_spaces Reference.platform
                    (Reference.request
                       (Some ("Bearer  " ++ Reference.alice_token)%string)
                       None None None)
                    (Reference.world [Reference.alice] 5000)
                    _ eq_refl))
                 "Bearer" Reference.alice_token);
      reflexivity.
Defined.

(** Alice's token on the second file's route, with and without her record. *)
Lemma second_file_profile_witness :
  fst (get_profile_uncaught Reference.platform
         (Reference.request
            (Some ("Bearer " ++ Reference.alice_token)%string) None None None)
         (Reference.world [Reference.bob] 5000))
  = Ok (mkResponse 200 JNull)
  /\ exists document,
       fst (get_profile_uncaught Reference.platform
              (Reference.request
                 (Some ("Bearer " ++ Reference.alice_token)%string)
                 None None None)
              (Reference.world [Reference.alice] 5000))
       = Ok (mkResponse 200 document)
       /\ field "name" document = Some (JStr "Alice")
       /\ mentions "password" document = false.
Proof.
  split.
  - apply (proj1 (second_file_profile_answers_200 Reference.platform
                    (Reference.request
                       (Some ("Bearer " ++ Reference.alice_token)%string)
                       None None None)
                    Reference.alice_token Reference.alice_claims
                    (Reference.world [Reference.bob] 5000)
                    eq_refl ltac:(discriminate) eq_refl eq_refl)).
    reflexivity.
  - destruct (proj2 (second_file_profile_answers_200 Reference.platform
                       (Reference.request
                          (Some ("Bearer " ++ Reference.alice_token)%string)
                          None None None)
                       Reference.alice_token Reference.alice_claims
                       (Reference.world [Reference.alice] 5000)
                       eq_refl ltac:(discriminate) eq_refl eq_refl)
                    Reference.alice eq_refl)
      as (document & Hr & _ & Hn & _ & Hp).
    exists document. split; [exact Hr|]. split; [exact Hn | exact Hp].
Defined.

(** The first attempt fails and is retried, the connection drops while the
    retry is pending, and one of the two attempts succeeds. *)
Lemma reconnect_loop_bookkeeping_witness :
  exists g',
    run [ConnectRejected (mkErr "MongoServerSelectionError" "timed out");
         TimeoutFired; OnDisconnected; ConnectResolved] startup = Some g'
    /\ attempts g' = 3%nat
    /\ connecting g' = 1%nat
    /\ length (timeouts g') = 0%nat.
Proof.
  eexists. split; [reflexivity|].
  destruct (reconnect_loop_bookkeeping
              [ConnectRejected (mkErr "MongoServerSelectionError" "timed out");
               TimeoutFired; OnDisconnected; ConnectResolved]
              startup _ eq_refl) as (Ha & Hc & Ht).
  split; [exact Ha|]. split; [|reflexivity].
  unfold count in Hc. simpl in Hc. simpl. reflexivity.
Defined.
